(** * The price cache, snapshot ledger and dashboard views of the
      MTG portfolio scripts, embedded from [scripts/_shared.py],
      [scripts/snapshot_prices.py], [scripts/dashboard_data.py],
      [scripts/movers.py] and [scripts/validate_csv_to_prices.py].

    Conventions of the embedding.
    - A Python [str] is a Rocq [string], read as its UTF-8 bytes.
    - A Python [float] is a rational ([Q]) and arithmetic on it is exact:
      the rounding and the range of a double are not modelled. The only
      IEEE special values the scripts can produce (a division by zero
      inside pandas) are written out in the type [xfloat].
    - A JSON document is a value of [json]; a Python [dict] with string
      keys is an association list in insertion order.
    - Exceptions are values of [exn]; fallible code returns [result].
    - The cache directory, the clock and the catalog service are explicit:
      code that touches them runs in the monad [M] over [world]. *)

From Stdlib Require Import ZArith QArith String Ascii List Bool Lia.
From Stdlib Require Import Permutation Sorted.
From stdpp Require Import base option gmap strings list.

Open Scope string_scope.

(** ** Python values *)

Module Py.

Inductive exn : Type :=
| AttributeError
| ValueError
| TypeError
| KeyError
| RequestException          (* requests: HTTP error status, timeout, ... *)
| OperationalError          (* sqlite3: no such table *)
| IntegrityError            (* sqlite3: NOT NULL constraint failed *)
| InterfaceError            (* sqlite3: unsupported parameter type *)
| DatabaseError             (* pandas.read_sql_query: the query failed *)
| RuntimeError (msg : string).

Inductive result (A : Type) : Type :=
| Ok (a : A)
| Raise (e : exn).
Arguments Ok {A} a.
Arguments Raise {A} e.

Definition rbind {A B} (r : result A) (k : A -> result B) : result B :=
  match r with
  | Ok a => k a
  | Raise e => Raise e
  end.

(** [try: r  except Exception: handler] *)
Definition try_except {A} (r : result A) (handler : A) : A :=
  match r with
  | Ok a => a
  | Raise _ => handler
  end.

#[local] Set Warnings "-register-all".

Inductive json : Type :=
| JNull
| JBool (b : bool)
| JNum (q : Q)
| JStr (s : string)
| JArr (items : list json)
| JObj (fields : list (string * json)).

(** A [dict] with string keys, in insertion order, keys distinct. *)
Definition dict : Type := list (string * json).

(** [d.get(k)]: the value, [None] when the key is missing. *)
Fixpoint dict_get (k : string) (d : dict) : json :=
  match d with
  | [] => JNull
  | (k', v) :: rest => if String.eqb k' k then v else dict_get k rest
  end.

(** [d[k] = v]: replaces in place, or appends a new key. *)
Fixpoint dict_set (k : string) (v : json) (d : dict) : dict :=
  match d with
  | [] => [(k, v)]
  | (k', v') :: rest =>
      if String.eqb k' k then (k, v) :: rest else (k', v') :: dict_set k v rest
  end.

(** Truth value of a JSON-decoded object. *)
Definition truthy (j : json) : bool :=
  match j with
  | JNull => false
  | JBool b => b
  | JNum q => negb (Qeq_bool q 0)
  | JStr s => negb (String.eqb s "")
  | JArr l => match l with [] => false | _ => true end
  | JObj l => match l with [] => false | _ => true end
  end.

(** [x or default] *)
Definition py_or (x default : json) : json :=
  if truthy x then x else default.

(** [isinstance(x, (int, float))] together with [float(x)]; [bool] is a
    subclass of [int]. *)
Definition as_int_or_float (j : json) : option Q :=
  match j with
  | JNum q => Some q
  | JBool true => Some 1%Q
  | JBool false => Some 0%Q
  | _ => None
  end.

Lemma dict_get_set_eq k v d : dict_get k (dict_set k v d) = v.
Proof.
  induction d as [|[k' v'] d IH]; simpl.
  - now rewrite String.eqb_refl.
  - destruct (String.eqb k' k) eqn:E; simpl.
    + now rewrite String.eqb_refl.
    + now rewrite E.
Qed.

Lemma dict_get_set_ne k k' v d :
  k <> k' -> dict_get k' (dict_set k v d) = dict_get k' d.
Proof.
  intros Hne. induction d as [|[k0 v0] d IH]; simpl.
  - destruct (String.eqb k k') eqn:E; [|reflexivity].
    apply String.eqb_eq in E. contradiction.
  - destruct (String.eqb k0 k) eqn:E; simpl.
    + apply String.eqb_eq in E. subst k0.
      destruct (String.eqb k k') eqn:E'; [|reflexivity].
      apply String.eqb_eq in E'. contradiction.
    + now rewrite IH.
Qed.

End Py.
Export Py.

(** ** Text helpers: the [str] methods the scripts call *)

Module Text.

(** [s.replace(old, new)] for a one-character [old]. *)
Fixpoint replace_char (old : ascii) (new : string) (s : string) : string :=
  match s with
  | EmptyString => EmptyString
  | String c rest =>
      if Ascii.eqb c old then new ++ replace_char old new rest
      else String c (replace_char old new rest)
  end.

(** ASCII part of [str.lower()]; bytes of longer UTF-8 sequences are kept. *)
Definition lower_ascii (c : ascii) : ascii :=
  let n := nat_of_ascii c in
  if (65 <=? n)%nat && (n <=? 90)%nat then ascii_of_nat (n + 32) else c.

Fixpoint lower (s : string) : string :=
  match s with
  | EmptyString => EmptyString
  | String c rest => String (lower_ascii c) (lower rest)
  end.

(** Number of bytes of the whitespace character [s] starts with, [0] when
    it starts with none. The characters are those of [str.isspace]:
    U+0009..000D, U+001C..001F, U+0020, U+0085, U+00A0, U+1680,
    U+2000..200A, U+2028, U+2029, U+202F, U+205F, U+3000, in UTF-8. *)
Definition ws_len (s : string) : nat :=
  match s with
  | EmptyString => 0
  | String c0 r0 =>
      let b0 := nat_of_ascii c0 in
      if ((9 <=? b0) && (b0 <=? 13) || (28 <=? b0) && (b0 <=? 32))%nat then 1
      else
        match r0 with
        | EmptyString => 0
        | String c1 r1 =>
            let b1 := nat_of_ascii c1 in
            if ((b0 =? 194) && ((b1 =? 133) || (b1 =? 160)))%nat then 2
            else
              match r1 with
              | EmptyString => 0
              | String c2 _ =>
                  let b2 := nat_of_ascii c2 in
                  if ((b0 =? 225) && (b1 =? 154) && (b2 =? 128)
                      || (b0 =? 226) && (b1 =? 128)
                         && ((128 <=? b2) && (b2 <=? 138)
                             || (b2 =? 168) || (b2 =? 169) || (b2 =? 175))
                      || (b0 =? 226) && (b1 =? 129) && (b2 =? 159)
                      || (b0 =? 227) && (b1 =? 128) && (b2 =? 128))%nat
                  then 3 else 0
              end
        end
  end.

Definition flush (cur : string) : list string :=
  match cur with
  | EmptyString => []
  | _ => [cur]
  end.

(** The scanner behind [s.split()]: [skip] counts the remaining bytes of a
    whitespace character being crossed, [cur] is the token read so far. *)
Fixpoint split_scan (skip : nat) (cur : string) (s : string) : list string :=
  match s with
  | EmptyString => flush cur
  | String c rest =>
      match skip with
      | S k => split_scan k cur rest
      | O =>
          match ws_len s with
          | O => split_scan 0 (cur ++ String c EmptyString) rest
          | S k => flush cur ++ split_scan k EmptyString rest
          end
      end
  end.

(** [s.split()]: the maximal runs of non-whitespace characters. *)
Definition split_ws (s : string) : list string := split_scan 0 EmptyString s.

(** [s.lstrip()]. *)
Fixpoint lstrip_scan (skip : nat) (s : string) : string :=
  match s with
  | EmptyString => EmptyString
  | String c rest =>
      match skip with
      | S k => lstrip_scan k rest
      | O =>
          match ws_len s with
          | O => s
          | S k => lstrip_scan k rest
          end
      end
  end.

Definition lstrip (s : string) : string := lstrip_scan 0 s.

(** [s.isspace() or s == ""]. *)
Definition blank (s : string) : bool :=
  match lstrip s with
  | EmptyString => true
  | _ => false
  end.

(** [s.rstrip()]: cut where only whitespace follows. *)
Fixpoint rstrip (s : string) : string :=
  match s with
  | EmptyString => EmptyString
  | String c rest => if blank s then EmptyString else String c (rstrip rest)
  end.

(** [s.strip()]. *)
Definition strip (s : string) : string := rstrip (lstrip s).

(** [s.split(sep)[0]] for a non-empty [sep]: the text before the first
    occurrence of [sep], all of [s] when there is none. *)
Fixpoint before_first (sep : string) (s : string) : string :=
  match s with
  | EmptyString => EmptyString
  | String c rest =>
      if String.prefix sep s then EmptyString
      else String c (before_first sep rest)
  end.

End Text.

(** ** [scripts/_shared.py]: the price cache and unit-price selection *)

Module Shared.

Definition CACHE_TTL_HOURS : Z := 12.

Record PrintingKey : Type := mkKey {
  set_code : string;
  collector_number : string
}.

(** What a file of the cache directory holds. [path.read_text] raises on
    [Undecodable] bytes; [json.loads] raises on [Malformed] text and gives
    [v] on a [Document v]. Writing [json.dumps v] leaves [Document v]:
    texts are taken up to the document they encode. *)
Inductive file : Type :=
| Undecodable
| Malformed (text : string)
| Document (v : json).

(** The mutable surroundings of a run: the files of the cache directory by
    name, the number of clock readings so far, and the catalog requests
    sent so far (the URL paths, oldest first). *)
Record world : Type := mkWorld {
  disk : gmap string file;
  ticks : nat;
  fetched : list string
}.

Definition M (A : Type) : Type := world -> result A * world.

Definition ret {A} (a : A) : M A := fun w => (Ok a, w).

Definition raise {A} (e : exn) : M A := fun w => (Raise e, w).

Definition bind {A B} (m : M A) (k : A -> M B) : M B :=
  fun w =>
    match m w with
    | (Ok a, w') => k a w'
    | (Raise e, w') => (Raise e, w')
    end.

Notation "x <- m ;; k" := (bind m (fun x => k))
  (at level 100, m at next level, right associativity).

Definition lift {A} (r : result A) : M A := fun w => (r, w).

Fixpoint mapM {A B} (f : A -> M B) (l : list A) : M (list B) :=
  match l with
  | [] => ret []
  | a :: rest => b <- f a ;; bs <- mapM f rest ;; ret (b :: bs)
  end.

Definition _cache_filename (key : PrintingKey) : string :=
  let safe_cn :=
    Text.replace_char " " ""
      (Text.replace_char "\" "_"
         (Text.replace_char "/" "_" (collector_number key))) in
  set_code key ++ "__" ++ safe_cn ++ ".json".

(** [json.loads(path.read_text(encoding="utf-8"))] *)
Definition read_json (f : file) : result json :=
  match f with
  | Undecodable => Raise ValueError      (* UnicodeDecodeError *)
  | Malformed _ => Raise ValueError      (* json.JSONDecodeError *)
  | Document v => Ok v
  end.

(** The receiver of [data.get(...)]: only a [dict] has the method. *)
Definition as_dict (data : json) : result dict :=
  match data with
  | JObj d => Ok d
  | _ => Raise AttributeError
  end.

Section Environment.

(** [clock n] is what the [n]-th call of [time.time()] returns. *)
Variable clock : nat -> Q.

(** The catalog service: the card served at [/cards/<path>], [None] when
    the request fails ([requests.get] or [raise_for_status] raises). *)
Variable catalog : string -> option dict.

Definition time_time : M Q :=
  fun w => (Ok (clock (ticks w)),
            {| disk := disk w; ticks := S (ticks w); fetched := fetched w |}).

Definition write_text (name : string) (f : file) : M unit :=
  fun w => (Ok tt,
            {| disk := <[name := f]> (disk w); ticks := ticks w;
               fetched := fetched w |}).

Definition fetch_scryfall_card (set_code collector_number : string) : M dict :=
  fun w =>
    let url := set_code ++ "/" ++ collector_number in
    let w' := {| disk := disk w; ticks := ticks w;
                 fetched := fetched w ++ [url] |} in
    match catalog url with
    | Some card => (Ok card, w')
    | None => (Raise RequestException, w')
    end.

Definition cache_get (key : PrintingKey) (ttl_hours : Z) : M (option dict) :=
  fun w =>
    match disk w !! _cache_filename key with
    | None => ret None w
    | Some f =>
        match read_json f with
        | Raise _ => ret None w
        | Ok data =>
            (d <- lift (as_dict data) ;;
             match as_int_or_float (dict_get "_fetched_at_epoch" d) with
             | None => ret None
             | Some fetched_at =>
                 now <- time_time ;;
                 let age_seconds := (now - fetched_at)%Q in
                 if Qle_bool age_seconds (inject_Z (ttl_hours * 3600))
                 then ret (Some d)
                 else ret None
             end) w
        end
    end.

Definition cache_set (key : PrintingKey) (card : dict) : M unit :=
  now <- time_time ;;
  write_text (_cache_filename key)
    (Document (JObj (dict_set "_fetched_at_epoch" (JNum now) card))).

Definition fetch_scryfall_card_cached (key : PrintingKey) (ttl_hours : Z)
  : M (dict * string) :=
  cached <- cache_get key ttl_hours ;;
  match cached with
  | Some data => ret (data, "cache_hit")
  | None =>
      card <- fetch_scryfall_card (set_code key) (collector_number key) ;;
      _ <- cache_set key card ;;
      ret (card, "cache_miss_fetched")
  end.

End Environment.

Section Prices.

(** [float(s)] on a [str]: the number it denotes, [None] when it raises
    [ValueError]. *)
Variable float_of_str : string -> option Q.

Definition to_float (x : json) : result (option Q) :=
  match x with
  | JNull => Ok None
  | JStr s =>
      if String.eqb s "" || String.eqb s "null" then Ok None
      else match float_of_str s with
           | Some q => Ok (Some q)
           | None => Raise ValueError
           end
  | JNum q => Ok (Some q)
  | JBool b => Ok (Some (if b then 1%Q else 0%Q))
  | JArr _ | JObj _ => Raise TypeError
  end.

(** [prices = card.get("prices") or {}], as the receiver of [prices.get]. *)
Definition prices_of (card : dict) : result dict :=
  as_dict (py_or (dict_get "prices" card) (JObj [])).

Definition choose_unit_price_usd (card : dict) (finish : string)
  : result (option Q * string) :=
  rbind (prices_of card) (fun prices =>
  rbind (to_float (dict_get "usd" prices)) (fun usd =>
  rbind (to_float (dict_get "usd_foil" prices)) (fun usd_foil =>
    if String.eqb finish "foil" then
      match usd_foil, usd with
      | Some p, _ => Ok (Some p, "ok")
      | None, Some p => Ok (Some p, "fallback_used:usd")
      | None, None => Ok (None, "missing_price_usd")
      end
    else
      match usd, usd_foil with
      | Some p, _ => Ok (Some p, "ok")
      | None, Some p => Ok (Some p, "fallback_used:usd_foil")
      | None, None => Ok (None, "missing_price_usd")
      end))).

End Prices.

End Shared.

(** ** [scripts/snapshot_prices.py]: the snapshot ledger *)

Module SnapshotPrices.

(** A value as SQLite stores it in a column without further typing here. *)
Inductive sqlval : Type :=
| SqlNull
| SqlText (s : string)
| SqlReal (q : Q).

(** A row of [price_snapshots]. The five [NOT NULL] columns are plain
    texts, the others are nullable. *)
Record snapshot_row : Type := mkRow {
  snapshot_date : string;
  scryfall_id : string;
  set_code : string;
  collector_number : string;
  finish : string;
  name : option string;
  rarity : option string;
  type_line : option string;
  usd : option Q;
  fetched_at_epoch : sqlval
}.

(** The rows in rowid order. A database is [None] while the table
    [price_snapshots] does not exist. *)
Definition table : Type := list snapshot_row.

(** [CREATE TABLE IF NOT EXISTS]; the two indexes change no query result. *)
Definition ensure_schema (db : option table) : option table :=
  match db with
  | None => Some []
  | Some t => Some t
  end.

(** The primary key [(snapshot_date, scryfall_id, finish)]. *)
Definition same_key (r r' : snapshot_row) : bool :=
  String.eqb (snapshot_date r) (snapshot_date r')
  && String.eqb (scryfall_id r) (scryfall_id r')
  && String.eqb (finish r) (finish r').

(** [INSERT OR REPLACE]: the rows in conflict on the primary key are
    deleted, then the new row is inserted. *)
Definition insert_or_replace (r : snapshot_row) (t : table) : table :=
  (List.filter (fun r' => negb (same_key r r')) t ++ [r])%list.

(** [SELECT * ... WHERE snapshot_date = ? AND scryfall_id = ? AND finish = ?] *)
Definition rows_for_key (d id f : string) (t : table) : list snapshot_row :=
  List.filter
    (fun r => String.eqb (snapshot_date r) d && String.eqb (scryfall_id r) id
              && String.eqb (finish r) f) t.

Section Binding.

(** How SQLite renders a number stored into a TEXT column, and how it reads
    a text stored into a REAL column ([None]: the text is kept). *)
Variable sql_text : Q -> string.
Variable sql_real : string -> option Q.

(** A JSON-decoded value bound to a column of TEXT affinity. *)
Definition bind_text (j : json) : result (option string) :=
  match j with
  | JNull => Ok None
  | JStr s => Ok (Some s)
  | JNum q => Ok (Some (sql_text q))
  | JBool b => Ok (Some (if b then "1" else "0"))
  | JArr _ | JObj _ => Raise InterfaceError
  end.

(** A JSON-decoded value bound to a column of REAL affinity. *)
Definition bind_real (j : json) : result sqlval :=
  match j with
  | JNull => Ok SqlNull
  | JNum q => Ok (SqlReal q)
  | JBool b => Ok (SqlReal (if b then 1 else 0))
  | JStr s => Ok match sql_real s with
                 | Some q => SqlReal q
                 | None => SqlText s
                 end
  | JArr _ | JObj _ => Raise InterfaceError
  end.

(** The tuple of parameters of [upsert_snapshot], as the row it inserts. *)
Definition row_of (snapshot_date : string) (card : dict)
  (set_code collector_number finish : string) (usd : option Q)
  : result snapshot_row :=
  rbind (bind_text (dict_get "id" card)) (fun id =>
  rbind (bind_text (dict_get "name" card)) (fun name =>
  rbind (bind_text (py_or (dict_get "rarity" card) (JStr "unknown")))
    (fun rarity =>
  rbind (bind_text (py_or (dict_get "type_line" card) (JStr ""))) (fun type_line =>
  rbind (bind_real (dict_get "_fetched_at_epoch" card)) (fun fetched_at =>
    match id with
    | None => Raise IntegrityError
    | Some id =>
        Ok {| snapshot_date := snapshot_date; scryfall_id := id;
              set_code := set_code; collector_number := collector_number;
              finish := finish; name := name; rarity := rarity;
              type_line := type_line; usd := usd;
              fetched_at_epoch := fetched_at |}
    end))))).

Definition upsert_snapshot (db : option table) (snapshot_date : string)
  (card : dict) (set_code collector_number finish : string) (usd : option Q)
  : result table :=
  rbind (row_of snapshot_date card set_code collector_number finish usd)
    (fun r =>
       match db with
       | None => Raise OperationalError
       | Some t => Ok (insert_or_replace r t)
       end).

End Binding.

End SnapshotPrices.

(** ** The pandas operations the scripts use, on lists of rows *)

Module Frame.

(** An owned position: a row of the loaded collection. *)
Record position : Type := mkPosition {
  set_code : string;
  collector_number : string;
  finish : string;
  qty : Z
}.

(** A position joined with catalog or snapshot columns. A missing value
    ([None], [NaN], SQL [NULL]) is [None]. *)
Record holding : Type := mkHolding {
  owned : position;
  scryfall_id : string;
  name : option string;
  rarity : option string;
  type_line : option string;
  usd : option Q
}.

(** The column [position_value_usd = usd * qty]. *)
Definition position_value_usd (h : holding) : option Q :=
  match usd h with
  | Some p => Some (p * inject_Z (qty (owned h)))%Q
  | None => None
  end.

(** [Series.sum(skipna=True)]: the values in row order, missing ones left
    out. *)
Definition sum_skipna (l : list (option Q)) : Q :=
  fold_right (fun o acc => match o with Some q => q + acc | None => acc end)%Q
    0%Q l.

Definition sum_Z (l : list Z) : Z := fold_right Z.add 0%Z l.

(** [df.dropna(subset=["usd"])] *)
Definition dropna_usd (rows : list holding) : list holding :=
  List.filter (fun h => match usd h with Some _ => true | None => false end) rows.

(** The value of a priced row, as a sort key. *)
Definition value_key (h : holding) : Q :=
  match position_value_usd h with
  | Some v => v
  | None => 0
  end.

(** Comparators handed to the sort: [ascending=True] and [ascending=False]. *)
Definition asc {A} (key : A -> Q) (a b : A) : bool := Qle_bool (key a) (key b).
Definition desc {A} (key : A -> Q) (a b : A) : bool := Qle_bool (key b) (key a).

(** A row of a [groupby(...).agg(count=sum of qty, value_usd=sum of value)]. *)
Record breakdown_row : Type := mkBreakdown {
  bucket : option string;
  count : Z;
  value_usd : Q
}.

Definition key_eqb (a b : option string) : bool :=
  match a, b with
  | Some x, Some y => String.eqb x y
  | None, None => true
  | _, _ => false
  end.

(** Group keys come sorted, the missing key last ([dropna=False]). *)
Definition key_leb (a b : option string) : bool :=
  match a, b with
  | Some x, Some y => String.leb x y
  | _, None => true
  | None, Some _ => false
  end.

Fixpoint insert_key (k : option string) (l : list (option string))
  : list (option string) :=
  match l with
  | [] => [k]
  | x :: rest =>
      if key_eqb k x then l
      else if key_leb k x then k :: l
      else x :: insert_key k rest
  end.

Definition group_keys (ks : list (option string)) : list (option string) :=
  fold_right insert_key [] ks.

Definition groupby_sum {A} (key : A -> option string) (q : A -> Z)
  (value : A -> option Q) (rows : list A) : list breakdown_row :=
  List.map
    (fun k =>
       let members := List.filter (fun r => key_eqb (key r) k) rows in
       {| bucket := k;
          count := sum_Z (List.map q members);
          value_usd := sum_skipna (List.map value members) |})
    (group_keys (List.map key rows)).

(** [left.merge(right, on=..., how="inner")]: rows in the order of the left
    frame, each with its matches in the order of the right frame. *)
Definition merge_inner {L R O} (matches : L -> R -> bool) (join : L -> R -> O)
  (left : list L) (right : list R) : list O :=
  flat_map (fun l => List.map (join l) (List.filter (matches l) right)) left.

(** Insertion sort that keeps equal rows in input order: the stable sort. *)
Fixpoint insert_stable {A} (le : A -> A -> bool) (x : A) (l : list A) : list A :=
  match l with
  | [] => [x]
  | y :: rest => if le x y then x :: l else y :: insert_stable le x rest
  end.

Definition stable_sort {A} (le : A -> A -> bool) (l : list A) : list A :=
  fold_right (insert_stable le) [] l.

(** A sort that is as good by the library's contract but lists equal rows
    in reverse input order. *)
Definition tie_reversing_sort {A} (le : A -> A -> bool) (l : list A) : list A :=
  stable_sort le (rev l).

(** What [sort_values] promises whatever its [kind]: the rows, rearranged
    into the requested order. *)
Definition sorts (sort_by : forall A, (A -> A -> bool) -> list A -> list A)
  : Prop :=
  forall A (le : A -> A -> bool) (l : list A),
    Permutation (sort_by A le l) l /\
    ((forall a b, le a b = true \/ le b a = true) ->
     (forall a b c, le a b = true -> le b c = true -> le a c = true) ->
     StronglySorted (fun a b => le a b = true) (sort_by A le l)).

(** A row of the baseline query: [scryfall_id, finish, usd AS usd_baseline]. *)
Record baseline_row : Type := mkBaseline {
  b_scryfall_id : string;
  b_finish : string;
  usd_baseline : option Q
}.

(** A row of the movers frame; [P] is the type of the percent column. *)
Record mover (P : Type) : Type := mkMover {
  held : holding;
  current : Q;
  baseline : Q;
  delta_usd : Q;
  pct_change : P
}.
Arguments mkMover {P} _ _ _ _ _.
Arguments held {P} _.
Arguments current {P} _.
Arguments baseline {P} _.
Arguments delta_usd {P} _.
Arguments pct_change {P} _.

(** [latest_owned.merge(baseline_rows, on=["scryfall_id", "finish"],
    how="inner")] followed by [dropna(subset=["usd", "usd_baseline"])]:
    the pairs of a current and a baseline price. *)
Definition joined_prices (rows : list holding) (baseline_rows : list baseline_row)
  : list (holding * Q * Q) :=
  flat_map
    (fun hb : holding * baseline_row =>
       match usd (fst hb), usd_baseline (snd hb) with
       | Some c, Some b => [(fst hb, c, b)]
       | _, _ => []
       end)
    (merge_inner
       (fun h b => String.eqb (scryfall_id h) (b_scryfall_id b)
                   && String.eqb (finish (owned h)) (b_finish b))
       pair rows baseline_rows).

(** A float as pandas computes it: a number, or what a division by zero
    leaves. *)
Inductive xfloat : Type :=
| Fin (q : Q)
| PosInf
| NegInf
| NaN.

(** Float division inside a Series: no exception, IEEE results. *)
Definition xdiv (a b : Q) : xfloat :=
  if Qeq_bool b 0 then
    if Qeq_bool a 0 then NaN
    else if Qle_bool 0 a then PosInf else NegInf
  else Fin (a / b).

(** Multiplication by a positive constant. *)
Definition xscale (x : xfloat) (k : Q) : xfloat :=
  match x with
  | Fin q => Fin (q * k)
  | other => other
  end.

Definition x_nonzero (x : xfloat) : bool :=
  match x with
  | Fin q => negb (Qeq_bool q 0)
  | _ => true
  end.

Definition x_positive (x : xfloat) : bool :=
  match x with
  | Fin q => negb (Qle_bool q 0)
  | PosInf => true
  | _ => false
  end.

Definition x_negative (x : xfloat) : bool :=
  match x with
  | Fin q => negb (Qle_bool 0 q)
  | NegInf => true
  | _ => false
  end.

(** The order of the sort on a float column; [NaN] sorts last. *)
Definition x_leb (x y : xfloat) : bool :=
  match x, y with
  | _, NaN => true
  | NaN, _ => false
  | NegInf, _ => true
  | _, PosInf => true
  | Fin a, Fin b => Qle_bool a b
  | _, _ => false
  end.

(** The greatest text of a column, [None] for no rows: SQL [MAX]. *)
Definition sql_max (l : list string) : option string :=
  fold_right
    (fun s acc =>
       match acc with
       | None => Some s
       | Some m => if String.leb m s then Some s else Some m
       end) None l.

End Frame.

(** ** [scripts/validate_csv_to_prices.py]: type buckets *)

Module ValidateCsv.

(** The separator literal of this script: U+2014 EM DASH. *)
Definition em_dash : string :=
  String "226"%char (String "128"%char (String "148"%char EmptyString)).

Definition type_buckets (type_line : string) : list string :=
  if String.eqb type_line "" then ["Unknown"]
  else
    let left := Text.strip (Text.before_first em_dash type_line) in
    let parts :=
      List.map Text.strip
        (List.filter (fun p => negb (String.eqb (Text.strip p) ""))
           (Text.split_ws left)) in
    match parts with
    | [] => ["Unknown"]
    | _ => parts
    end.

End ValidateCsv.

(** ** [scripts/dashboard_data.py]: the dashboard bundle *)

Module DashboardData.
Import Shared.

Definition no_snapshots : exn :=
  RuntimeError "No snapshots found. Run scripts/snapshot_prices.py first.".

Definition no_snapshots_for_mode : exn :=
  RuntimeError "No snapshots found for snapshot-mode. Either run scripts/snapshot_prices.py or set live_prices=True.".

(** [SELECT MAX(snapshot_date) FROM price_snapshots]; an empty result and
    an empty text both count as no snapshot. *)
Definition _latest_snapshot_date (db : option SnapshotPrices.table)
  : result string :=
  match db with
  | None => Raise OperationalError
  | Some t =>
      match Frame.sql_max (List.map SnapshotPrices.snapshot_date t) with
      | None => Raise no_snapshots
      | Some d => if String.eqb d "" then Raise no_snapshots else Ok d
      end
  end.

(** [SELECT MAX(snapshot_date) ... WHERE snapshot_date <= ?] *)
Definition _snapshot_on_or_before (db : option SnapshotPrices.table)
  (target_date : string) : result (option string) :=
  match db with
  | None => Raise OperationalError
  | Some t =>
      Ok match Frame.sql_max
                 (List.filter (fun d => String.leb d target_date)
                    (List.map SnapshotPrices.snapshot_date t)) with
         | None => None
         | Some d => if String.eqb d "" then None else Some d
         end
  end.

(** The rows of one date, as the baseline query selects them. *)
Definition baseline_rows_on (t : SnapshotPrices.table) (d : string)
  : list Frame.baseline_row :=
  List.map
    (fun r => {| Frame.b_scryfall_id := SnapshotPrices.scryfall_id r;
                 Frame.b_finish := SnapshotPrices.finish r;
                 Frame.usd_baseline := SnapshotPrices.usd r |})
    (List.filter (fun r => String.eqb (SnapshotPrices.snapshot_date r) d) t).

(** [owned.merge(latest_rows, on=["set_code", "collector_number",
    "finish"], how="inner")] over the rows of one date. *)
Definition merge_latest (owned_rows : list Frame.position)
  (t : SnapshotPrices.table) (d : string) : list Frame.holding :=
  Frame.merge_inner
    (fun p r =>
       String.eqb (Frame.set_code p) (SnapshotPrices.set_code r)
       && String.eqb (Frame.collector_number p) (SnapshotPrices.collector_number r)
       && String.eqb (Frame.finish p) (SnapshotPrices.finish r))
    (fun p r =>
       {| Frame.owned := p;
          Frame.scryfall_id := SnapshotPrices.scryfall_id r;
          Frame.name := SnapshotPrices.name r;
          Frame.rarity := SnapshotPrices.rarity r;
          Frame.type_line := SnapshotPrices.type_line r;
          Frame.usd := SnapshotPrices.usd r |})
    owned_rows
    (List.filter (fun r => String.eqb (SnapshotPrices.snapshot_date r) d) t).

(** The separator literal of this script: the three characters U+00E2,
    U+20AC, U+201D (an em dash decoded with the wrong code page). *)
Definition separator : string :=
  String "195"%char (String "162"%char
  (String "226"%char (String "130"%char (String "172"%char
  (String "226"%char (String "128"%char (String "157"%char EmptyString))))))).

Definition type_buckets (type_line : string) : list string :=
  if String.eqb type_line "" then ["Unknown"]
  else
    let left := Text.strip (Text.before_first separator type_line) in
    let parts :=
      List.map Text.strip
        (List.filter (fun p => negb (String.eqb (Text.strip p) ""))
           (Text.split_ws left)) in
    match parts with
    | [] => ["Unknown"]
    | _ => parts
    end.

(** [exploded]: one row per bucket of each holding. *)
Definition explode (buckets : string -> list string) (rows : list Frame.holding)
  : list (string * Frame.holding) :=
  flat_map
    (fun h => List.map (fun b => (b, h))
                (buckets (default "" (Frame.type_line h))))
    rows.

Definition type_breakdown_groups (buckets : string -> list string)
  (rows : list Frame.holding) : list Frame.breakdown_row :=
  Frame.groupby_sum (fun bh => Some (fst bh))
    (fun bh => Frame.qty (Frame.owned (snd bh)))
    (fun bh => Frame.position_value_usd (snd bh))
    (explode buckets rows).

Definition rarity_groups (rows : list Frame.holding) : list Frame.breakdown_row :=
  Frame.groupby_sum Frame.rarity (fun h => Frame.qty (Frame.owned h))
    Frame.position_value_usd rows.

(** The movers frame with [delta_usd] and the guarded [pct_change]. *)
Definition movers_frame (rows : list Frame.holding)
  (baseline_rows : list Frame.baseline_row) : list (Frame.mover (option Q)) :=
  List.map
    (fun hcb : Frame.holding * Q * Q =>
       let '(h, c, b) := hcb in
       let delta := (c - b)%Q in
       Frame.mkMover h c b delta
         (if Qeq_bool b 0 then None else Some (delta / b * 100)%Q))
    (Frame.joined_prices rows baseline_rows).

Record dashboard : Type := mkDashboard {
  pricing_mode : string;
  pricing_asof : string;
  latest_snapshot : string;
  baseline_snapshot : option string;
  total_value_usd : Q;
  num_positions : nat;
  latest_owned : list Frame.holding;
  top_holdings : list Frame.holding;
  gainers : list (Frame.mover (option Q));
  losers : list (Frame.mover (option Q));
  rarity_breakdown : list Frame.breakdown_row;
  type_breakdown : list Frame.breakdown_row;
  portfolio_ts : list (string * Q)
}.

Definition key_of (p : Frame.position) : PrintingKey :=
  mkKey (Frame.set_code p) (Frame.collector_number p).

Definition key_eqb (k k' : PrintingKey) : bool :=
  String.eqb (set_code k) (set_code k')
  && String.eqb (collector_number k) (collector_number k').

(** [drop_duplicates()]: the first occurrence of each key, in order. *)
Fixpoint drop_duplicates (seen l : list PrintingKey) : list PrintingKey :=
  match l with
  | [] => []
  | k :: rest =>
      if existsb (key_eqb k) seen then drop_duplicates seen rest
      else k :: drop_duplicates (k :: seen) rest
  end.

(** [card_cache[key]] *)
Fixpoint card_of_key (cache : list (PrintingKey * dict)) (k : PrintingKey)
  : result dict :=
  match cache with
  | [] => Raise KeyError
  | (k', card) :: rest => if key_eqb k' k then Ok card else card_of_key rest k
  end.

Fixpoint mapR {A B} (f : A -> result B) (l : list A) : result (list B) :=
  match l with
  | [] => Ok []
  | a :: rest =>
      rbind (f a) (fun b => rbind (mapR f rest) (fun bs => Ok (b :: bs)))
  end.

Section Run.

Variable clock : nat -> Q.
Variable catalog : string -> option dict.
Variable float_of_str : string -> option Q.

(** [str(x)] of a JSON-decoded value that is not a [str]. *)
Variable py_repr : json -> string.

(** [(date.fromisoformat(d) - timedelta(days=n)).isoformat()], [None] when
    it raises. *)
Variable date_minus_days : string -> Z -> option string.

(** [date.today().isoformat()] *)
Variable today : string.

(** [DataFrame.sort_values] with the default [kind], by a comparator. *)
Variable sort_by : forall A : Type, (A -> A -> bool) -> list A -> list A.

(** The loaded collection and the snapshot database of the run. *)
Variable owned_rows : list Frame.position.
Variable db : option SnapshotPrices.table.

Definition py_str (j : json) : string :=
  match j with
  | JStr s => s
  | _ => py_repr j
  end.

Definition live_row (cache : list (PrintingKey * dict)) (p : Frame.position)
  : result Frame.holding :=
  rbind (card_of_key cache (key_of p)) (fun card =>
  rbind (choose_unit_price_usd float_of_str card (Frame.finish p)) (fun unit =>
    Ok {| Frame.owned := p;
          Frame.scryfall_id := py_str (py_or (dict_get "id" card) (JStr ""));
          Frame.name := Some (py_str (py_or (dict_get "name" card) (JStr "")));
          Frame.rarity :=
            Some (Text.lower
                    (py_str (py_or (dict_get "rarity" card) (JStr "unknown"))));
          Frame.type_line :=
            Some (py_str (py_or (dict_get "type_line" card) (JStr "")));
          Frame.usd := fst unit |})).

Definition _compute_live_owned (ttl_hours : Z) : M (list Frame.holding) :=
  let unique := drop_duplicates [] (List.map key_of owned_rows) in
  card_cache <-
    mapM (fun key =>
            fetched_card <- fetch_scryfall_card_cached clock catalog key ttl_hours ;;
            ret (key, fst fetched_card))
      unique ;;
  lift (mapR (live_row card_cache) owned_rows).

(** The body of the [try] that opens the database. *)
Definition history (days : Z)
  : result (option string * option string * list Frame.baseline_row) :=
  rbind (_latest_snapshot_date db) (fun latest =>
  match date_minus_days latest days with
  | None => Raise ValueError
  | Some target =>
      rbind (_snapshot_on_or_before db target) (fun baseline =>
      match baseline, db with
      | Some b, Some t => Ok (Some latest, Some b, baseline_rows_on t b)
      | Some b, None => Raise DatabaseError
      | None, _ => Ok (Some latest, None, [])
      end)
  end).

Definition get_portfolio_timeseries : result (list (string * Q)) :=
  match db with
  | None => Raise DatabaseError
  | Some t =>
      let snaps :=
        List.filter
          (fun r => match SnapshotPrices.usd r with Some _ => true | None => false end)
          t in
      let merged :=
        Frame.merge_inner
          (fun p r =>
             String.eqb (Frame.set_code p) (SnapshotPrices.set_code r)
             && String.eqb (Frame.collector_number p)
                  (SnapshotPrices.collector_number r)
             && String.eqb (Frame.finish p) (SnapshotPrices.finish r))
          (fun p r =>
             (SnapshotPrices.snapshot_date r,
              match SnapshotPrices.usd r with
              | Some u => Some (u * inject_Z (Frame.qty p))%Q
              | None => None
              end))
          owned_rows snaps in
      let grouped :=
        List.map (fun g => (default "" (Frame.bucket g), Frame.value_usd g))
          (Frame.groupby_sum (fun dv => Some (fst dv)) (fun _ => 0%Z) snd merged) in
      Ok (sort_by _ (fun a b => String.leb (fst a) (fst b)) grouped)
  end.

(** The block "Top holdings": drop unpriced rows, sort by value
    descending, keep the first [top_n]. *)
Definition top_view (top_n : nat) (rows : list Frame.holding)
  : list Frame.holding :=
  firstn top_n
    (sort_by _ (Frame.desc Frame.value_key) (Frame.dropna_usd rows)).

(** The block "Movers" once a baseline with rows is at hand: gainers and
    losers. *)
Definition mover_views (top_n : nat) (rows : list Frame.holding)
  (baseline_rows : list Frame.baseline_row)
  : list (Frame.mover (option Q)) * list (Frame.mover (option Q)) :=
  let movers := movers_frame rows baseline_rows in
  let moved :=
    List.filter (fun m => negb (Qeq_bool (Frame.delta_usd m) 0)) movers in
  (firstn top_n
     (sort_by _ (Frame.desc Frame.delta_usd)
        (List.filter (fun m => negb (Qle_bool (Frame.delta_usd m) 0)) moved)),
   firstn top_n
     (sort_by _ (Frame.asc Frame.delta_usd)
        (List.filter (fun m => negb (Qle_bool 0 (Frame.delta_usd m))) moved))).

Definition get_dashboard_data (days : Z) (top_n : nat) (live_prices : bool)
  : M dashboard :=
  let '(latest, baseline, baseline_rows) :=
    try_except (history days) (None, None, []) in
  let mode := if live_prices then "live" else "snapshot" in
  let asof := if live_prices then today else default "N/A" latest in
  rows <-
    (if live_prices then _compute_live_owned CACHE_TTL_HOURS
     else
       match latest, db with
       | None, _ => raise no_snapshots_for_mode
       | Some d, Some t => ret (merge_latest owned_rows t d)
       | Some d, None => raise DatabaseError
       end) ;;
  let top := top_view top_n rows in
  let total := Frame.sum_skipna (List.map Frame.position_value_usd rows) in
  let by_rarity :=
    sort_by _ (Frame.desc Frame.value_usd) (rarity_groups rows) in
  let by_type :=
    sort_by _ (Frame.desc Frame.value_usd)
      (type_breakdown_groups type_buckets rows) in
  let '(up, down) :=
    match baseline, baseline_rows with
    | Some _, _ :: _ => mover_views top_n rows baseline_rows
    | _, _ => ([], [])
    end in
  ts <- lift get_portfolio_timeseries ;;
  ret {| pricing_mode := mode;
         pricing_asof := asof;
         latest_snapshot := default "N/A" latest;
         baseline_snapshot := baseline;
         total_value_usd := total;
         num_positions := length rows;
         latest_owned := rows;
         top_holdings := top;
         gainers := up;
         losers := down;
         rarity_breakdown := by_rarity;
         type_breakdown := by_type;
         portfolio_ts := ts |}.

End Run.

End DashboardData.

(** ** [scripts/movers.py]: the command-line movers report *)

Module Movers.

Definition no_snapshots : exn :=
  RuntimeError "No snapshots found. Run scripts/snapshot_prices.py first.".

Definition not_enough_history (target latest : string) : exn :=
  RuntimeError
    ("Not enough snapshot history. Need a snapshot on or before " ++ target
     ++ ". Current latest is " ++ latest
     ++ ". (Tip: run scripts/dev_clone_snapshot.py for testing.)").

Definition latest_snapshot_date (db : option SnapshotPrices.table)
  : result string :=
  match db with
  | None => Raise OperationalError
  | Some t =>
      match Frame.sql_max (List.map SnapshotPrices.snapshot_date t) with
      | None => Raise no_snapshots
      | Some d => if String.eqb d "" then Raise no_snapshots else Ok d
      end
  end.

Definition snapshot_on_or_before (db : option SnapshotPrices.table)
  (target_date : string) : result (option string) :=
  match db with
  | None => Raise OperationalError
  | Some t =>
      Ok match Frame.sql_max
                 (List.filter (fun d => String.leb d target_date)
                    (List.map SnapshotPrices.snapshot_date t)) with
         | None => None
         | Some d => if String.eqb d "" then None else Some d
         end
  end.

(** What [main] prints, as data. *)
Record report : Type := mkReport {
  latest : string;
  baseline_date : string;
  top_holdings : list Frame.holding;
  total_value : Q;
  sort_col : string;
  gainers : list (Frame.mover Frame.xfloat);
  losers : list (Frame.mover Frame.xfloat)
}.

(** The movers frame: [delta_usd], and [pct_change] by a plain Series
    division. *)
Definition movers_frame (rows : list Frame.holding)
  (baseline_rows : list Frame.baseline_row)
  : list (Frame.mover Frame.xfloat) :=
  List.map
    (fun hcb : Frame.holding * Q * Q =>
       let '(h, c, b) := hcb in
       let delta := (c - b)%Q in
       Frame.mkMover h c b delta (Frame.xscale (Frame.xdiv delta b) 100))
    (Frame.joined_prices rows baseline_rows).

Section Run.

Variable date_minus_days : string -> Z -> option string.
Variable sort_by : forall A : Type, (A -> A -> bool) -> list A -> list A.
Variable owned_rows : list Frame.position.
Variable db : option SnapshotPrices.table.

(** The rows of the latest date joined to the collection; this script
    selects neither [rarity] nor [type_line]. *)
Definition latest_owned (t : SnapshotPrices.table) (d : string)
  : list Frame.holding :=
  Frame.merge_inner
    (fun p r =>
       String.eqb (Frame.set_code p) (SnapshotPrices.set_code r)
       && String.eqb (Frame.collector_number p) (SnapshotPrices.collector_number r)
       && String.eqb (Frame.finish p) (SnapshotPrices.finish r))
    (fun p r =>
       {| Frame.owned := p;
          Frame.scryfall_id := SnapshotPrices.scryfall_id r;
          Frame.name := SnapshotPrices.name r;
          Frame.rarity := None;
          Frame.type_line := None;
          Frame.usd := SnapshotPrices.usd r |})
    owned_rows
    (List.filter (fun r => String.eqb (SnapshotPrices.snapshot_date r) d) t).

Definition baseline_rows_on (t : SnapshotPrices.table) (d : string)
  : list Frame.baseline_row :=
  List.map
    (fun r => {| Frame.b_scryfall_id := SnapshotPrices.scryfall_id r;
                 Frame.b_finish := SnapshotPrices.finish r;
                 Frame.usd_baseline := SnapshotPrices.usd r |})
    (List.filter (fun r => String.eqb (SnapshotPrices.snapshot_date r) d) t).

(** The block "Top holdings (by value)". *)
Definition top_view (top_n : nat) (rows : list Frame.holding)
  : list Frame.holding :=
  let holdings := Frame.dropna_usd rows in
  match holdings with
  | [] => []
  | _ => firstn top_n (sort_by _ (Frame.desc Frame.value_key) holdings)
  end.

Definition main (days : Z) (top_n : nat) (sort_mode : string) : result report :=
  rbind (latest_snapshot_date db) (fun latest =>
  match date_minus_days latest days with
  | None => Raise ValueError
  | Some target =>
      rbind (snapshot_on_or_before db target) (fun baseline =>
      match baseline, db with
      | None, _ => Raise (not_enough_history target latest)
      | Some _, None => Raise OperationalError
      | Some b, Some t =>
          let rows := latest_owned t latest in
          let holdings := Frame.dropna_usd rows in
          let top := top_view top_n rows in
          let total :=
            Frame.sum_skipna (List.map Frame.position_value_usd holdings) in
          let movers := movers_frame rows (baseline_rows_on t b) in
          let col : Frame.mover Frame.xfloat -> Frame.xfloat :=
            if String.eqb sort_mode "abs"
            then (fun m => Frame.Fin (Frame.delta_usd m))
            else Frame.pct_change in
          let moved := List.filter (fun m => Frame.x_nonzero (col m)) movers in
          let gainers_pool :=
            List.filter (fun m => Frame.x_positive (col m)) moved in
          let losers_pool :=
            List.filter (fun m => Frame.x_negative (col m)) moved in
          Ok {| latest := latest;
                baseline_date := b;
                top_holdings := top;
                total_value := total;
                sort_col :=
                  if String.eqb sort_mode "abs" then "delta_usd" else "pct_change";
                gainers :=
                  firstn top_n
                    (sort_by _ (fun x y => Frame.x_leb (col y) (col x))
                       gainers_pool);
                losers :=
                  firstn top_n
                    (sort_by _ (fun x y => Frame.x_leb (col x) (col y))
                       losers_pool) |}
      end)
  end).

End Run.

End Movers.

(** ** [scripts/snapshot_prices.py]: the daily snapshot job *)

Module SnapshotJob.
Import Shared.

(** A row of [df[["set", "collector_number", "finish"]]]. *)
Definition printing_finish : Type := (string * string * string)%type.

Definition projected (p : Frame.position) : printing_finish :=
  (Frame.set_code p, Frame.collector_number p, Frame.finish p).

Definition same_row (a b : printing_finish) : bool :=
  let '(s, cn, f) := a in
  let '(s', cn', f') := b in
  String.eqb s s' && String.eqb cn cn' && String.eqb f f'.

(** [drop_duplicates()]: the first occurrence of each row, in order. *)
Fixpoint drop_duplicates (seen l : list printing_finish) : list printing_finish :=
  match l with
  | [] => []
  | r :: rest =>
      if existsb (same_row r) seen then drop_duplicates seen rest
      else r :: drop_duplicates (r :: seen) rest
  end.

Section Run.

Variable clock : nat -> Q.
Variable catalog : string -> option dict.
Variable float_of_str : string -> option Q.
Variable sql_text : Q -> string.
Variable sql_real : string -> option Q.

(** [date.today().isoformat()] *)
Variable today : string.

(** The body of the loop: resolve the card, select the price, upsert. *)
Definition snapshot_one (t : SnapshotPrices.table) (row : printing_finish)
  : M SnapshotPrices.table :=
  let '(s, cn, f) := row in
  let key := mkKey s cn in
  fetched_card <- fetch_scryfall_card_cached clock catalog key CACHE_TTL_HOURS ;;
  priced <- lift (choose_unit_price_usd float_of_str (fst fetched_card) f) ;;
  lift (SnapshotPrices.upsert_snapshot sql_text sql_real (Some t) today
          (fst fetched_card) (set_code key) (collector_number key) f (fst priced)).

Fixpoint snapshot_rows (t : SnapshotPrices.table) (rows : list printing_finish)
  : M SnapshotPrices.table :=
  match rows with
  | [] => ret t
  | row :: rest => t' <- snapshot_one t row ;; snapshot_rows t' rest
  end.

(** [main]: the schema is created and committed first; the rows of the
    loop are committed only after the last one, and an exception closes
    the connection without committing them. The result pairs the outcome
    with the database as committed. *)
Definition main (owned_rows : list Frame.position)
  (db : option SnapshotPrices.table)
  : world -> (result unit * option SnapshotPrices.table) * world :=
  fun w =>
    let created := SnapshotPrices.ensure_schema db in
    match created with
    | None => ((Raise OperationalError, created), w)
    | Some t0 =>
        match snapshot_rows t0
                (drop_duplicates [] (List.map projected owned_rows)) w with
        | (Ok t', w') => ((Ok tt, Some t'), w')
        | (Raise e, w') => ((Raise e, created), w')
        end
    end.

End Run.

End SnapshotJob.

(** ** [scripts/dev_clone_snapshot.py]: cloning and editing a snapshot *)

Module DevClone.

Definition with_date (d : string) (r : SnapshotPrices.snapshot_row)
  : SnapshotPrices.snapshot_row :=
  {| SnapshotPrices.snapshot_date := d;
     SnapshotPrices.scryfall_id := SnapshotPrices.scryfall_id r;
     SnapshotPrices.set_code := SnapshotPrices.set_code r;
     SnapshotPrices.collector_number := SnapshotPrices.collector_number r;
     SnapshotPrices.finish := SnapshotPrices.finish r;
     SnapshotPrices.name := SnapshotPrices.name r;
     SnapshotPrices.rarity := SnapshotPrices.rarity r;
     SnapshotPrices.type_line := SnapshotPrices.type_line r;
     SnapshotPrices.usd := SnapshotPrices.usd r;
     SnapshotPrices.fetched_at_epoch := SnapshotPrices.fetched_at_epoch r |}.

Definition with_usd (p : option Q) (r : SnapshotPrices.snapshot_row)
  : SnapshotPrices.snapshot_row :=
  {| SnapshotPrices.snapshot_date := SnapshotPrices.snapshot_date r;
     SnapshotPrices.scryfall_id := SnapshotPrices.scryfall_id r;
     SnapshotPrices.set_code := SnapshotPrices.set_code r;
     SnapshotPrices.collector_number := SnapshotPrices.collector_number r;
     SnapshotPrices.finish := SnapshotPrices.finish r;
     SnapshotPrices.name := SnapshotPrices.name r;
     SnapshotPrices.rarity := SnapshotPrices.rarity r;
     SnapshotPrices.type_line := SnapshotPrices.type_line r;
     SnapshotPrices.usd := p;
     SnapshotPrices.fetched_at_epoch := SnapshotPrices.fetched_at_epoch r |}.

(** [SELECT 1 ... WHERE snapshot_date = ? LIMIT 1] *)
Definition snapshot_exists (db : option SnapshotPrices.table) (snap_date : string)
  : result bool :=
  match db with
  | None => Raise OperationalError
  | Some t =>
      Ok (existsb (fun r => String.eqb (SnapshotPrices.snapshot_date r) snap_date) t)
  end.

(** [INSERT OR REPLACE ... SELECT ?, ... WHERE snapshot_date = ?]: the rows
    of [src_date] are read first, then written one by one under
    [dst_date]; the result carries [cur.rowcount]. *)
Definition clone_snapshot (db : option SnapshotPrices.table)
  (src_date dst_date : string) : result (SnapshotPrices.table * nat) :=
  match db with
  | None => Raise OperationalError
  | Some t =>
      let selected :=
        List.map (with_date dst_date)
          (List.filter
             (fun r => String.eqb (SnapshotPrices.snapshot_date r) src_date) t) in
      Ok (fold_left (fun acc r => SnapshotPrices.insert_or_replace r acc)
            selected t,
          length selected)
  end.

(** [UPDATE price_snapshots SET usd = ? WHERE snapshot_date = ? AND
    scryfall_id = ? AND finish = ?] *)
Definition apply_override (db : option SnapshotPrices.table)
  (snap_date scryfall_id finish : string) (new_usd : Q)
  : result SnapshotPrices.table :=
  match db with
  | None => Raise OperationalError
  | Some t =>
      Ok (List.map
            (fun r =>
               if String.eqb (SnapshotPrices.snapshot_date r) snap_date
                  && String.eqb (SnapshotPrices.scryfall_id r) scryfall_id
                  && String.eqb (SnapshotPrices.finish r) finish
               then with_usd (Some new_usd) r else r)
            t)
  end.

End DevClone.

(** * Properties *)

(** ** The price cache *)

Module SharedFacts.
Import Shared.

(** The world after one more clock reading. *)
Definition tick (w : world) : world :=
  {| disk := disk w; ticks := S (ticks w); fetched := fetched w |}.

(** The request path of a key. *)
Definition url (key : PrintingKey) : string :=
  set_code key ++ "/" ++ collector_number key.

(** The record stored by [cache_set]: the card with its fetch time. *)
Definition stamped (now : Q) (card : dict) : dict :=
  dict_set "_fetched_at_epoch" (JNum now) card.

(** The record of [key] exists, parses to the payload [d], and carries the
    numeric fetch time [t]. *)
Definition cached_payload (w : world) (key : PrintingKey) (d : dict) (t : Q)
  : Prop :=
  disk w !! _cache_filename key = Some (Document (JObj d)) /\
  as_int_or_float (dict_get "_fetched_at_epoch" d) = Some t.

(** Age at the next clock reading against the time to live, in hours. *)
Definition fresh (clock : nat -> Q) (w : world) (ttl_hours : Z) (t : Q) : Prop :=
  (clock (ticks w) - t <= inject_Z (ttl_hours * 3600))%Q.

(** A record that cannot be read back as JSON. *)
Definition corrupt (f : file) : Prop :=
  f = Undecodable \/ exists text, f = Malformed text.

(** The ways a lookup misses: no record, a corrupt one, a payload without
    a numeric fetch time, or one older than the time to live. *)
Inductive cache_miss (clock : nat -> Q) (w : world) (key : PrintingKey)
  (ttl_hours : Z) : Prop :=
| miss_absent :
    disk w !! _cache_filename key = None -> cache_miss clock w key ttl_hours
| miss_corrupt f :
    disk w !! _cache_filename key = Some f -> corrupt f ->
    cache_miss clock w key ttl_hours
| miss_unstamped d :
    disk w !! _cache_filename key = Some (Document (JObj d)) ->
    as_int_or_float (dict_get "_fetched_at_epoch" d) = None ->
    cache_miss clock w key ttl_hours
| miss_stale d t :
    cached_payload w key d t -> ~ fresh clock w ttl_hours t ->
    cache_miss clock w key ttl_hours.

Section Lookup.

Variable clock : nat -> Q.
Variable catalog : string -> option dict.

Lemma cache_get_absent key ttl w :
  disk w !! _cache_filename key = None ->
  cache_get clock key ttl w = (Ok None, w).
Proof. intros H. unfold cache_get. now rewrite H. Qed.

Lemma cache_get_corrupt key ttl w f :
  disk w !! _cache_filename key = Some f -> corrupt f ->
  cache_get clock key ttl w = (Ok None, w).
Proof.
  intros H [-> | [text ->]]; unfold cache_get; now rewrite H.
Qed.

Lemma cache_get_not_a_dict key ttl w v :
  disk w !! _cache_filename key = Some (Document v) ->
  as_dict v = Raise AttributeError ->
  cache_get clock key ttl w = (Raise AttributeError, w).
Proof.
  intros H Hv. unfold cache_get. rewrite H. simpl.
  unfold bind, lift. now rewrite Hv.
Qed.

Lemma cache_get_unstamped key ttl w d :
  disk w !! _cache_filename key = Some (Document (JObj d)) ->
  as_int_or_float (dict_get "_fetched_at_epoch" d) = None ->
  cache_get clock key ttl w = (Ok None, w).
Proof.
  intros H Ht. unfold cache_get. rewrite H. simpl.
  unfold bind, lift. simpl. now rewrite Ht.
Qed.

Lemma cache_get_fresh key ttl w d t :
  cached_payload w key d t -> fresh clock w ttl t ->
  cache_get clock key ttl w = (Ok (Some d), tick w).
Proof.
  intros [H Ht] Hf. unfold cache_get. rewrite H. simpl.
  unfold bind, lift. simpl. rewrite Ht. simpl.
  apply Qle_bool_iff in Hf. now rewrite Hf.
Qed.

Lemma cache_get_stale key ttl w d t :
  cached_payload w key d t -> ~ fresh clock w ttl t ->
  cache_get clock key ttl w = (Ok None, tick w).
Proof.
  intros [H Ht] Hf. unfold cache_get. rewrite H. simpl.
  unfold bind, lift. simpl. rewrite Ht. simpl.
  destruct (Qle_bool _ _) eqn:E; [|reflexivity].
  apply Qle_bool_iff in E. contradiction.
Qed.

(** A miss leaves the cache directory and the request log as they were and
    reads the clock at most once. *)
Lemma cache_get_miss key ttl w :
  cache_miss clock w key ttl ->
  exists w1, cache_get clock key ttl w = (Ok None, w1) /\
             disk w1 = disk w /\ fetched w1 = fetched w /\
             (w1 = w \/ w1 = tick w).
Proof.
  intros [H | f H Hc | d H Ht | d t H Hf].
  - exists w. rewrite cache_get_absent; auto.
  - exists w. rewrite (cache_get_corrupt _ _ _ f); auto.
  - exists w. rewrite (cache_get_unstamped _ _ _ d); auto.
  - exists (tick w). rewrite (cache_get_stale _ _ _ d t); auto.
Qed.

(** A fresh payload is returned as it is stored: nothing is requested and
    no file changes. *)
Lemma resolve_hit key ttl w d t :
  cached_payload w key d t -> fresh clock w ttl t ->
  fetch_scryfall_card_cached clock catalog key ttl w
  = (Ok (d, "cache_hit"), tick w).
Proof.
  intros H Hf. unfold fetch_scryfall_card_cached, bind.
  now rewrite (cache_get_fresh _ _ _ d t).
Qed.

(** After a miss the catalog is asked once. A served card is written under
    the key's file name with the time of writing and returned as served; a
    failed request propagates and writes nothing. *)
Lemma resolve_miss key ttl w :
  cache_miss clock w key ttl ->
  exists w1 : world,
    disk w1 = disk w /\ fetched w1 = fetched w /\ (w1 = w \/ w1 = tick w) /\
    fetch_scryfall_card_cached clock catalog key ttl w
    = match catalog (url key) with
      | Some card =>
          (Ok (card, "cache_miss_fetched"),
           {| disk := <[_cache_filename key :=
                          Document (JObj (stamped (clock (ticks w1)) card))]>
                        (disk w);
              ticks := S (ticks w1);
              fetched := (fetched w ++ [url key])%list |})
      | None =>
          (Raise RequestException,
           {| disk := disk w; ticks := ticks w1;
              fetched := (fetched w ++ [url key])%list |})
      end.
Proof.
  intros Hm. destruct (cache_get_miss key ttl w Hm) as (w1 & Hg & Hd & Hf & Hw).
  exists w1. repeat split; auto.
  unfold fetch_scryfall_card_cached, bind. rewrite Hg.
  unfold fetch_scryfall_card, url.
  destruct (catalog _) as [card|]; simpl; rewrite ?Hd, ?Hf; reflexivity.
Qed.

(** What [cache_set] leaves behind is read back while it is fresh. *)
Lemma cache_get_after_set key key' card ttl w :
  _cache_filename key' = _cache_filename key ->
  let now := clock (ticks w) in
  let w1 := snd (cache_set clock key card w) in
  disk w1 !! _cache_filename key' = Some (Document (JObj (stamped now card))) /\
  (fresh clock w1 ttl now ->
   cache_get clock key' ttl w1 = (Ok (Some (stamped now card)), tick w1)).
Proof.
  intros Hk now w1.
  assert (Hd : disk w1 !! _cache_filename key'
               = Some (Document (JObj (stamped now card)))).
  { subst w1 now. unfold cache_set, bind, time_time, write_text. simpl.
    rewrite Hk. apply lookup_insert_eq. }
  split; [exact Hd|]. intros Hf.
  apply cache_get_fresh with (t := now); [|exact Hf].
  split; [exact Hd|]. unfold stamped. now rewrite dict_get_set_eq.
Qed.

End Lookup.

(** Sample data: one printing, its catalog card, a clock that starts at
    1000 s and advances one second per reading. *)
Definition neo1 : PrintingKey := mkKey "neo" "1".

Definition neo1_card : dict :=
  [("id", JStr "a1"); ("name", JStr "Ancestral Katana");
   ("prices", JObj [("usd", JStr "0.25"); ("usd_foil", JNull)])].

Definition sample_clock (n : nat) : Q := inject_Z (1000 + Z.of_nat n).

Definition sample_catalog (path : string) : option dict :=
  if String.eqb path "neo/1" then Some neo1_card else None.

Definition world_with (f : file) : world :=
  {| disk := {[ "neo__1.json" := f ]}; ticks := 0; fetched := [] |}.

Definition empty_world : world :=
  {| disk := ∅; ticks := 0; fetched := [] |}.

(** C1. Where the cached resolve misses the rule: a record that parses,
    but not to an object (here the JSON array []). The record exists and
    parses, it is no payload with an age within the time to live, and the
    catalog would serve the card: by the rule the resolve sends one request,
    stores the card and returns it. The code raises [AttributeError] out of
    [cache_get], whose [try] guards the parse alone; it sends no request
    and leaves the record where it is. *)
Theorem resolve_on_array_record :
  disk (world_with (Document (JArr []))) !! _cache_filename neo1
  = Some (Document (JArr [])) /\
  read_json (Document (JArr [])) = Ok (JArr []) /\
  (forall d t, ~ cached_payload (world_with (Document (JArr []))) neo1 d t) /\
  sample_catalog (url neo1) = Some neo1_card /\
  cache_get sample_clock neo1 12 (world_with (Document (JArr [])))
  = (Raise AttributeError, world_with (Document (JArr []))) /\
  fetch_scryfall_card_cached sample_clock sample_catalog neo1 12
    (world_with (Document (JArr [])))
  = (Raise AttributeError, world_with (Document (JArr []))).
Proof.
  split; [reflexivity|]. split; [reflexivity|]. split.
  - intros d t [Hd _]. vm_compute in Hd. discriminate.
  - split; [reflexivity|]. split.
    + now apply (cache_get_not_a_dict sample_clock neo1 12 _ (JArr [])).
    + unfold fetch_scryfall_card_cached, bind.
      now rewrite (cache_get_not_a_dict sample_clock neo1 12 _ (JArr [])).
Qed.

(** The same holds of every record that parses to something else than an
    object, for every key, time to live and catalog. *)
Lemma resolve_on_non_object
  (clock : nat -> Q) (catalog : string -> option dict)
  (key : PrintingKey) (ttl_hours : Z) (w : world) (v : json) :
  disk w !! _cache_filename key = Some (Document v) ->
  (forall d, v <> JObj d) ->
  fetch_scryfall_card_cached clock catalog key ttl_hours w
  = (Raise AttributeError, w).
Proof.
  intros Hd Hv. unfold fetch_scryfall_card_cached, bind.
  rewrite (cache_get_not_a_dict clock key ttl_hours w v Hd); [reflexivity|].
  destruct v; try reflexivity. now destruct (Hv fields).
Qed.

(** C9. A record that cannot be decoded or parsed is treated as no record:
    [cache_get] returns [None] without raising, exactly as on the cache
    with the record removed; the cached resolve then sends its one request
    and, when the card is served, overwrites the record, ending in the very
    state and result it reaches when the record is absent. The only
    exception such a run can raise is the failed request itself. *)
Theorem corrupt_record_is_a_miss
  (clock : nat -> Q) (catalog : string -> option dict)
  (key : PrintingKey) (ttl_hours : Z) (w : world) (f : file) :
  disk w !! _cache_filename key = Some f ->
  corrupt f ->
  let w0 := {| disk := delete (_cache_filename key) (disk w);
               ticks := ticks w; fetched := fetched w |} in
  let run := fetch_scryfall_card_cached clock catalog key ttl_hours w in
  let run0 := fetch_scryfall_card_cached clock catalog key ttl_hours w0 in
  cache_get clock key ttl_hours w = (Ok None, w) /\
  cache_get clock key ttl_hours w0 = (Ok None, w0) /\
  fst run = fst run0 /\
  fetched (snd run) = (fetched w ++ [url key])%list /\
  match catalog (url key) with
  | Some card =>
      run = run0 /\ fst run = Ok (card, "cache_miss_fetched") /\
      disk (snd run) !! _cache_filename key
      = Some (Document (JObj (stamped (clock (ticks w)) card)))
  | None => fst run = Raise RequestException /\ disk (snd run) = disk w
  end.
Proof.
  intros Hf Hc w0 run run0.
  assert (Hg : cache_get clock key ttl_hours w = (Ok None, w))
    by (eapply cache_get_corrupt; eauto).
  assert (Hg0 : cache_get clock key ttl_hours w0 = (Ok None, w0))
    by (apply cache_get_absent; apply lookup_delete_eq).
  subst run run0.
  unfold fetch_scryfall_card_cached, bind. rewrite Hg, Hg0.
  unfold fetch_scryfall_card, url, cache_set, bind, time_time, write_text.
  destruct (catalog _) as [card|]; simpl.
  - repeat split; auto.
    + unfold w0. simpl. now rewrite insert_delete_eq.
    + apply lookup_insert_eq.
  - repeat split; auto.
Qed.

Lemma corrupt_record_is_a_miss_witness :
  cache_get sample_clock neo1 12 (world_with (Malformed "{ not json"))
  = (Ok None, world_with (Malformed "{ not json")) /\
  fst (fetch_scryfall_card_cached sample_clock sample_catalog neo1 12
         (world_with Undecodable))
  = Ok (neo1_card, "cache_miss_fetched").
Proof.
  split.
  - apply (corrupt_record_is_a_miss sample_clock sample_catalog neo1 12
             (world_with (Malformed "{ not json")) (Malformed "{ not json")).
    + reflexivity.
    + right. eexists. reflexivity.
  - pose proof (corrupt_record_is_a_miss sample_clock sample_catalog neo1 12
                  (world_with Undecodable) Undecodable
                  ltac:(reflexivity) ltac:(left; reflexivity)) as H.
    simpl in H. destruct H as (_ & _ & _ & _ & _ & H & _). exact H.
Defined.

(** *** Cache file names *)

Definition is_slash (c : ascii) : bool := Ascii.eqb c "/" || Ascii.eqb c "\".

(** Two collector numbers that differ only in which slash stands where, and
    in spaces. *)
Inductive differ_only_unsafe : string -> string -> Prop :=
| dou_nil : differ_only_unsafe "" ""
| dou_same c s t :
    differ_only_unsafe s t -> differ_only_unsafe (String c s) (String c t)
| dou_slash c1 c2 s t :
    is_slash c1 = true -> is_slash c2 = true ->
    differ_only_unsafe s t -> differ_only_unsafe (String c1 s) (String c2 t)
| dou_space_l s t :
    differ_only_unsafe s t -> differ_only_unsafe (String " " s) t
| dou_space_r s t :
    differ_only_unsafe s t -> differ_only_unsafe s (String " " t).

(** The sanitising substitution of [_cache_filename], in one pass. *)
Definition safe_cn (cn : string) : string :=
  Text.replace_char " " ""
    (Text.replace_char "\" "_" (Text.replace_char "/" "_" cn)).

Lemma safe_cn_cons c cn :
  safe_cn (String c cn)
  = if is_slash c then String "_" (safe_cn cn)
    else if Ascii.eqb c " " then safe_cn cn
    else String c (safe_cn cn).
Proof.
  unfold safe_cn, is_slash. simpl.
  destruct (Ascii.eqb c "/") eqn:E1; simpl.
  - reflexivity.
  - destruct (Ascii.eqb c "\") eqn:E2; simpl.
    + reflexivity.
    + destruct (Ascii.eqb c " "); reflexivity.
Qed.

Lemma safe_cn_differ cn1 cn2 :
  differ_only_unsafe cn1 cn2 -> safe_cn cn1 = safe_cn cn2.
Proof.
  induction 1 as [|c s t _ IH|c1 c2 s t H1 H2 _ IH|s t _ IH|s t _ IH].
  - reflexivity.
  - rewrite !safe_cn_cons, IH. reflexivity.
  - rewrite !safe_cn_cons, H1, H2, IH. reflexivity.
  - rewrite safe_cn_cons. exact IH.
  - rewrite safe_cn_cons. exact IH.
Qed.

Definition cn_slash : PrintingKey := mkKey "neo" "12/a".
Definition cn_backslash : PrintingKey := mkKey "neo" "12\a".
Definition cn_spaced : PrintingKey := mkKey "neo" "1 2".
Definition cn_plain : PrintingKey := mkKey "neo" "12".

Definition card_of (name : string) : dict := [("name", JStr name)].

Definition two_cards (path : string) : option dict :=
  if String.eqb path "neo/12/a" then Some (card_of "served for 12/a")
  else if String.eqb path "neo/12\a" then Some (card_of "served for 12\a")
  else None.

(** C10. The cache file name does not determine the key: keys of one set
    whose collector numbers differ only in '/', '\' or spaces share a file
    ("12/a" and "12\a"; "1 2" and "12"). Hence what [cache_set] writes for
    one key is the record of the other, and [cache_get] for the other key
    returns it while it is fresh. *)
Theorem cache_filename_collides :
  (forall s cn1 cn2, differ_only_unsafe cn1 cn2 ->
     _cache_filename (mkKey s cn1) = _cache_filename (mkKey s cn2)) /\
  (cn_slash <> cn_backslash /\
   _cache_filename cn_slash = _cache_filename cn_backslash) /\
  (cn_spaced <> cn_plain /\
   _cache_filename cn_spaced = _cache_filename cn_plain) /\
  (forall clock k1 k2 card ttl_hours w,
     _cache_filename k1 = _cache_filename k2 ->
     let now := clock (ticks w) in
     let w1 := snd (cache_set clock k1 card w) in
     disk w1 !! _cache_filename k2 = Some (Document (JObj (stamped now card))) /\
     (fresh clock w1 ttl_hours now ->
      cache_get clock k2 ttl_hours w1
      = (Ok (Some (stamped now card)), tick w1))).
Proof.
  split; [|split; [|split]].
  - intros s cn1 cn2 H. unfold _cache_filename. simpl.
    fold (safe_cn cn1). fold (safe_cn cn2).
    now rewrite (safe_cn_differ cn1 cn2 H).
  - split; [discriminate | reflexivity].
  - split; [discriminate | reflexivity].
  - intros clock k1 k2 card ttl_hours w Hk.
    apply cache_get_after_set. symmetry. exact Hk.
Qed.

Lemma cache_filename_collides_witness :
  _cache_filename (mkKey "neo" "1 2/a") = _cache_filename (mkKey "neo" "12\a") /\
  fst (cache_get sample_clock cn_backslash 12
         (snd (cache_set sample_clock cn_slash (card_of "served for 12/a")
                 empty_world)))
  = Ok (Some (stamped 1000 (card_of "served for 12/a"))).
Proof.
  destruct cache_filename_collides as (Hname & _ & _ & Hshare).
  split.
  - apply Hname.
    apply dou_same, dou_space_l, dou_same, dou_slash; try reflexivity.
    apply dou_same, dou_nil.
  - destruct (Hshare sample_clock cn_slash cn_backslash
                (card_of "served for 12/a") 12%Z empty_world eq_refl)
      as [_ Hget].
    rewrite Hget; [reflexivity|].
    unfold fresh. vm_compute. discriminate.
Defined.

(** Through the cached resolve: after the card of "12/a" was fetched, the
    resolve of "12\a" answers from the shared file and never asks for its
    own card. *)
Example resolve_answers_with_other_card :
  let w1 := snd (fetch_scryfall_card_cached sample_clock two_cards
                   cn_slash 12 empty_world) in
  let run := fetch_scryfall_card_cached sample_clock two_cards
               cn_backslash 12 w1 in
  fst run = Ok (stamped 1000 (card_of "served for 12/a"), "cache_hit") /\
  fetched (snd run) = ["neo/12/a"].
Proof. split; reflexivity. Qed.

(** *** Unit price by finish *)

(** A price field that holds no price: missing or null, empty, or the text
    "null". *)
Definition price_absent (x : json) : Prop :=
  x = JNull \/ x = JStr "" \/ x = JStr "null".

(** A price field that holds the price [q], as a number or as its text. *)
Definition price_present (float_of_str : string -> option Q) (x : json) (q : Q)
  : Prop :=
  x = JNum q \/
  exists s, x = JStr s /\ s <> "" /\ s <> "null" /\ float_of_str s = Some q.

Inductive price_field (float_of_str : string -> option Q)
  : json -> option Q -> Prop :=
| pf_absent x : price_absent x -> price_field float_of_str x None
| pf_present x q :
    price_present float_of_str x q -> price_field float_of_str x (Some q).

Lemma to_float_price_field float_of_str x o :
  price_field float_of_str x o -> to_float float_of_str x = Ok o.
Proof.
  intros [x' [-> | [-> | ->]] | x' q [-> | (s & -> & Hs1 & Hs2 & Hf)]];
    try reflexivity.
  simpl. apply String.eqb_neq in Hs1, Hs2. rewrite Hs1, Hs2. simpl.
  now rewrite Hf.
Qed.

(** A reader of plain decimal texts such as "12.50", for the examples. *)
Definition digit_of (c : ascii) : option Z :=
  let n := nat_of_ascii c in
  if ((48 <=? n) && (n <=? 57))%nat then Some (Z.of_nat (n - 48)) else None.

Fixpoint decimal_scan (s : string) (seen_dot : bool) (m : Z) (den : positive)
  : option Q :=
  match s with
  | EmptyString => Some (Qred (m # den))
  | String c rest =>
      if Ascii.eqb c "." then
        if seen_dot then None else decimal_scan rest true m den
      else
        match digit_of c with
        | Some d =>
            decimal_scan rest seen_dot (10 * m + d)
              (if seen_dot then (10 * den)%positive else den)
        | None => None
        end
  end.

Definition decimal (s : string) : option Q :=
  match s with
  | EmptyString => None
  | _ => decimal_scan s false 0 1
  end.




(** A payload without a [prices] object has no price for either finish. *)
Lemma choose_unit_price_no_prices float_of_str card finish :
  truthy (dict_get "prices" card) = false ->
  choose_unit_price_usd float_of_str card finish
  = Ok (None, "missing_price_usd").
Proof.
  intros H. unfold choose_unit_price_usd, prices_of, py_or. rewrite H. simpl.
  destruct (String.eqb finish "foil"); reflexivity.
Qed.

(** *** When the cached resolve returns *)

Section Totality.

Variable clock : nat -> Q.
Variable catalog : string -> option dict.
Variable float_of_str : string -> option Q.

(** The unit price of the card can be selected, whatever the finish. *)
Definition priced (card : dict) : Prop :=
  forall finish, exists unit, choose_unit_price_usd float_of_str card finish = Ok unit.

(** Every record of the cache directory that parses is a priced payload. *)
Definition usable_disk (w : world) : Prop :=
  forall name v, disk w !! name = Some (Document v) ->
                 exists d, v = JObj d /\ priced d.

(** The catalog serves a priced card for the key. *)
Definition served (key : PrintingKey) : Prop :=
  exists card, catalog (url key) = Some card /\ priced card.

Lemma priced_stamped now card : priced card -> priced (stamped now card).
Proof.
  intros H finish. destruct (H finish) as [unit Hu]. exists unit.
  unfold choose_unit_price_usd, prices_of in *. unfold stamped.
  rewrite dict_get_set_ne; [exact Hu | discriminate].
Qed.

(** On a usable cache directory a lookup either finds a fresh payload or
    misses. *)
Lemma hit_or_miss key ttl w :
  usable_disk w ->
  (exists d t, cached_payload w key d t /\ fresh clock w ttl t /\ priced d)
  \/ cache_miss clock w key ttl.
Proof.
  intros Hu. destruct (disk w !! _cache_filename key) as [f|] eqn:E.
  - destruct f as [|text|v].
    + right. eapply miss_corrupt; [exact E | left; reflexivity].
    + right. eapply miss_corrupt; [exact E | right; eauto].
    + destruct (Hu _ _ E) as (d & -> & Hp).
      destruct (as_int_or_float (dict_get "_fetched_at_epoch" d)) as [t|] eqn:Et.
      * destruct (Qlt_le_dec (inject_Z (ttl * 3600)) (clock (ticks w) - t))
          as [Hlt|Hle].
        -- right. apply (miss_stale _ _ _ _ d t); [split; assumption|].
           unfold fresh. intros Hf. apply (Qlt_not_le _ _ Hlt Hf).
        -- left. exists d, t. repeat split; assumption.
      * right. eapply miss_unstamped; eassumption.
  - right. now apply miss_absent.
Qed.

Lemma resolve_returns key ttl w :
  usable_disk w -> served key ->
  exists card note w',
    fetch_scryfall_card_cached clock catalog key ttl w = (Ok (card, note), w') /\
    priced card /\ usable_disk w'.
Proof.
  intros Hu (card & Hc & Hp).
  destruct (hit_or_miss key ttl w Hu) as [(d & t & Hd & Hf & Hpd) | Hm].
  - exists d, "cache_hit", (tick w).
    rewrite (resolve_hit clock catalog key ttl w d t Hd Hf). auto.
  - destruct (resolve_miss clock catalog key ttl w Hm) as (w1 & _ & _ & _ & ->).
    rewrite Hc. do 3 eexists. split; [reflexivity|]. split; [exact Hp|].
    intros name v. simpl. rewrite lookup_insert.
    destruct (decide (_cache_filename key = name)) as [_|_].
    + intros [= <-]. eexists. split; [reflexivity|]. now apply priced_stamped.
    + apply Hu.
Qed.

End Totality.

End SharedFacts.

(** ** A calendar for the examples

    The scripts take [date_minus_days] from the standard library; the
    examples run with this reading of the "YYYY-MM-DD" texts. *)

Module IsoDate.

#[local] Open Scope Z_scope.

Definition digit (c : ascii) : option Z :=
  let n := nat_of_ascii c in
  if ((48 <=? n) && (n <=? 57))%nat then Some (Z.of_nat (n - 48)) else None.

Fixpoint number (acc : Z) (s : string) : option Z :=
  match s with
  | EmptyString => Some acc
  | String c rest =>
      match digit c with
      | Some d => number (10 * acc + d) rest
      | None => None
      end
  end.

(** Days since 1970-01-01 of a civil date, and back. *)
Definition days_from_civil (y m d : Z) : Z :=
  let y := if m <=? 2 then y - 1 else y in
  let era := y / 400 in
  let yoe := y - era * 400 in
  let doy := (153 * (if 2 <? m then m - 3 else m + 9) + 2) / 5 + d - 1 in
  let doe := yoe * 365 + yoe / 4 - yoe / 100 + doy in
  era * 146097 + doe - 719468.

Definition civil_from_days (z : Z) : Z * Z * Z :=
  let z := z + 719468 in
  let era := z / 146097 in
  let doe := z - era * 146097 in
  let yoe := (doe - doe / 1460 + doe / 36524 - doe / 146096) / 365 in
  let doy := doe - (365 * yoe + yoe / 4 - yoe / 100) in
  let mp := (5 * doy + 2) / 153 in
  let d := doy - (153 * mp + 2) / 5 + 1 in
  let m := if mp <? 10 then mp + 3 else mp - 9 in
  (yoe + era * 400 + (if m <=? 2 then 1 else 0), m, d).

Definition parse (s : string) : option Z :=
  if (String.length s =? 10)%nat
     && String.eqb (String.substring 4 1 s) "-"
     && String.eqb (String.substring 7 1 s) "-"
  then
    match number 0 (String.substring 0 4 s), number 0 (String.substring 5 2 s),
          number 0 (String.substring 8 2 s) with
    | Some y, Some m, Some d =>
        let z := days_from_civil y m d in
        let '(y', m', d') := civil_from_days z in
        if (1 <=? y) && (y' =? y) && (m' =? m) && (d' =? d) then Some z else None
    | _, _, _ => None
    end
  else None.

Definition digit_char (d : Z) : ascii := ascii_of_nat (48 + Z.to_nat d).

Definition two_digits (n : Z) : string :=
  String (digit_char (n / 10)) (String (digit_char (n mod 10)) EmptyString).

Definition format (z : Z) : option string :=
  let '(y, m, d) := civil_from_days z in
  if (1 <=? y) && (y <=? 9999) then
    Some (two_digits (y / 100) ++ two_digits (y mod 100) ++ "-"
          ++ two_digits m ++ "-" ++ two_digits d)
  else None.

Definition minus_days (s : string) (n : Z) : option string :=
  match parse s with
  | Some z => format (z - n)
  | None => None
  end.

Example week_before_jan_8 : minus_days "2025-01-08" 7 = Some "2025-01-01".
Proof. reflexivity. Qed.

Example day_before_march_1 : minus_days "2024-03-01" 1 = Some "2024-02-29".
Proof. reflexivity. Qed.

Example not_a_date : minus_days "2025-02-30" 1 = None.
Proof. reflexivity. Qed.

End IsoDate.

(** ** Sorting and grouping *)

Module FrameFacts.
Import Frame.

Section Sort.

Context {A : Type}.
Variable le : A -> A -> bool.

(** Rows the order cannot tell apart. *)
Definition tied (x y : A) : bool := le x y && le y x.

Hypothesis le_total : forall a b, le a b = true \/ le b a = true.
Hypothesis le_trans : forall a b c, le a b = true -> le b c = true -> le a c = true.

Lemma insert_stable_perm x l : Permutation (insert_stable le x l) (x :: l).
Proof.
  induction l as [|y l IH]; simpl; [reflexivity|].
  destruct (le x y); [reflexivity|].
  rewrite IH. apply perm_swap.
Qed.

Lemma stable_sort_perm l : Permutation (stable_sort le l) l.
Proof.
  induction l as [|x l IH]; simpl; [reflexivity|].
  rewrite insert_stable_perm. now apply perm_skip.
Qed.

Lemma insert_stable_sorted x l :
  StronglySorted (fun a b => le a b = true) l ->
  StronglySorted (fun a b => le a b = true) (insert_stable le x l).
Proof using le_total le_trans.
  induction 1 as [|y l Hs IH Hall]; simpl.
  - constructor; constructor.
  - destruct (le x y) eqn:E.
    + constructor; [constructor; assumption|].
      constructor; [exact E|].
      eapply Forall_impl; [exact Hall|]. intros z Hz. eapply le_trans; eauto.
    + constructor; [exact IH|].
      assert (Hyx : le y x = true) by (destruct (le_total x y); congruence).
      eapply Permutation_Forall; [symmetry; apply insert_stable_perm|].
      constructor; assumption.
Qed.

Lemma stable_sort_sorted l :
  StronglySorted (fun a b => le a b = true) (stable_sort le l).
Proof using le_total le_trans.
  induction l as [|x l IH]; simpl; [constructor|].
  now apply insert_stable_sorted.
Qed.

(** Stability: within each class of tied rows the input order is kept. *)
Lemma insert_stable_tied z x l :
  List.filter (tied z) (insert_stable le x l)
  = List.filter (tied z) (x :: l).
Proof using le_trans.
  induction l as [|y l IH]; [reflexivity|].
  simpl insert_stable. destruct (le x y) eqn:E; [reflexivity|].
  simpl List.filter at 1.
  rewrite IH. simpl.
  destruct (tied z x) eqn:Ex, (tied z y) eqn:Ey; try reflexivity.
  exfalso. unfold tied in Ex, Ey.
  apply andb_true_iff in Ex, Ey. destruct Ex as [_ Hxz], Ey as [Hzy _].
  rewrite (le_trans x z y Hxz Hzy) in E. discriminate.
Qed.

Lemma stable_sort_stable z l :
  List.filter (tied z) (stable_sort le l) = List.filter (tied z) l.
Proof using le_trans.
  induction l as [|x l IH]; [reflexivity|].
  simpl stable_sort. rewrite insert_stable_tied. simpl. now rewrite IH.
Qed.

Lemma tied_refl x : tied x x = true.
Proof using le_total.
  unfold tied. now destruct (le_total x x) as [-> | ->].
Qed.

(** A list in order is fixed by its rows and by the order inside each class
    of tied rows. *)
Lemma sorted_stable_unique l1 l2 :
  StronglySorted (fun a b => le a b = true) l1 ->
  StronglySorted (fun a b => le a b = true) l2 ->
  Permutation l1 l2 ->
  (forall z, List.filter (tied z) l1 = List.filter (tied z) l2) ->
  l1 = l2.
Proof using le_total.
  intros H1. revert l2.
  induction H1 as [|x t1 Hs1 IH Hall1]; intros l2 H2 Hp Hf.
  - now apply Permutation_nil in Hp.
  - destruct l2 as [|y t2].
    + symmetry in Hp. now apply Permutation_nil in Hp.
    + inversion H2 as [|? ? Hs2 Hall2]; subst.
      rewrite Forall_forall in Hall1, Hall2.
      assert (Hxy : le x y = true).
      { assert (Hin : In y (x :: t1))
          by (apply (Permutation_in _ (Permutation_sym Hp)); now left).
        destruct Hin as [<- | Hin].
        - now destruct (le_total x x).
        - apply Hall1. now apply list_elem_of_In. }
      assert (Hyx : le y x = true).
      { assert (Hin : In x (y :: t2))
          by (apply (Permutation_in _ Hp); now left).
        destruct Hin as [<- | Hin].
        - now destruct (le_total y y).
        - apply Hall2. now apply list_elem_of_In. }
      assert (Heq : x = y).
      { pose proof (Hf x) as Hx. simpl in Hx.
        rewrite tied_refl in Hx. unfold tied at 2 in Hx.
        rewrite Hxy, Hyx in Hx. simpl in Hx. now injection Hx. }
      subst y. f_equal. apply IH.
      * exact Hs2.
      * now apply Permutation_cons_inv in Hp.
      * intros z. pose proof (Hf z) as Hz. simpl in Hz.
        destruct (tied z x); [now injection Hz | exact Hz].
Qed.

End Sort.

(** A sort that keeps rows the order cannot tell apart in input order: what
    [kind="stable"] promises on top of [sorts]. *)
Definition keeps_ties
  (sort_by : forall A, (A -> A -> bool) -> list A -> list A) : Prop :=
  forall A (le : A -> A -> bool) (l : list A),
    (forall a b, le a b = true \/ le b a = true) ->
    (forall a b c, le a b = true -> le b c = true -> le a c = true) ->
    forall z, List.filter (tied le z) (sort_by A le l) = List.filter (tied le z) l.

Lemma stable_sort_keeps_ties : keeps_ties (@stable_sort).
Proof. intros A le l _ Htr z. now apply stable_sort_stable. Qed.

(** Every sort that keeps the library's promise and keeps ties returns what
    the insertion sort returns. *)
Lemma stable_sorts_agree sort_by A (le : A -> A -> bool) l :
  sorts sort_by -> keeps_ties sort_by ->
  (forall a b, le a b = true \/ le b a = true) ->
  (forall a b c, le a b = true -> le b c = true -> le a c = true) ->
  sort_by A le l = stable_sort le l.
Proof.
  intros Hs Hk Ht Htr. destruct (Hs A le l) as [Hp Hsorted].
  apply (sorted_stable_unique le Ht).
  - now apply Hsorted.
  - now apply stable_sort_sorted.
  - rewrite Hp. symmetry. apply stable_sort_perm.
  - intros z. rewrite (Hk A le l Ht Htr z). symmetry.
    now apply stable_sort_stable.
Qed.

(** Both sorts of [Frame] keep the library's promise. *)
Lemma stable_sort_sorts : sorts (@stable_sort).
Proof.
  intros A le l. split.
  - apply stable_sort_perm.
  - intros Ht Htr. now apply stable_sort_sorted.
Qed.

Lemma tie_reversing_sort_sorts : sorts (@tie_reversing_sort).
Proof.
  intros A le l. unfold tie_reversing_sort. split.
  - rewrite stable_sort_perm. symmetry. apply Permutation_rev.
  - intros Ht Htr. now apply stable_sort_sorted.
Qed.

Lemma sorts_nil sort_by A le : sorts sort_by -> sort_by A le [] = [].
Proof.
  intros Hs. destruct (Hs A le []) as [Hp _].
  now apply Permutation_nil.
Qed.

Lemma desc_total {A} (key : A -> Q) a b :
  desc key a b = true \/ desc key b a = true.
Proof.
  unfold desc. rewrite !Qle_bool_iff.
  destruct (Qlt_le_dec (key a) (key b)) as [H|H]; [right|left]; auto.
  now apply Qlt_le_weak.
Qed.

Lemma desc_trans {A} (key : A -> Q) a b c :
  desc key a b = true -> desc key b c = true -> desc key a c = true.
Proof.
  unfold desc. rewrite !Qle_bool_iff. intros H1 H2. eapply Qle_trans; eauto.
Qed.

Lemma asc_total {A} (key : A -> Q) a b :
  asc key a b = true \/ asc key b a = true.
Proof. destruct (desc_total key a b); [right|left]; assumption. Qed.

Lemma asc_trans {A} (key : A -> Q) a b c :
  asc key a b = true -> asc key b c = true -> asc key a c = true.
Proof.
  unfold asc. rewrite !Qle_bool_iff. intros H1 H2. eapply Qle_trans; eauto.
Qed.

(** Group keys are keys of the frame. *)
Lemma insert_key_in k x l : In k (insert_key x l) -> k = x \/ In k l.
Proof.
  induction l as [|y l IH]; simpl.
  - intros [<- | []]. now left.
  - destruct (key_eqb x y); [auto|].
    destruct (key_leb x y).
    + intros [<- | H]; auto.
    + intros [<- | H]; [right; now left|].
      destruct (IH H) as [-> | Hl]; [now left | right; now right].
Qed.

Lemma group_keys_in k ks : In k (group_keys ks) -> In k ks.
Proof.
  induction ks as [|x ks IH]; simpl; [auto|].
  intros H. apply insert_key_in in H. destruct H as [-> | H]; auto.
Qed.

(** SQL [MAX] of no rows is [NULL], and only of no rows. *)
Lemma sql_max_none l : sql_max l = None <-> l = [].
Proof.
  split; [|intros ->; reflexivity].
  destruct l as [|s l]; [reflexivity|]. simpl.
  destruct (sql_max l) as [m|]; [destruct (String.leb m s)|]; discriminate.
Qed.

End FrameFacts.

(** ** The snapshot ledger *)

Module SnapshotFacts.
Import SnapshotPrices.

Lemma same_key_refl r : same_key r r = true.
Proof. unfold same_key. now rewrite !String.eqb_refl. Qed.

Lemma same_key_sym r r' : same_key r r' = same_key r' r.
Proof.
  unfold same_key.
  now rewrite (String.eqb_sym (snapshot_date r)), (String.eqb_sym (scryfall_id r)),
    (String.eqb_sym (finish r)).
Qed.

Lemma same_key_trans r1 r2 r3 :
  same_key r1 r2 = true -> same_key r2 r3 = true -> same_key r1 r3 = true.
Proof.
  unfold same_key. rewrite !andb_true_iff, !String.eqb_eq.
  intros [[-> ->] ->] [[-> ->] ->]. auto.
Qed.

(** Selecting by the key of a row. *)
Definition keyed_like (r : snapshot_row) (t : table) : list snapshot_row :=
  rows_for_key (snapshot_date r) (scryfall_id r) (finish r) t.

Lemma keyed_like_filter r t :
  keyed_like r t = List.filter (fun r' => same_key r' r) t.
Proof. reflexivity. Qed.

Lemma keyed_like_insert r r' t :
  same_key r r' = true -> keyed_like r' (insert_or_replace r t) = [r].
Proof.
  intros Hk. rewrite keyed_like_filter. unfold insert_or_replace.
  rewrite List.filter_app. simpl. rewrite Hk. simpl.
  replace (List.filter _ (List.filter _ t)) with (@nil snapshot_row);
    [reflexivity|].
  symmetry. induction t as [|x t IH]; simpl; [reflexivity|].
  destruct (same_key r x) eqn:E; simpl; [exact IH|].
  destruct (same_key x r') eqn:E'; [|exact IH].
  rewrite same_key_sym in E'.
  rewrite (same_key_trans r r' x Hk E') in E. discriminate.
Qed.

(** Rows of every other key stay, in their order. *)
Lemma keyed_like_insert_other r r' t :
  same_key r r' = false ->
  keyed_like r' (insert_or_replace r t) = keyed_like r' t.
Proof.
  intros Hk. rewrite !keyed_like_filter. unfold insert_or_replace.
  rewrite List.filter_app. simpl. rewrite Hk. rewrite List.app_nil_r.
  induction t as [|x t IH]; simpl; [reflexivity|].
  destruct (same_key r x) eqn:E; simpl.
  - destruct (same_key x r') eqn:E'; [|exact IH].
    rewrite (same_key_trans r x r' E E') in Hk. discriminate.
  - destruct (same_key x r'); [f_equal|]; exact IH.
Qed.

(** No two rows of the table share a primary key. *)
Definition key_unique (t : table) : Prop :=
  forall r, In r t -> keyed_like r t = [r].

Lemma insert_or_replace_unique r t :
  key_unique t -> key_unique (insert_or_replace r t).
Proof.
  intros Hu x Hx. destruct (same_key r x) eqn:E.
  - rewrite (keyed_like_insert r x t E).
    unfold insert_or_replace in Hx. apply List.in_app_iff in Hx.
    destruct Hx as [Hx | [-> | []]]; [|reflexivity].
    apply List.filter_In in Hx. destruct Hx as [_ Hx].
    rewrite E in Hx. discriminate.
  - rewrite (keyed_like_insert_other r x t E). apply Hu.
    unfold insert_or_replace in Hx. apply List.in_app_iff in Hx.
    destruct Hx as [Hx | [-> | []]].
    + apply List.filter_In in Hx. tauto.
    + rewrite same_key_refl in E. discriminate.
Qed.

Section Upsert.

Variable sql_text : Q -> string.
Variable sql_real : string -> option Q.

Lemma row_of_key d card s cn f usd r :
  row_of sql_text sql_real d card s cn f usd = Ok r ->
  snapshot_date r = d /\ finish r = f /\
  bind_text sql_text (dict_get "id" card) = Ok (Some (scryfall_id r)) /\
  set_code r = s /\ collector_number r = cn /\ SnapshotPrices.usd r = usd.
Proof.
  unfold row_of, rbind. intros H.
  destruct (bind_text sql_text (dict_get "id" card)) as [[id|]|]; try discriminate;
  destruct (bind_text sql_text (dict_get "name" card)); try discriminate;
  destruct (bind_text sql_text (py_or (dict_get "rarity" card) _)); try discriminate;
  destruct (bind_text sql_text (py_or (dict_get "type_line" card) _)); try discriminate;
  destruct (bind_real sql_real _); try discriminate.
  inversion H; subst; simpl. repeat split; reflexivity.
Qed.

(** A JSON value SQLite can bind: anything but an array or an object. *)
Definition scalar (j : json) : Prop :=
  match j with
  | JArr _ | JObj _ => False
  | _ => True
  end.

Lemma bind_text_scalar j : scalar j -> exists o, bind_text sql_text j = Ok o.
Proof. destruct j; simpl; intros H; try destruct H; eauto. Qed.

Lemma scalar_or j s : scalar j -> scalar (py_or j (JStr s)).
Proof. intros H. unfold py_or. now destruct (truthy j). Qed.

(** The upsert has a row to write for every card with a text id whose
    other stored fields are scalars. *)
Lemma row_of_returns d card s cn f usd id :
  dict_get "id" card = JStr id ->
  scalar (dict_get "name" card) -> scalar (dict_get "rarity" card) ->
  scalar (dict_get "type_line" card) ->
  scalar (dict_get "_fetched_at_epoch" card) ->
  exists r, row_of sql_text sql_real d card s cn f usd = Ok r /\
            scryfall_id r = id.
Proof.
  intros Hid Hn Hr Ht Hf. unfold row_of. rewrite Hid. simpl.
  destruct (bind_text_scalar _ Hn) as [n ->].
  destruct (bind_text_scalar _ (scalar_or _ "unknown" Hr)) as [r ->].
  destruct (bind_text_scalar _ (scalar_or _ "" Ht)) as [t ->].
  simpl.
  destruct (dict_get "_fetched_at_epoch" card); simpl in *;
    try destruct Hf; eauto.
Qed.

(** C2. Writing the row of a (date, item id, finish) key with one tuple of
    fields and then with another leaves exactly one row readable for that
    key, the second one; whatever the table held before, the key never has
    two rows afterwards. *)
Theorem upsert_twice_keeps_last
  (t : table) (d f : string)
  (card1 card2 : dict) (s1 cn1 s2 cn2 : string) (usd1 usd2 : option Q)
  (r1 r2 : snapshot_row) :
  row_of sql_text sql_real d card1 s1 cn1 f usd1 = Ok r1 ->
  row_of sql_text sql_real d card2 s2 cn2 f usd2 = Ok r2 ->
  scryfall_id r1 = scryfall_id r2 ->
  exists t1 t2,
    upsert_snapshot sql_text sql_real (Some t) d card1 s1 cn1 f usd1 = Ok t1 /\
    upsert_snapshot sql_text sql_real (Some t1) d card2 s2 cn2 f usd2 = Ok t2 /\
    rows_for_key d (scryfall_id r2) f t1 = [r1] /\
    rows_for_key d (scryfall_id r2) f t2 = [r2].
Proof.
  intros H1 H2 Hid.
  destruct (row_of_key _ _ _ _ _ _ _ H1) as (Hd1 & Hf1 & _).
  destruct (row_of_key _ _ _ _ _ _ _ H2) as (Hd2 & Hf2 & _).
  exists (insert_or_replace r1 t), (insert_or_replace r2 (insert_or_replace r1 t)).
  unfold upsert_snapshot. rewrite H1, H2. simpl.
  repeat split.
  - rewrite <- Hd2 at 1. rewrite <- Hf2 at 1.
    apply (keyed_like_insert r1 r2).
    unfold same_key. rewrite Hd1, Hd2, Hf1, Hf2, Hid.
    now rewrite !String.eqb_refl.
  - rewrite <- Hd2 at 1. rewrite <- Hf2 at 1.
    apply (keyed_like_insert r2 r2), same_key_refl.
Qed.

End Upsert.

(** Sample rows: the same printing priced twice on one day. *)
Definition katana (usd : string) : dict :=
  [("id", JStr "a1"); ("name", JStr "Ancestral Katana");
   ("rarity", JStr "rare"); ("type_line", JStr "Artifact");
   ("prices", JObj [("usd", JStr usd)]); ("_fetched_at_epoch", JNum 990)].

Definition katana_row (price : Q) : snapshot_row :=
  {| snapshot_date := "2025-01-08"; scryfall_id := "a1"; set_code := "neo";
     collector_number := "1"; finish := "nonfoil";
     name := Some "Ancestral Katana"; rarity := Some "rare";
     type_line := Some "Artifact"; usd := Some price;
     fetched_at_epoch := SqlReal 990 |}.

Definition no_text (q : Q) : string := "".
Definition no_real (s : string) : option Q := None.

Lemma upsert_twice_keeps_last_witness :
  exists t1 t2,
    upsert_snapshot no_text no_real (Some [katana_row 1]) "2025-01-08"
      (katana "2.00") "neo" "1" "nonfoil" (Some 2%Q) = Ok t1 /\
    upsert_snapshot no_text no_real (Some t1) "2025-01-08"
      (katana "3.00") "neo" "1" "nonfoil" (Some 3%Q) = Ok t2 /\
    rows_for_key "2025-01-08" "a1" "nonfoil" t1 = [katana_row 2] /\
    rows_for_key "2025-01-08" "a1" "nonfoil" t2 = [katana_row 3].
Proof.
  apply (upsert_twice_keeps_last no_text no_real [katana_row 1]
           "2025-01-08" "nonfoil" (katana "2.00") (katana "3.00")
           "neo" "1" "neo" "1" (Some 2%Q) (Some 3%Q)
           (katana_row 2) (katana_row 3)); reflexivity.
Defined.

(** A card without an id violates [NOT NULL]; a missing table fails too. *)
Example upsert_without_id :
  upsert_snapshot no_text no_real (Some []) "2025-01-08"
    [("name", JStr "Nameless")] "neo" "1" "foil" None = Raise IntegrityError.
Proof. reflexivity. Qed.

End SnapshotFacts.

(** ** Top holdings and movers *)

Module ViewFacts.
Import Frame.

Lemma StronglySorted_weaken {A} (R R' : A -> A -> Prop) l :
  (forall a b, R a b -> R' a b) -> StronglySorted R l -> StronglySorted R' l.
Proof.
  intros HR. induction 1 as [|x l _ IH Hall]; constructor; [exact IH|].
  eapply Forall_impl; [exact Hall|]. auto.
Qed.

Lemma merge_inner_nil_r {L R O} (matches : L -> R -> bool) (join : L -> R -> O)
  (left : list L) : merge_inner matches join left [] = [].
Proof. induction left as [|l left IH]; [reflexivity|exact IH]. Qed.

(** Two priced holdings of equal value, and a dearer one. *)
Definition held_as (cn name : string) (qty : Z) (price : option Q) : holding :=
  {| owned := {| set_code := "neo"; collector_number := cn;
                 finish := "nonfoil"; qty := qty |};
     scryfall_id := "id-" ++ cn; name := Some name; rarity := Some "rare";
     type_line := Some "Artifact"; usd := price |}.

Definition first_five : holding := held_as "1" "First" 1 (Some 5%Q).
Definition second_five : holding := held_as "2" "Second" 1 (Some 5%Q).
Definition unpriced : holding := held_as "3" "Unpriced" 4 None.
Definition nine : holding := held_as "4" "Nine" 3 (Some 3%Q).

(** The view the Top-N rule describes: a stable sort by value, descending,
    cut to the first N rows. *)
Definition stable_top_n (top_n : nat) (rows : list holding) : list holding :=
  firstn top_n (stable_sort (desc value_key) (dropna_usd rows)).

(** What [sort_values] promises for its default [kind] does not fix the
    order of ties: a sort that keeps the promise may list two positions of
    equal value in reverse input order, and then Top-1 is the later one. *)
Lemma promise_leaves_ties_open :
  sorts (@tie_reversing_sort) /\
  DashboardData.top_view (@tie_reversing_sort) 1 [first_five; second_five]
  = [second_five] /\
  stable_top_n 1 [first_five; second_five] = [first_five].
Proof.
  split; [exact FrameFacts.tie_reversing_sort_sorts|]. split; reflexivity.
Qed.

Lemma movers_top_view_eq sort_by top_n rows :
  sorts sort_by ->
  Movers.top_view sort_by top_n rows = DashboardData.top_view sort_by top_n rows.
Proof.
  intros Hs. unfold Movers.top_view, DashboardData.top_view.
  destruct (dropna_usd rows) eqn:E; [|reflexivity].
  rewrite (FrameFacts.sorts_nil sort_by _ _ Hs). now destruct top_n.
Qed.

(** X29. The Top-N view of both scripts, for every sort that keeps the
    promise of [sort_values]: the first N rows of the non-null-priced
    positions arranged by position value descending, the same view in the
    dashboard and in the command-line report. When the sort also keeps
    positions of equal value in input order, the view is exactly the stable
    sort by value descending cut to N rows. *)
Theorem top_holdings_sorted_prefix
  (sort_by : forall A, (A -> A -> bool) -> list A -> list A)
  (top_n : nat) (rows : list holding) :
  sorts sort_by ->
  (exists ranked,
     Permutation ranked (dropna_usd rows) /\
     StronglySorted (fun a b => (value_key b <= value_key a)%Q) ranked /\
     DashboardData.top_view sort_by top_n rows = firstn top_n ranked /\
     Movers.top_view sort_by top_n rows = firstn top_n ranked) /\
  (FrameFacts.keeps_ties sort_by ->
   DashboardData.top_view sort_by top_n rows = stable_top_n top_n rows /\
   Movers.top_view sort_by top_n rows = stable_top_n top_n rows).
Proof.
  intros Hs. split.
  - destruct (Hs holding (desc value_key) (dropna_usd rows)) as [Hp Hsorted].
    exists (sort_by holding (desc value_key) (dropna_usd rows)).
    split; [exact Hp|]. split; [|split].
    + eapply StronglySorted_weaken; [|apply Hsorted].
      * intros a b Hab. now apply Qle_bool_iff.
      * apply FrameFacts.desc_total.
      * apply FrameFacts.desc_trans.
    + reflexivity.
    + now apply movers_top_view_eq.
  - intros Hk.
    assert (Hd : DashboardData.top_view sort_by top_n rows
                 = stable_top_n top_n rows).
    { unfold DashboardData.top_view, stable_top_n. f_equal.
      apply FrameFacts.stable_sorts_agree; try assumption.
      - apply FrameFacts.desc_total.
      - apply FrameFacts.desc_trans. }
    split; [exact Hd|]. now rewrite movers_top_view_eq.
Qed.

Lemma top_holdings_sorted_prefix_witness :
  (exists ranked,
     Permutation ranked [first_five; second_five; nine] /\
     StronglySorted (fun a b => (value_key b <= value_key a)%Q) ranked /\
     DashboardData.top_view (@stable_sort) 2
       [first_five; unpriced; second_five; nine] = firstn 2 ranked /\
     Movers.top_view (@stable_sort) 2
       [first_five; unpriced; second_five; nine] = firstn 2 ranked) /\
  Movers.top_view (@stable_sort) 2 [first_five; unpriced; second_five; nine]
  = [nine; first_five].
Proof.
  destruct (top_holdings_sorted_prefix (@stable_sort) 2
              [first_five; unpriced; second_five; nine]
              FrameFacts.stable_sort_sorts) as [Hranked Hstable].
  split; [exact Hranked|].
  exact (proj2 (Hstable FrameFacts.stable_sort_keeps_ties)).
Defined.

(** With a stable sort the view is the one the rule describes. *)
Example top_two_with_stable_sort :
  DashboardData.top_view (@stable_sort) 2
    [first_five; unpriced; second_five; nine] = [nine; first_five].
Proof. reflexivity. Qed.

(** *** Movers: delta and percent *)

Lemma joined_prices_spec rows brows h c b :
  In (h, c, b) (joined_prices rows brows) ->
  In h rows /\ usd h = Some c /\
  exists r, In r brows /\ usd_baseline r = Some b /\
            b_scryfall_id r = scryfall_id h /\ b_finish r = finish (owned h).
Proof.
  unfold joined_prices, merge_inner. intros H.
  apply in_flat_map in H. destruct H as ([h' r] & Hin & Hhr).
  apply in_flat_map in Hin. destruct Hin as (h0 & Hh0 & Hin).
  apply in_map_iff in Hin. destruct Hin as (r0 & Heq & Hr0).
  inversion Heq; subst h0 r0; clear Heq.
  apply List.filter_In in Hr0. destruct Hr0 as [Hr Hm].
  apply andb_true_iff in Hm. destruct Hm as [Hid Hfin].
  apply String.eqb_eq in Hid, Hfin. simpl in Hhr.
  destruct (usd h') as [c'|] eqn:Ec; [|destruct Hhr].
  destruct (usd_baseline r) as [b'|] eqn:Eb; [|destruct Hhr].
  destruct Hhr as [Heq|[]]. inversion Heq; subst.
  repeat split; auto. exists r. auto.
Qed.

(** The dashboard's movers frame: every row pairs a current and a baseline
    price of one (item id, finish); delta is their difference; percent is
    delta / baseline * 100 for a nonzero baseline and null for a zero one. *)
Lemma dashboard_mover_row rows brows m :
  In m (DashboardData.movers_frame rows brows) ->
  In (held m, current m, baseline m) (joined_prices rows brows) /\
  delta_usd m = (current m - baseline m)%Q /\
  ((~ baseline m == 0)%Q ->
   pct_change m = Some (delta_usd m / baseline m * 100)%Q) /\
  ((baseline m == 0)%Q -> pct_change m = None).
Proof.
  unfold DashboardData.movers_frame. intros H.
  apply in_map_iff in H. destruct H as ([[h c] b] & <- & Hin). simpl.
  split; [exact Hin|]. split; [reflexivity|].
  destruct (Qeq_bool b 0) eqn:E.
  - apply Qeq_bool_iff in E. split; [contradiction|reflexivity].
  - split; [reflexivity|]. intros Hz. apply Qeq_bool_iff in Hz. congruence.
Qed.

(** The command-line report divides without the guard. *)
Lemma cli_mover_row rows brows m :
  In m (Movers.movers_frame rows brows) ->
  delta_usd m = (current m - baseline m)%Q /\
  pct_change m = xscale (xdiv (delta_usd m) (baseline m)) 100.
Proof.
  unfold Movers.movers_frame. intros H.
  apply in_map_iff in H. destruct H as ([[h c] b] & <- & Hin). simpl. auto.
Qed.

Definition three_now : holding := held_as "1" "Riser" 1 (Some 3%Q).
Definition was_free : baseline_row :=
  {| b_scryfall_id := "id-1"; b_finish := "nonfoil"; usd_baseline := Some 0%Q |}.
Definition twelve_fifty : holding := held_as "2" "Climber" 1 (Some (25 # 2)).
Definition was_ten : baseline_row :=
  {| b_scryfall_id := "id-2"; b_finish := "nonfoil"; usd_baseline := Some 10%Q |}.

(** C5, at the failing input. Baseline 0.00 and current 3.00: both scripts
    give delta 3.00 without raising; the dashboard leaves the percent
    null, the command-line report computes an infinite percent. *)
Theorem cli_percent_of_zero_baseline :
  DashboardData.movers_frame [three_now] [was_free]
  = [mkMover three_now 3 0 (3 - 0) None] /\
  Movers.movers_frame [three_now] [was_free]
  = [mkMover three_now 3 0 (3 - 0) PosInf].
Proof. split; reflexivity. Qed.

Example mover_ten_to_twelve_fifty :
  List.map (fun m => (Qred (delta_usd m), option_map Qred (pct_change m)))
    (DashboardData.movers_frame [twelve_fifty] [was_ten])
  = [((5 # 2)%Q, Some 25%Q)].
Proof. reflexivity. Qed.

End ViewFacts.

(** ** The dashboard bundle and the command-line report *)

Module DashboardFacts.
Import Shared.

Lemma filter_none {A} (f : A -> bool) (l : list A) :
  (forall x, In x l -> f x = false) -> List.filter f l = [].
Proof.
  induction l as [|x l IH]; intros H; [reflexivity|]. simpl.
  rewrite (H x (or_introl eq_refl)). apply IH. intros y Hy. apply H. now right.
Qed.

(** No snapshot is dated on or before [target]. *)
Definition baseline_absent (t : SnapshotPrices.table) (target : string) : Prop :=
  forall r, In r t -> String.leb (SnapshotPrices.snapshot_date r) target = false.

Lemma on_or_before_absent t target :
  baseline_absent t target ->
  DashboardData._snapshot_on_or_before (Some t) target = Ok None.
Proof.
  intros H. unfold DashboardData._snapshot_on_or_before.
  rewrite filter_none; [reflexivity|].
  intros d Hd. apply in_map_iff in Hd. destruct Hd as (r & <- & Hr). now apply H.
Qed.

Lemma key_eqb_eq k k' : DashboardData.key_eqb k k' = true <-> k = k'.
Proof.
  unfold DashboardData.key_eqb. rewrite andb_true_iff, !String.eqb_eq.
  destruct k, k'; simpl. split; [intros [-> ->]; reflexivity | intros [= -> ->]; auto].
Qed.

(** [drop_duplicates] keeps every key that was not seen before. *)
Lemma drop_duplicates_covers seen l k :
  In k l -> In k seen \/ In k (DashboardData.drop_duplicates seen l).
Proof.
  revert seen. induction l as [|x l IH]; intros seen Hk; [destruct Hk|].
  simpl. destruct (existsb (DashboardData.key_eqb x) seen) eqn:E.
  - destruct Hk as [-> | Hk]; [|now apply IH].
    left. apply existsb_exists in E. destruct E as (y & Hy & Hxy).
    apply key_eqb_eq in Hxy. now subst.
  - destruct Hk as [-> | Hk]; [right; now left|].
    destruct (IH (x :: seen) Hk) as [[-> | Hs] | Hd]; auto.
    + right. now left.
    + right. now right.
Qed.

Lemma drop_duplicates_sound seen l k :
  In k (DashboardData.drop_duplicates seen l) -> In k l.
Proof.
  revert seen. induction l as [|x l IH]; intros seen Hk; [destruct Hk|].
  simpl in Hk. destruct (existsb (DashboardData.key_eqb x) seen).
  - right. eapply IH; eauto.
  - destruct Hk as [-> | Hk]; [now left | right; eapply IH; eauto].
Qed.

Lemma card_of_key_found (P : dict -> Prop) cache k :
  In k (List.map fst cache) ->
  (forall kc, In kc cache -> P (snd kc)) ->
  exists card, DashboardData.card_of_key cache k = Ok card /\ P card.
Proof.
  induction cache as [|[k' card] cache IH]; intros Hk HP; [destruct Hk|].
  simpl. destruct (DashboardData.key_eqb k' k) eqn:E.
  - exists card. split; [reflexivity|]. apply (HP (k', card)). now left.
  - destruct Hk as [Hk | Hk].
    + simpl in Hk. subst k'. assert (H : DashboardData.key_eqb k k = true)
        by now apply key_eqb_eq. congruence.
    + apply IH; [exact Hk|]. intros kc Hkc. apply HP. now right.
Qed.

Lemma mapR_returns {A B} (f : A -> result B) (g : B -> A) l :
  (forall a, In a l -> exists b, f a = Ok b /\ g b = a) ->
  exists bs, DashboardData.mapR f l = Ok bs /\ List.map g bs = l.
Proof.
  induction l as [|a l IH]; intros H.
  - exists []. split; reflexivity.
  - destruct (H a (or_introl eq_refl)) as (b & Hb & Hg).
    destruct IH as (bs & Hbs & Hgs); [intros; apply H; now right|].
    exists (b :: bs). simpl. rewrite Hb. simpl. rewrite Hbs. simpl.
    split; [reflexivity|]. now rewrite Hg, Hgs.
Qed.

Lemma mapM_cons {A B} (f : A -> M B) a l w :
  mapM f (a :: l) w
  = match f a w with
    | (Ok b, w1) =>
        match mapM f l w1 with
        | (Ok bs, w2) => (Ok (b :: bs), w2)
        | (Raise e, w2) => (Raise e, w2)
        end
    | (Raise e, w1) => (Raise e, w1)
    end.
Proof.
  simpl. unfold bind, ret. destruct (f a w) as [[b|e] w1]; [|reflexivity].
  destruct (mapM f l w1) as [[bs|e] w2]; reflexivity.
Qed.

Section Run.

Variable clock : nat -> Q.
Variable catalog : string -> option dict.
Variable float_of_str : string -> option Q.
Variable py_repr : json -> string.
Variable date_minus_days : string -> Z -> option string.
Variable today : string.
Variable sort_by : forall A : Type, (A -> A -> bool) -> list A -> list A.
Variable owned_rows : list Frame.position.

Hypothesis sort_ok : Frame.sorts sort_by.

Abbreviation dashboard_run :=
  (DashboardData.get_dashboard_data clock catalog float_of_str py_repr
     date_minus_days today sort_by owned_rows).

Abbreviation live_owned :=
  (DashboardData._compute_live_owned clock catalog float_of_str py_repr
     owned_rows CACHE_TTL_HOURS).

Abbreviation cli_run :=
  (Movers.main date_minus_days sort_by owned_rows).

(** Every distinct printing resolves in turn: the cards are priced and the
    cache directory stays usable. *)
Lemma resolve_all_returns ttl keys w :
  SharedFacts.usable_disk float_of_str w ->
  (forall k, In k keys -> SharedFacts.served catalog float_of_str k) ->
  exists cache w',
    mapM (fun key =>
            fetched_card <- fetch_scryfall_card_cached clock catalog key ttl ;;
            ret (key, fst fetched_card)) keys w
    = (Ok cache, w') /\
    List.map fst cache = keys /\
    (forall kc, In kc cache -> SharedFacts.priced float_of_str (snd kc)) /\
    SharedFacts.usable_disk float_of_str w'.
Proof.
  revert w. induction keys as [|k keys IH]; intros w Hu Hs.
  - exists [], w. repeat split; auto. intros kc [].
  - destruct (SharedFacts.resolve_returns clock catalog float_of_str k ttl w Hu
                (Hs k (or_introl eq_refl)))
      as (card & note & w1 & Hr & Hp & Hu1).
    destruct (IH w1 Hu1) as (cache & w2 & Hm & Hk & Hpc & Hu2);
      [intros; apply Hs; now right|].
    exists ((k, card) :: cache), w2.
    split; [|split; [|split]].
    + rewrite mapM_cons. unfold bind at 1. rewrite Hr. unfold ret at 1.
      simpl fst. now rewrite Hm.
    + simpl. now rewrite Hk.
    + intros kc [<- | Hkc]; [exact Hp | now apply Hpc].
    + exact Hu2.
Qed.

(** The live valuation returns, one row per owned position in order,
    when the cache directory is usable and the catalog serves every owned
    printing. *)
Lemma live_owned_returns w :
  SharedFacts.usable_disk float_of_str w ->
  (forall p, In p owned_rows ->
     SharedFacts.served catalog float_of_str (DashboardData.key_of p)) ->
  exists rows w',
    live_owned w = (Ok rows, w') /\ List.map Frame.owned rows = owned_rows.
Proof.
  intros Hu Hs. unfold DashboardData._compute_live_owned.
  destruct (resolve_all_returns CACHE_TTL_HOURS
              (DashboardData.drop_duplicates []
                 (List.map DashboardData.key_of owned_rows)) w Hu)
    as (cache & w' & Hm & Hk & Hp & _).
  { intros k Hk. apply drop_duplicates_sound in Hk.
    apply in_map_iff in Hk. destruct Hk as (p & <- & Hp). now apply Hs. }
  destruct (mapR_returns
              (DashboardData.live_row float_of_str py_repr cache)
              Frame.owned owned_rows) as (rows & Hrows & Ho).
  { intros p Hin.
    destruct (card_of_key_found (SharedFacts.priced float_of_str) cache
                (DashboardData.key_of p)) as (card & Hc & Hpc).
    - rewrite Hk.
      destruct (drop_duplicates_covers [] _ (DashboardData.key_of p)
                  (in_map DashboardData.key_of _ _ Hin)) as [[]|H]; exact H.
    - exact Hp.
    - destruct (Hpc (Frame.finish p)) as [unit Hunit].
      unfold DashboardData.live_row. rewrite Hc. simpl. rewrite Hunit. simpl.
      eexists. split; reflexivity. }
  exists rows, w'. cbv zeta. unfold bind at 1. rewrite Hm.
  unfold lift. now rewrite Hrows.
Qed.

Lemma history_empty_store days :
  DashboardData.history date_minus_days (Some []) days
  = Raise DashboardData.no_snapshots.
Proof. reflexivity. Qed.

Lemma history_absent_baseline t latest target days :
  DashboardData._latest_snapshot_date (Some t) = Ok latest ->
  date_minus_days latest days = Some target ->
  baseline_absent t target ->
  DashboardData.history date_minus_days (Some t) days
  = Ok (Some latest, None, []).
Proof.
  intros Hl Ht Ha. unfold DashboardData.history.
  rewrite Hl. unfold rbind at 1. rewrite Ht.
  now rewrite (on_or_before_absent t target Ha).
Qed.

Lemma timeseries_empty_store :
  DashboardData.get_portfolio_timeseries sort_by owned_rows (Some []) = Ok [].
Proof using sort_ok.
  unfold DashboardData.get_portfolio_timeseries. simpl List.filter.
  rewrite ViewFacts.merge_inner_nil_r. simpl.
  now rewrite (FrameFacts.sorts_nil sort_by _ _ sort_ok).
Qed.

(** The bundle of a live run on the empty store. *)
Lemma empty_store_live_bundle (days : Z) (top_n : nat) (w : world) rows w' :
  live_owned w = (Ok rows, w') ->
  exists d,
    dashboard_run (Some []) days top_n true w = (Ok d, w') /\
    DashboardData.pricing_mode d = "live" /\
    DashboardData.latest_owned d = rows /\
    DashboardData.num_positions d = length rows /\
    DashboardData.total_value_usd d
    = Frame.sum_skipna (List.map Frame.position_value_usd rows) /\
    DashboardData.top_holdings d = DashboardData.top_view sort_by top_n rows /\
    DashboardData.latest_snapshot d = "N/A" /\
    DashboardData.baseline_snapshot d = None /\
    DashboardData.gainers d = [] /\
    DashboardData.losers d = [] /\
    DashboardData.portfolio_ts d = [].
Proof using sort_ok.
  intros Hlive.
  unfold DashboardData.get_dashboard_data.
  rewrite history_empty_store. unfold try_except.
  unfold bind. rewrite Hlive.
  rewrite timeseries_empty_store. unfold lift, ret.
  eexists. split; [reflexivity|]. simpl. repeat split; reflexivity.
Qed.

(** X30. With the table [price_snapshots] in place and holding no row,
    snapshot-mode valuation raises the "No snapshots found" error, while
    live-mode valuation of the same positions needs only the cache and
    catalog resolution: whenever that returns, the bundle carries those
    holdings and their total, no latest or baseline date, and empty movers
    and time series. *)
Theorem empty_table_live_returns_snapshot_raises
  (days : Z) (top_n : nat) (w : world) :
  dashboard_run (Some []) days top_n false w
  = (Raise DashboardData.no_snapshots_for_mode, w) /\
  (forall rows w',
     live_owned w = (Ok rows, w') ->
     exists d,
       dashboard_run (Some []) days top_n true w = (Ok d, w') /\
       DashboardData.pricing_mode d = "live" /\
       DashboardData.latest_owned d = rows /\
       DashboardData.num_positions d = length rows /\
       DashboardData.total_value_usd d
       = Frame.sum_skipna (List.map Frame.position_value_usd rows) /\
       DashboardData.top_holdings d = DashboardData.top_view sort_by top_n rows /\
       DashboardData.latest_snapshot d = "N/A" /\
       DashboardData.baseline_snapshot d = None /\
       DashboardData.gainers d = [] /\
       DashboardData.losers d = [] /\
       DashboardData.portfolio_ts d = []).
Proof using sort_ok.
  split; [reflexivity|].
  intros rows w' Hlive.
  exact (empty_store_live_bundle days top_n w rows w' Hlive).
Qed.

(** C7, as amended. When no snapshot is dated on or before the latest date
    minus the lookback window, the dashboard returns with empty gainers and
    losers and no baseline date: always in snapshot mode, and in live mode
    whenever the live valuation itself returns (as it does on a usable
    cache directory with a catalog that serves every owned printing). That
    differs from the empty or missing store, on which snapshot mode raises.
    The command-line report raises in every one of these cases, with "Not
    enough snapshot history" for the absent baseline and "No snapshots
    found" for the empty store. *)
Theorem absent_baseline_views
  (t : SnapshotPrices.table) (latest target : string)
  (days : Z) (top_n : nat) (w : world) :
  DashboardData._latest_snapshot_date (Some t) = Ok latest ->
  date_minus_days latest days = Some target ->
  baseline_absent t target ->
  (exists d,
     dashboard_run (Some t) days top_n false w = (Ok d, w) /\
     DashboardData.latest_snapshot d = latest /\
     DashboardData.baseline_snapshot d = None /\
     DashboardData.gainers d = [] /\ DashboardData.losers d = []) /\
  (forall rows w',
     live_owned w = (Ok rows, w') ->
     exists d,
       dashboard_run (Some t) days top_n true w = (Ok d, w') /\
       DashboardData.baseline_snapshot d = None /\
       DashboardData.gainers d = [] /\ DashboardData.losers d = []) /\
  (SharedFacts.usable_disk float_of_str w ->
   (forall p, In p owned_rows ->
      SharedFacts.served catalog float_of_str (DashboardData.key_of p)) ->
   exists rows w', live_owned w = (Ok rows, w')) /\
  (dashboard_run (Some []) days top_n false w
   = (Raise DashboardData.no_snapshots_for_mode, w) /\
   dashboard_run None days top_n false w
   = (Raise DashboardData.no_snapshots_for_mode, w)) /\
  (forall sort_mode,
     cli_run (Some t) days top_n sort_mode
     = Raise (Movers.not_enough_history target latest) /\
     cli_run (Some []) days top_n sort_mode = Raise Movers.no_snapshots /\
     cli_run None days top_n sort_mode = Raise OperationalError).
Proof.
  intros Hl Ht Ha. split; [|split; [|split; [|split]]].
  - unfold DashboardData.get_dashboard_data.
    rewrite (history_absent_baseline t latest target days Hl Ht Ha).
    unfold try_except, bind, ret, lift. simpl.
    eexists. split; [reflexivity|]. simpl. repeat split; reflexivity.
  - intros rows w' Hlive.
    unfold DashboardData.get_dashboard_data.
    rewrite (history_absent_baseline t latest target days Hl Ht Ha).
    unfold try_except, bind. rewrite Hlive. unfold ret, lift. simpl.
    eexists. split; [reflexivity|]. simpl. repeat split; reflexivity.
  - intros Hu Hs. destruct (live_owned_returns w Hu Hs) as (rows & w' & H & _).
    eauto.
  - split; reflexivity.
  - intros sort_mode. split; [|split; reflexivity].
    unfold Movers.main.
    change (Movers.latest_snapshot_date (Some t))
      with (DashboardData._latest_snapshot_date (Some t)).
    rewrite Hl. unfold rbind at 1. rewrite Ht.
    change (Movers.snapshot_on_or_before (Some t) target)
      with (DashboardData._snapshot_on_or_before (Some t) target).
    now rewrite (on_or_before_absent t target Ha).
Qed.

(** Without the table itself the time series query fails, and with it the
    bundle, in live mode too. *)
Lemma missing_table_breaks_live_mode (days : Z) (top_n : nat) (w : world) :
  (forall rows w',
     live_owned w = (Ok rows, w') ->
     dashboard_run None days top_n true w = (Raise DatabaseError, w')) /\
  dashboard_run None days top_n false w
  = (Raise DashboardData.no_snapshots_for_mode, w).
Proof.
  split; [|reflexivity].
  intros rows w' Hlive. unfold DashboardData.get_dashboard_data.
  replace (DashboardData.history date_minus_days None days)
    with (@Raise (option string * option string * list Frame.baseline_row)
            OperationalError) by reflexivity.
  unfold try_except, bind. now rewrite Hlive.
Qed.

End Run.

(** *** A sample run: one owned printing, one snapshot date *)

Definition katana_position : Frame.position :=
  {| Frame.set_code := "neo"; Frame.collector_number := "1";
     Frame.finish := "nonfoil"; Frame.qty := 2 |}.

Definition no_repr (j : json) : string := "".

Definition sample_dashboard :=
  DashboardData.get_dashboard_data SharedFacts.sample_clock
    SharedFacts.sample_catalog SharedFacts.decimal no_repr
    IsoDate.minus_days "2025-01-09" (@Frame.stable_sort) [katana_position].

Definition sample_live :=
  DashboardData._compute_live_owned SharedFacts.sample_clock
    SharedFacts.sample_catalog SharedFacts.decimal no_repr [katana_position]
    CACHE_TTL_HOURS.

Definition sample_cli :=
  Movers.main IsoDate.minus_days (@Frame.stable_sort) [katana_position].

(** One snapshot, taken on 2025-01-08. *)
Definition one_day : SnapshotPrices.table := [SnapshotFacts.katana_row (1 # 4)].

Lemma sample_catalog_serves :
  SharedFacts.served SharedFacts.sample_catalog SharedFacts.decimal
    (DashboardData.key_of katana_position).
Proof.
  exists SharedFacts.neo1_card. split; [reflexivity|].
  intros finish. unfold choose_unit_price_usd. simpl.
  destruct (String.eqb finish "foil"); eexists; reflexivity.
Qed.

Lemma empty_table_live_returns_snapshot_raises_witness :
  sample_dashboard (Some []) 7 5%nat false SharedFacts.empty_world
  = (Raise DashboardData.no_snapshots_for_mode, SharedFacts.empty_world) /\
  (exists d,
     fst (sample_dashboard (Some []) 7 5%nat true SharedFacts.empty_world) = Ok d /\
     List.map Frame.usd (DashboardData.latest_owned d) = [Some (1 # 4)] /\
     DashboardData.gainers d = [] /\ DashboardData.losers d = [] /\
     DashboardData.portfolio_ts d = []).
Proof.
  destruct (empty_table_live_returns_snapshot_raises
              SharedFacts.sample_clock SharedFacts.sample_catalog
              SharedFacts.decimal no_repr IsoDate.minus_days "2025-01-09"
              (@Frame.stable_sort) [katana_position]
              FrameFacts.stable_sort_sorts 7 5%nat SharedFacts.empty_world)
    as (Hsnap & Hlive).
  split; [exact Hsnap|].
  destruct (Hlive (match fst (sample_live SharedFacts.empty_world) with
                   | Ok rows => rows
                   | Raise _ => []
                   end)
                  (snd (sample_live SharedFacts.empty_world)) eq_refl)
    as (d & Hrun & _ & Hrows & _ & _ & _ & _ & _ & Hg & Hl & Hts).
  exists d. unfold sample_dashboard. rewrite Hrun, Hrows.
  repeat split; assumption || reflexivity.
Defined.

(** C4. Where live mode misses the rule: the store without the table
    [price_snapshots] (no database file yet: [sqlite3.connect] creates an
    empty one). The failure of the history block is caught, as its comment
    "No DB / no snapshots. Dashboard can still show live holdings" says, and
    the live valuation of the owned position returns its holding and price;
    but the bundle is built with a call of [get_portfolio_timeseries],
    whose query raises with nothing to catch it, and live mode raises
    where the rule has it return the holdings and totals without movers and
    time series. With the table in place and empty the same run returns. *)
Theorem live_mode_raises_without_table :
  (exists rows w',
     sample_live SharedFacts.empty_world = (Ok rows, w') /\
     List.map Frame.owned rows = [katana_position] /\
     List.map Frame.usd rows = [Some (1 # 4)]) /\
  DashboardData.history IsoDate.minus_days None 7 = Raise OperationalError /\
  DashboardData.get_portfolio_timeseries (@Frame.stable_sort) [katana_position]
    None = Raise DatabaseError /\
  fst (sample_dashboard None 7 5%nat true SharedFacts.empty_world)
  = Raise DatabaseError /\
  fst (sample_dashboard None 7 5%nat false SharedFacts.empty_world)
  = Raise DashboardData.no_snapshots_for_mode /\
  (exists d,
     fst (sample_dashboard (Some []) 7 5%nat true SharedFacts.empty_world) = Ok d /\
     List.map Frame.usd (DashboardData.latest_owned d) = [Some (1 # 4)] /\
     DashboardData.portfolio_ts d = []).
Proof.
  split; [do 2 eexists; split; [reflexivity|]; split; reflexivity|].
  split; [reflexivity|]. split; [reflexivity|].
  split; [reflexivity|]. split; [reflexivity|].
  eexists. split; [reflexivity|]. split; reflexivity.
Qed.

Lemma one_day_has_no_baseline : baseline_absent one_day "2025-01-01".
Proof. intros r [<- | []]. reflexivity. Qed.

(** C7, counterexample. With a single snapshot date and a seven-day window
    the baseline is absent, and the command-line report raises instead of
    showing empty views. *)
Lemma cli_raises_without_baseline :
  baseline_absent one_day "2025-01-01" /\
  IsoDate.minus_days "2025-01-08" 7 = Some "2025-01-01" /\
  ~ exists rep,
      sample_cli (Some one_day) 7 5%nat "abs" = Ok rep /\
      Movers.gainers rep = [] /\ Movers.losers rep = [].
Proof.
  split; [exact one_day_has_no_baseline|]. split; [reflexivity|].
  intros (rep & Hrep & _). vm_compute in Hrep. discriminate.
Qed.

Lemma absent_baseline_views_witness :
  (exists d,
     sample_dashboard (Some one_day) 7 5%nat false SharedFacts.empty_world
     = (Ok d, SharedFacts.empty_world) /\
     DashboardData.latest_snapshot d = "2025-01-08" /\
     DashboardData.baseline_snapshot d = None /\
     DashboardData.gainers d = [] /\ DashboardData.losers d = []) /\
  sample_cli (Some one_day) 7 5%nat "abs"
  = Raise (Movers.not_enough_history "2025-01-01" "2025-01-08").
Proof.
  destruct (absent_baseline_views
              SharedFacts.sample_clock SharedFacts.sample_catalog
              SharedFacts.decimal no_repr IsoDate.minus_days "2025-01-09"
              (@Frame.stable_sort) [katana_position]
              one_day "2025-01-08" "2025-01-01" 7 5%nat SharedFacts.empty_world
              eq_refl eq_refl one_day_has_no_baseline)
    as (Hsnap & _ & _ & _ & Hcli).
  split; [exact Hsnap|]. exact (proj1 (Hcli "abs")).
Defined.

(** With an older snapshot at hand the same report ranks the movers. *)
Definition two_days : SnapshotPrices.table :=
  [ {| SnapshotPrices.snapshot_date := "2025-01-01";
       SnapshotPrices.scryfall_id := "a1"; SnapshotPrices.set_code := "neo";
       SnapshotPrices.collector_number := "1";
       SnapshotPrices.finish := "nonfoil";
       SnapshotPrices.name := Some "Ancestral Katana";
       SnapshotPrices.rarity := Some "rare";
       SnapshotPrices.type_line := Some "Artifact";
       SnapshotPrices.usd := Some 0%Q;
       SnapshotPrices.fetched_at_epoch := SnapshotPrices.SqlNull |};
    SnapshotFacts.katana_row 3 ].

Example cli_ranks_infinite_percent_first :
  match sample_cli (Some two_days) 7 5%nat "pct" with
  | Ok rep =>
      List.map (fun m => (Frame.delta_usd m, Frame.pct_change m))
        (Movers.gainers rep)
  | Raise _ => []
  end = [((3 - 0)%Q, Frame.PosInf)].
Proof. reflexivity. Qed.

Example dashboard_leaves_percent_null :
  match fst (sample_dashboard (Some two_days) 7 5%nat false
               SharedFacts.empty_world) with
  | Ok d =>
      List.map (fun m => (Frame.delta_usd m, Frame.pct_change m))
        (DashboardData.gainers d)
  | Raise _ => []
  end = [((3 - 0)%Q, None)].
Proof. reflexivity. Qed.

End DashboardFacts.

(** ** Splitting on whitespace *)

Module TextFacts.
Import Text.

(** A byte that never begins a whitespace character: every byte of the
    longer whitespace encodings after the first is one. *)
Definition ws_tail (c : ascii) : bool :=
  let n := nat_of_ascii c in
  (128 <=? n)%nat
  && negb ((n =? 194) || (n =? 225) || (n =? 226) || (n =? 227))%nat.

(** The next [k] bytes of [s] end a whitespace character. *)
Fixpoint tail_state (k : nat) (s : string) : Prop :=
  match k with
  | O => True
  | S k' =>
      match s with
      | EmptyString => False
      | String c rest => ws_tail c = true /\ tail_state k' rest
      end
  end.

Lemma append_cons c s r : String c s ++ r = String c (s ++ r).
Proof. reflexivity. Qed.

Lemma append_empty r : EmptyString ++ r = r.
Proof. reflexivity. Qed.

Lemma split_scan_here cur c rest :
  split_scan 0 cur (String c rest)
  = match ws_len (String c rest) with
    | O => split_scan 0 (cur ++ String c EmptyString) rest
    | S k => (flush cur ++ split_scan k EmptyString rest)%list
    end.
Proof. reflexivity. Qed.

Lemma split_scan_skip k cur c rest :
  split_scan (S k) cur (String c rest) = split_scan k cur rest.
Proof. reflexivity. Qed.

Lemma lstrip_scan_here c rest :
  lstrip_scan 0 (String c rest)
  = match ws_len (String c rest) with
    | O => String c rest
    | S k => lstrip_scan k rest
    end.
Proof. reflexivity. Qed.

Lemma lstrip_scan_skip k c rest :
  lstrip_scan (S k) (String c rest) = lstrip_scan k rest.
Proof. reflexivity. Qed.

Lemma rstrip_cons c rest :
  rstrip (String c rest)
  = if blank (String c rest) then EmptyString else String c (rstrip rest).
Proof. reflexivity. Qed.

Lemma ws_tail_not_start c r : ws_tail c = true -> ws_len (String c r) = 0%nat.
Proof.
  unfold ws_tail. cbv zeta. set (n := nat_of_ascii c).
  rewrite andb_true_iff, negb_true_iff, !orb_false_iff, Nat.leb_le, !Nat.eqb_neq.
  intros (Hn & ((H194 & H225) & H226) & H227).
  unfold ws_len. cbv beta iota zeta. fold n.
  assert (E1 : (n <=? 13)%nat = false) by (apply Nat.leb_gt; lia).
  assert (E2 : (n <=? 32)%nat = false) by (apply Nat.leb_gt; lia).
  apply Nat.eqb_neq in H194, H225, H226, H227.
  rewrite E1, E2, H194, H225, H226, H227, !andb_false_r. simpl.
  destruct r as [|c1 [|c2 r2]]; reflexivity.
Qed.

(** Bytes that follow do not undo a whitespace character. *)
Lemma ws_len_app s r k : ws_len s = S k -> ws_len (s ++ r) = S k.
Proof.
  destruct s as [|c0 [|c1 [|c2 s']]]; rewrite ?append_cons, ?append_empty.
  - discriminate.
  - unfold ws_len. cbv beta iota zeta.
    destruct (_ || _)%bool; [auto | discriminate].
  - unfold ws_len. cbv beta iota zeta.
    destruct (_ || _)%bool; [auto|].
    destruct (_ && _)%bool; [auto | discriminate].
  - auto.
Qed.

Lemma ws_len_tail c rest k : ws_len (String c rest) = S k -> tail_state k rest.
Proof.
  unfold ws_len. cbv beta iota zeta.
  set (b0 := nat_of_ascii c).
  destruct (_ || _)%bool.
  { intros [= <-]. exact I. }
  destruct rest as [|c1 r1]; [discriminate|].
  set (b1 := nat_of_ascii c1).
  destruct ((b0 =? 194)%nat && ((b1 =? 133)%nat || (b1 =? 160)%nat)) eqn:E2.
  { intros [= <-]. simpl. split; [|exact I].
    rewrite andb_true_iff, orb_true_iff, !Nat.eqb_eq in E2.
    fold b1 in E2 |- *. unfold ws_tail. cbv zeta. fold b1.
    rewrite andb_true_iff, negb_true_iff, !orb_false_iff, Nat.leb_le, !Nat.eqb_neq.
    lia. }
  destruct r1 as [|c2 r2]; [discriminate|].
  set (b2 := nat_of_ascii c2).
  match goal with |- (if ?b then _ else _) = _ -> _ => destruct b eqn:E3 end;
    [|discriminate].
  intros [= <-]. simpl.
  rewrite !orb_true_iff, !andb_true_iff, !orb_true_iff, !andb_true_iff,
    !Nat.eqb_eq, !Nat.leb_le in E3.
  unfold ws_tail. cbv zeta. fold b1 b2.
  rewrite !andb_true_iff, !negb_true_iff, !orb_false_iff, !Nat.leb_le, !Nat.eqb_neq.
  lia.
Qed.

Lemma lstrip_not_ws s : ws_len s = 0%nat -> lstrip s = s.
Proof.
  intros H. destruct s as [|c rest]; [reflexivity|].
  unfold lstrip. rewrite lstrip_scan_here. now rewrite H.
Qed.

Lemma blank_tail c rest : ws_tail c = true -> blank (String c rest) = false.
Proof.
  intros H. unfold blank.
  now rewrite (lstrip_not_ws _ (ws_tail_not_start c rest H)).
Qed.

(** [split()] does not see leading whitespace. *)
Lemma split_scan_lstrip s k :
  split_scan k EmptyString s = split_scan 0 EmptyString (lstrip_scan k s).
Proof.
  revert k. induction s as [|c rest IH]; intros k; [now destruct k|].
  destruct k as [|k].
  - rewrite split_scan_here, lstrip_scan_here.
    destruct (ws_len (String c rest)) eqn:E.
    + rewrite split_scan_here. now rewrite E.
    + simpl flush. apply IH.
  - rewrite split_scan_skip, lstrip_scan_skip. apply IH.
Qed.

Lemma split_ws_lstrip s : split_ws (lstrip s) = split_ws s.
Proof. unfold split_ws, lstrip. symmetry. apply split_scan_lstrip. Qed.

(** A text of whitespace only ends the token at hand and adds none. *)
Lemma split_scan_blank s k cur :
  lstrip_scan k s = EmptyString -> split_scan k cur s = flush cur.
Proof.
  revert k cur. induction s as [|c rest IH]; intros k cur H; [now destruct k|].
  destruct k as [|k].
  - rewrite lstrip_scan_here in H. rewrite split_scan_here.
    destruct (ws_len (String c rest)) eqn:E; [discriminate|].
    rewrite (IH _ EmptyString H). simpl flush. apply List.app_nil_r.
  - rewrite lstrip_scan_skip in H. rewrite split_scan_skip. now apply IH.
Qed.

Lemma split_ws_blank s : blank s = true -> split_ws s = [].
Proof.
  unfold blank, lstrip, split_ws. intros H.
  apply (split_scan_blank s 0 EmptyString).
  destruct (lstrip_scan 0 s); [reflexivity | discriminate].
Qed.

Lemma rstrip_prefix s : exists rest, s = rstrip s ++ rest.
Proof.
  induction s as [|c s [rest IH]]; [now exists EmptyString|].
  rewrite rstrip_cons. destruct (blank (String c s)).
  - now exists (String c s).
  - exists rest. rewrite append_cons. now rewrite <- IH.
Qed.

Lemma rstrip_keeps_tail k s : tail_state k s -> tail_state k (rstrip s).
Proof.
  revert s. induction k as [|k IH]; intros s H; [exact I|].
  destruct s as [|c rest]; [destruct H|]. destruct H as [Hc Hrest].
  rewrite rstrip_cons, (blank_tail c rest Hc). simpl. auto.
Qed.

Lemma tail_state_length k s : tail_state k s -> (k <= String.length s)%nat.
Proof.
  revert s. induction k as [|k IH]; intros s H; [lia|].
  destruct s as [|c rest]; [destruct H|]. destruct H as [_ H].
  simpl. apply IH in H. lia.
Qed.

(** A whitespace character is recognised on its own bytes. *)
Lemma ws_len_prefix p q k :
  ws_len (p ++ q) = S k -> (S k <= String.length p)%nat -> ws_len p = S k.
Proof.
  destruct p as [|c0 [|c1 [|c2 p']]]; rewrite ?append_cons, ?append_empty; simpl String.length.
  - lia.
  - unfold ws_len. cbv beta iota zeta.
    destruct (_ || _)%bool; [auto|].
    intros H Hk. assert (k = 0%nat) by lia. subst k.
    destruct q as [|c1 q1]; [discriminate|].
    destruct (_ && _)%bool; [discriminate|].
    destruct q1 as [|c2 q2]; [discriminate|].
    destruct (_ || _)%bool; discriminate.
  - unfold ws_len. cbv beta iota zeta.
    destruct (_ || _)%bool; [auto|].
    destruct (_ && _)%bool; [auto|].
    intros H Hk.
    destruct q as [|c2 q2]; [discriminate|].
    destruct (_ || _)%bool; [|discriminate].
    injection H as <-. lia.
  - auto.
Qed.

(** Cutting trailing whitespace does not change how a byte is read. *)
Lemma ws_len_rstrip c rest :
  ws_len (String c (rstrip rest)) = ws_len (String c rest).
Proof.
  destruct (rstrip_prefix rest) as [suffix Hs].
  destruct (ws_len (String c rest)) as [|k] eqn:E.
  - destruct (ws_len (String c (rstrip rest))) as [|k'] eqn:E'; [reflexivity|].
    apply (ws_len_app _ suffix) in E'. rewrite ?append_cons, ?append_empty in E'.
    rewrite <- Hs in E'. congruence.
  - pose proof (ws_len_tail c rest k E) as Ht.
    apply rstrip_keeps_tail, tail_state_length in Ht.
    apply (ws_len_prefix (String c (rstrip rest)) suffix).
    + rewrite append_cons. now rewrite <- Hs.
    + simpl. lia.
Qed.

(** [split()] does not see trailing whitespace. *)
Lemma split_scan_rstrip s k cur :
  tail_state k s -> split_scan k cur (rstrip s) = split_scan k cur s.
Proof.
  revert k cur. induction s as [|c rest IH]; intros k cur Hk; [reflexivity|].
  destruct k as [|k].
  - rewrite rstrip_cons. destruct (blank (String c rest)) eqn:Eb.
    + change (split_scan 0 cur EmptyString) with (flush cur).
      symmetry. apply split_scan_blank.
      unfold blank, lstrip in Eb.
      destruct (lstrip_scan 0 (String c rest)); [reflexivity | discriminate].
    + rewrite !split_scan_here, ws_len_rstrip.
      destruct (ws_len (String c rest)) as [|k'] eqn:E.
      * apply IH. exact I.
      * f_equal. apply IH. now apply (ws_len_tail c).
  - destruct Hk as [Hc Hrest]. rewrite rstrip_cons.
    rewrite (blank_tail c rest Hc), !split_scan_skip. now apply IH.
Qed.

Lemma split_ws_strip s : split_ws (strip s) = split_ws s.
Proof.
  unfold strip, split_ws.
  rewrite (split_scan_rstrip _ 0 EmptyString I).
  apply split_ws_lstrip.
Qed.

(** No part of the text begins with whitespace. *)
Fixpoint solid (t : string) : Prop :=
  match t with
  | EmptyString => True
  | String c rest => ws_len t = 0%nat /\ solid rest
  end.

(** The token at hand, read in front of the rest of the input. *)
Fixpoint solid_before (cur s : string) : Prop :=
  match cur with
  | EmptyString => True
  | String c rest => ws_len (cur ++ s) = 0%nat /\ solid_before rest s
  end.

Lemma solid_strip t : solid t -> strip t = t.
Proof.
  intros H. unfold strip.
  assert (Hl : lstrip t = t).
  { destruct t as [|c rest]; [reflexivity|]. destruct H as [H _].
    now apply lstrip_not_ws. }
  rewrite Hl. induction t as [|c rest IH]; [reflexivity|].
  destruct H as [Hc Hrest]. rewrite rstrip_cons.
  unfold blank. rewrite (lstrip_not_ws _ Hc). f_equal. apply IH; [exact Hrest|].
  destruct rest as [|c' rest']; [reflexivity|].
  apply lstrip_not_ws. now destruct Hrest.
Qed.

Lemma append_snoc cur c rest :
  (cur ++ String c EmptyString) ++ rest = cur ++ String c rest.
Proof.
  induction cur as [|x cur IH]; [reflexivity|].
  rewrite !append_cons. now rewrite IH.
Qed.

Lemma solid_before_snoc cur c rest :
  solid_before cur (String c rest) -> ws_len (String c rest) = 0%nat ->
  solid_before (cur ++ String c EmptyString) rest.
Proof.
  intros H Hc. induction cur as [|c' cur IH].
  - rewrite append_empty. split; [exact Hc | exact I].
  - destruct H as [H0 H]. rewrite append_cons.
    split; [|now apply IH].
    rewrite <- append_cons, append_snoc. exact H0.
Qed.

Lemma solid_before_solid cur s : solid_before cur s -> solid cur.
Proof.
  induction cur as [|c cur IH]; [auto|]. intros [H0 H]. split; [|auto].
  destruct (ws_len (String c cur)) as [|k] eqn:E; [reflexivity|].
  apply (ws_len_app _ s) in E. congruence.
Qed.

(** Every token is non-empty and free of whitespace. *)
Lemma split_scan_tokens s k cur :
  (k = 0%nat -> solid_before cur s) -> (k <> 0%nat -> cur = EmptyString) ->
  Forall (fun t => t <> EmptyString /\ solid t) (split_scan k cur s).
Proof.
  assert (Hflush : forall cur s, solid_before cur s ->
            Forall (fun t => t <> EmptyString /\ solid t) (flush cur)).
  { intros cur0 s0 H. destruct cur0 as [|c0 cur0]; simpl; [constructor|].
    constructor; [|constructor].
    split; [discriminate | now apply (solid_before_solid _ s0)]. }
  revert k cur. induction s as [|c rest IH]; intros k cur H0 Hk.
  - destruct k as [|k]; simpl.
    + apply (Hflush cur EmptyString). now apply H0.
    + rewrite Hk by discriminate. constructor.
  - destruct k as [|k]; [rewrite split_scan_here | rewrite split_scan_skip].
    + specialize (H0 eq_refl).
      destruct (ws_len (String c rest)) as [|k'] eqn:E.
      * apply IH; [|congruence]. intros _. now apply solid_before_snoc.
      * apply Forall_app. split; [now apply (Hflush cur (String c rest))|].
        apply IH; [intros _; exact I | reflexivity].
    + rewrite Hk by discriminate. apply IH; [intros _; exact I | reflexivity].
Qed.

Lemma split_ws_tokens s :
  Forall (fun t => t <> EmptyString /\ strip t = t) (split_ws s).
Proof.
  eapply Forall_impl; [apply (split_scan_tokens s 0 EmptyString)|].
  - intros _. exact I.
  - congruence.
  - intros t [Hne Hs]. split; [exact Hne | now apply solid_strip].
Qed.

(** The comprehension [[p.strip() for p in left.split() if p.strip()]]
    returns the tokens of [left.split()]. *)
Lemma stripped_tokens s :
  List.map strip
    (List.filter (fun p => negb (String.eqb (strip p) EmptyString)) (split_ws s))
  = split_ws s.
Proof.
  pose proof (split_ws_tokens s) as H.
  induction H as [|t l [Hne Hs] _ IH]; [reflexivity|].
  simpl. rewrite Hs. apply String.eqb_neq in Hne. rewrite Hne. simpl.
  now rewrite Hs, IH.
Qed.

End TextFacts.

(** ** Type buckets *)

Module BucketFacts.

(** What [type_buckets] computes, for either separator literal: the tokens
    of the text before the first separator, or "Unknown" when there is no
    token (an empty or whitespace-only text among others). *)
Lemma validate_type_buckets_tokens s :
  ValidateCsv.type_buckets s
  = match Text.split_ws (Text.before_first ValidateCsv.em_dash s) with
    | [] => ["Unknown"]
    | tokens => tokens
    end.
Proof.
  unfold ValidateCsv.type_buckets.
  destruct (String.eqb s "") eqn:E.
  - apply String.eqb_eq in E. now subst.
  - cbv zeta. rewrite TextFacts.split_ws_strip, TextFacts.stripped_tokens.
    now destruct (Text.split_ws _).
Qed.

Lemma dashboard_type_buckets_tokens s :
  DashboardData.type_buckets s
  = match Text.split_ws (Text.before_first DashboardData.separator s) with
    | [] => ["Unknown"]
    | tokens => tokens
    end.
Proof.
  unfold DashboardData.type_buckets.
  destruct (String.eqb s "") eqn:E.
  - apply String.eqb_eq in E. now subst.
  - cbv zeta. rewrite TextFacts.split_ws_strip, TextFacts.stripped_tokens.
    now destruct (Text.split_ws _).
Qed.

Lemma validate_type_buckets_blank s :
  Text.blank (Text.before_first ValidateCsv.em_dash s) = true ->
  ValidateCsv.type_buckets s = ["Unknown"].
Proof.
  intros H. rewrite validate_type_buckets_tokens.
  now rewrite (TextFacts.split_ws_blank _ H).
Qed.

(** *** What a position adds to a group *)

(** The value column of the rows of one bucket, summed. *)
Definition group_value (buckets : string -> list string)
  (rows : list Frame.holding) (k : string) : Q :=
  Frame.sum_skipna
    (List.map (fun bh : string * Frame.holding => Frame.position_value_usd (snd bh))
       (List.filter (fun bh => String.eqb (fst bh) k)
          (DashboardData.explode buckets rows))).

Lemma sum_skipna_app l1 l2 :
  (Frame.sum_skipna (l1 ++ l2) == Frame.sum_skipna l1 + Frame.sum_skipna l2)%Q.
Proof.
  induction l1 as [|[q|] l1 IH]; simpl.
  - now rewrite Qplus_0_l.
  - rewrite IH. apply Qplus_assoc.
  - exact IH.
Qed.

Lemma filter_bucket (h : Frame.holding) k bs :
  NoDup bs ->
  List.filter (fun bh : string * Frame.holding => String.eqb (fst bh) k)
    (List.map (fun b => (b, h)) bs)
  = if existsb (fun b => String.eqb b k) bs then [(k, h)] else [].
Proof.
  induction 1 as [|b bs Hb _ IH]; [reflexivity|]. simpl.
  destruct (String.eqb b k) eqn:E; simpl.
  - apply String.eqb_eq in E. subst b. rewrite IH.
    destruct (existsb _ bs) eqn:Ex; [|reflexivity].
    exfalso. apply existsb_exists in Ex. destruct Ex as (x & Hx & Hxk).
    apply String.eqb_eq in Hxk. subst x. apply Hb. now apply list_elem_of_In.
  - exact IH.
Qed.

(** A position whose tokens are distinct adds its value once to the group
    of each of its tokens and nothing to any other group. *)
Lemma position_adds_once buckets h rows k :
  NoDup (buckets (default "" (Frame.type_line h))) ->
  (group_value buckets (h :: rows) k
   == (if existsb (fun b => String.eqb b k)
            (buckets (default "" (Frame.type_line h)))
       then Frame.value_key h else 0)
      + group_value buckets rows k)%Q.
Proof.
  intros Hnd. unfold group_value. simpl DashboardData.explode.
  change (DashboardData.explode buckets (h :: rows))
    with (List.map (fun b => (b, h)) (buckets (default "" (Frame.type_line h)))
          ++ DashboardData.explode buckets rows)%list.
  rewrite List.filter_app, List.map_app, sum_skipna_app.
  apply Qplus_inj_r. rewrite (filter_bucket h k _ Hnd).
  destruct (existsb _ _); [|reflexivity].
  simpl. unfold Frame.value_key.
  destruct (Frame.position_value_usd h); [apply Qplus_0_r | reflexivity].
Qed.

(** The breakdown has a row for a bucket exactly when some position has
    the token, and the row carries the group's value. *)
Lemma breakdown_row_value buckets rows g :
  In g (DashboardData.type_breakdown_groups buckets rows) ->
  exists k, Frame.bucket g = Some k /\
            Frame.value_usd g = group_value buckets rows k.
Proof.
  unfold DashboardData.type_breakdown_groups, Frame.groupby_sum. intros H.
  apply in_map_iff in H. destruct H as (key & <- & Hk). simpl.
  apply FrameFacts.group_keys_in, in_map_iff in Hk.
  destruct Hk as ([k h] & <- & _).
  exists k. split; reflexivity.
Qed.

(** "Artifact Creature — Golem", the dash being U+2014. *)
Definition golem_line : string :=
  "Artifact Creature " ++ ValidateCsv.em_dash ++ " Golem".

Definition golem : Frame.holding :=
  {| Frame.owned := {| Frame.set_code := "mrd"; Frame.collector_number := "7";
                       Frame.finish := "foil"; Frame.qty := 2 |};
     Frame.scryfall_id := "g1"; Frame.name := Some "Sample Golem";
     Frame.rarity := Some "uncommon"; Frame.type_line := Some golem_line;
     Frame.usd := Some 5%Q |}.

(** The buckets of a breakdown with the quantity and value of each. *)
Definition summary (groups : list Frame.breakdown_row)
  : list (option string * Z * Q) :=
  List.map
    (fun g => (Frame.bucket g, Frame.count g, Qred (Frame.value_usd g))) groups.

(** C6, at the failing input. The type text "Artifact Creature — Golem":
    the validation script derives the tokens "Artifact" and "Creature";
    the dashboard, whose separator literal is not the em dash, derives
    "Artifact", "Creature", the dash and "Golem", and the position adds
    its full value to four groups. *)
Theorem dashboard_buckets_keep_subtype :
  ValidateCsv.type_buckets golem_line = ["Artifact"; "Creature"] /\
  DashboardData.type_buckets golem_line
  = ["Artifact"; "Creature"; ValidateCsv.em_dash; "Golem"] /\
  summary (DashboardData.type_breakdown_groups ValidateCsv.type_buckets [golem])
  = [(Some "Artifact", 2%Z, 10%Q); (Some "Creature", 2%Z, 10%Q)] /\
  summary (DashboardData.type_breakdown_groups DashboardData.type_buckets [golem])
  = [(Some "Artifact", 2%Z, 10%Q); (Some "Creature", 2%Z, 10%Q);
     (Some "Golem", 2%Z, 10%Q); (Some ValidateCsv.em_dash, 2%Z, 10%Q)].
Proof. repeat split; reflexivity. Qed.

(** The separator of the dashboard never occurs in it: both scripts agree
    on texts without a dash. *)
Example buckets_without_dash :
  DashboardData.type_buckets "Legendary  Enchantment" = ["Legendary"; "Enchantment"] /\
  ValidateCsv.type_buckets "Legendary  Enchantment" = ["Legendary"; "Enchantment"].
Proof. split; reflexivity. Qed.

Example buckets_of_blank :
  ValidateCsv.type_buckets "" = ["Unknown"] /\
  ValidateCsv.type_buckets "   " = ["Unknown"] /\
  ValidateCsv.type_buckets (ValidateCsv.em_dash ++ " Golem") = ["Unknown"] /\
  DashboardData.type_buckets "" = ["Unknown"] /\
  DashboardData.type_buckets "   " = ["Unknown"].
Proof. repeat split; reflexivity. Qed.

End BucketFacts.

(** ** More on the cache and the unit price *)

Module CacheFacts.
Import Shared SharedFacts.

Section Footprint.

Variable clock : nat -> Q.
Variable catalog : string -> option dict.

(** Whatever it returns, a lookup leaves the state as it was, or one clock
    reading later. *)
Lemma cache_get_state key ttl w :
  snd (cache_get clock key ttl w) = w \/ snd (cache_get clock key ttl w) = tick w.
Proof.
  unfold cache_get.
  destruct (disk w !! _cache_filename key) as [f|]; [|now left].
  destruct f as [| |v]; try (now left). simpl.
  destruct v; try (now left). unfold bind, lift. simpl.
  destruct (as_int_or_float _); [|now left]. simpl.
  destruct (Qle_bool _ _); now right.
Qed.

(** X1. [cache_get] only reads. For every cache state, key and time to live,
    and whatever it returns or raises, no file of the cache directory
    changes and no request is sent; the clock is read at most once. *)
Theorem cache_get_reads_only key ttl w :
  let w' := snd (cache_get clock key ttl w) in
  disk w' = disk w /\ fetched w' = fetched w /\
  (ticks w' = ticks w \/ ticks w' = S (ticks w)).
Proof.
  intros w'. subst w'.
  destruct (cache_get_state key ttl w) as [-> | ->]; simpl; auto.
Qed.

Lemma resolve_state key ttl w :
  let w' := snd (fetch_scryfall_card_cached clock catalog key ttl w) in
  (forall name, name <> _cache_filename key -> disk w' !! name = disk w !! name) /\
  (fetched w' = fetched w \/ fetched w' = (fetched w ++ [url key])%list).
Proof.
  intros w'. subst w'. unfold fetch_scryfall_card_cached, bind.
  pose proof (cache_get_state key ttl w) as Hs.
  destruct (cache_get clock key ttl w) as [[[d|]|e] w1]; simpl in Hs.
  - simpl. destruct Hs as [-> | ->]; simpl; auto.
  - unfold fetch_scryfall_card, cache_set, bind, time_time, write_text, url.
    destruct (catalog _) as [card|]; simpl.
    + split.
      * intros name Hn. rewrite lookup_insert_ne by congruence.
        destruct Hs as [-> | ->]; reflexivity.
      * right. destruct Hs as [-> | ->]; reflexivity.
    + split.
      * intros name _. destruct Hs as [-> | ->]; reflexivity.
      * right. destruct Hs as [-> | ->]; reflexivity.
  - simpl. destruct Hs as [-> | ->]; simpl; auto.
Qed.

(** X2. A cached resolve touches at most the cache file of its key and sends
    at most one request, for every cache state and whatever the outcome. *)
Theorem resolve_footprint key ttl w :
  let w' := snd (fetch_scryfall_card_cached clock catalog key ttl w) in
  (forall name, name <> _cache_filename key -> disk w' !! name = disk w !! name) /\
  (fetched w' = fetched w \/ fetched w' = (fetched w ++ [url key])%list).
Proof. exact (resolve_state key ttl w). Qed.

(** X3. Write, then read. What [cache_set] stores for a key is the card
    with the time of writing under [_fetched_at_epoch], every other field
    unchanged; [cache_get] for that key returns exactly this record while
    its age is within the time to live, and [None] once it is older. *)
Theorem cache_round_trip key card ttl w :
  let now := clock (ticks w) in
  let w1 := snd (cache_set clock key card w) in
  dict_get "_fetched_at_epoch" (stamped now card) = JNum now /\
  (forall k, k <> "_fetched_at_epoch" ->
             dict_get k (stamped now card) = dict_get k card) /\
  (fresh clock w1 ttl now ->
   cache_get clock key ttl w1 = (Ok (Some (stamped now card)), tick w1)) /\
  (~ fresh clock w1 ttl now ->
   cache_get clock key ttl w1 = (Ok None, tick w1)).
Proof.
  intros now w1.
  assert (Hp : cached_payload w1 key (stamped now card) now).
  { split.
    - subst w1 now. unfold cache_set, bind, time_time, write_text. simpl.
      apply lookup_insert_eq.
    - unfold stamped. now rewrite dict_get_set_eq. }
  split; [unfold stamped; apply dict_get_set_eq|].
  split; [intros k Hk; unfold stamped; apply dict_get_set_ne; congruence|].
  split; intros Hf.
  - exact (cache_get_fresh clock key ttl w1 (stamped now card) now Hp Hf).
  - exact (cache_get_stale clock key ttl w1 (stamped now card) now Hp Hf).
Qed.

End Footprint.

Lemma cache_round_trip_witness :
  cache_get sample_clock neo1 12
    (snd (cache_set sample_clock neo1 neo1_card empty_world))
  = (Ok (Some (stamped 1000 neo1_card)),
     tick (snd (cache_set sample_clock neo1 neo1_card empty_world))) /\
  cache_get sample_clock neo1 (-1)
    (snd (cache_set sample_clock neo1 neo1_card empty_world))
  = (Ok None, tick (snd (cache_set sample_clock neo1 neo1_card empty_world))).
Proof.
  split.
  - apply (cache_round_trip sample_clock neo1 neo1_card 12 empty_world).
    unfold fresh. vm_compute. discriminate.
  - apply (cache_round_trip sample_clock neo1 neo1_card (-1) empty_world).
    unfold fresh. intros H. vm_compute in H. apply H. reflexivity.
Defined.


(** X4. Resolve twice. After a miss that the catalog serves, the record
    is there: a second resolve of the same key, made while the record is
    within the time to live, answers from the cache with the card and its
    fetch time, and the two resolves together have sent one request. *)
Theorem resolve_then_hit
  (clock : nat -> Q) (catalog : string -> option dict)
  (key : PrintingKey) (ttl : Z) (w : world) (card : dict) :
  cache_miss clock w key ttl ->
  catalog (url key) = Some card ->
  let run1 := fetch_scryfall_card_cached clock catalog key ttl w in
  let stored_at := clock (Nat.pred (ticks (snd run1))) in
  fresh clock (snd run1) ttl stored_at ->
  fst run1 = Ok (card, "cache_miss_fetched") /\
  fetch_scryfall_card_cached clock catalog key ttl (snd run1)
  = (Ok (stamped stored_at card, "cache_hit"), tick (snd run1)) /\
  fetched (tick (snd run1)) = (fetched w ++ [url key])%list.
Proof.
  intros Hm Hc run1. subst run1.
  destruct (resolve_miss clock catalog key ttl w Hm) as (w1 & _ & _ & _ & ->).
  rewrite Hc. simpl. intros Hf. split; [reflexivity|]. split; [|reflexivity].
  apply resolve_hit with (t := clock (ticks w1)); [|exact Hf].
  split; [apply lookup_insert_eq|].
  unfold stamped. now rewrite dict_get_set_eq.
Qed.

Lemma resolve_then_hit_witness :
  fst (fetch_scryfall_card_cached sample_clock sample_catalog neo1 12
         (snd (fetch_scryfall_card_cached sample_clock sample_catalog neo1 12
                 empty_world)))
  = Ok (stamped 1000 neo1_card, "cache_hit").
Proof.
  destruct (resolve_then_hit sample_clock sample_catalog neo1 12 empty_world
              neo1_card) as (_ & H & _).
  - apply miss_absent. reflexivity.
  - reflexivity.
  - unfold fresh. vm_compute. discriminate.
  - rewrite H. reflexivity.
Defined.

Section Prices.

Variable float_of_str : string -> option Q.

(** X5. Whether a card has a price does not depend on the finish asked
    for. For any two finishes the selection raises the same exception or
    returns for both; it returns no price for one exactly when it returns
    none for the other, and a missing price always carries the note
    "missing_price_usd". *)
Theorem price_availability_ignores_finish (card : dict) (f1 f2 : string) :
  match choose_unit_price_usd float_of_str card f1,
        choose_unit_price_usd float_of_str card f2 with
  | Raise e1, Raise e2 => e1 = e2
  | Ok (p1, n1), Ok (p2, n2) =>
      (p1 = None <-> p2 = None) /\ (p1 = None <-> n1 = "missing_price_usd")
  | _, _ => False
  end.
Proof.
  unfold choose_unit_price_usd, rbind.
  destruct (prices_of card) as [prices|e]; [|reflexivity].
  destruct (to_float float_of_str (dict_get "usd" prices)) as [usd|e];
    [|reflexivity].
  destruct (to_float float_of_str (dict_get "usd_foil" prices)) as [usd_foil|e];
    [|reflexivity].
  destruct (String.eqb f1 "foil"), (String.eqb f2 "foil"), usd, usd_foil;
    repeat split; intros; congruence.
Qed.

(** A price text that [float] rejects. *)
Definition malformed (x : json) : Prop :=
  exists s, x = JStr s /\ s <> "" /\ s <> "null" /\ float_of_str s = None.

Lemma to_float_malformed x : malformed x -> to_float float_of_str x = Raise ValueError.
Proof.
  intros (s & -> & H1 & H2 & Hf). simpl.
  apply String.eqb_neq in H1, H2. rewrite H1, H2. simpl. now rewrite Hf.
Qed.

(** X6. Both price fields are converted before the finish is looked at. A
    price text that [float] rejects, in the nonfoil field, or in the foil
    field beside a sound nonfoil field, makes the selection raise
    [ValueError] for every finish, also for the finish whose own price is
    sound. *)
Theorem malformed_price_raises (card prices : dict) (usd : option Q) :
  dict_get "prices" card = JObj prices ->
  malformed (dict_get "usd" prices) \/
  (price_field float_of_str (dict_get "usd" prices) usd /\
   malformed (dict_get "usd_foil" prices)) ->
  forall finish,
    choose_unit_price_usd float_of_str card finish = Raise ValueError.
Proof.
  intros Hp H finish.
  assert (Hprices : prices_of card = Ok prices).
  { unfold prices_of, py_or. rewrite Hp. destruct prices; reflexivity. }
  unfold choose_unit_price_usd. rewrite Hprices. simpl.
  destruct H as [Hu | [Hu Hf]].
  - now rewrite (to_float_malformed _ Hu).
  - rewrite (to_float_price_field _ _ _ Hu). simpl.
    now rewrite (to_float_malformed _ Hf).
Qed.

End Prices.

Definition bad_foil_text : dict :=
  [("prices", JObj [("usd", JStr "1.00"); ("usd_foil", JStr "n/a")])].

Lemma malformed_price_raises_witness :
  choose_unit_price_usd decimal bad_foil_text "nonfoil" = Raise ValueError.
Proof.
  apply (malformed_price_raises decimal bad_foil_text
           [("usd", JStr "1.00"); ("usd_foil", JStr "n/a")] (Some 1%Q)).
  - reflexivity.
  - right. split.
    + apply pf_present. right. exists "1.00".
      repeat split; discriminate || reflexivity.
    + exists "n/a". repeat split; discriminate || reflexivity.
Defined.

End CacheFacts.

(** ** More on the snapshot ledger and the daily job *)

Module StoreFacts.
Import SnapshotPrices SnapshotFacts.

Lemma filter_twice {A} (f : A -> bool) (l : list A) :
  List.filter f (List.filter f l) = List.filter f l.
Proof.
  induction l as [|x l IH]; [reflexivity|]. simpl.
  destruct (f x) eqn:E; simpl; [rewrite E; f_equal|]; exact IH.
Qed.

Lemma filter_implied {A} (f g : A -> bool) (l : list A) :
  (forall x, f x = true -> g x = true) ->
  List.filter f (List.filter g l) = List.filter f l.
Proof.
  intros H. induction l as [|x l IH]; [reflexivity|]. simpl.
  destruct (g x) eqn:Eg; simpl.
  - destruct (f x); [f_equal|]; exact IH.
  - destruct (f x) eqn:Ef; [|exact IH].
    rewrite (H x Ef) in Eg. discriminate.
Qed.

Lemma filter_split_length {A} (f : A -> bool) (l : list A) :
  (length (List.filter f l) + length (List.filter (fun x => negb (f x)) l)
   = length l)%nat.
Proof.
  induction l as [|x l IH]; [reflexivity|]. simpl.
  destruct (f x); simpl; lia.
Qed.

Lemma insert_or_replace_twice r t :
  insert_or_replace r (insert_or_replace r t) = insert_or_replace r t.
Proof.
  unfold insert_or_replace. rewrite List.filter_app, filter_twice. simpl.
  rewrite same_key_refl. simpl. now rewrite List.app_nil_r.
Qed.

Section Upsert.

Variable sql_text : Q -> string.
Variable sql_real : string -> option Q.

Lemma upsert_inv t d card s cn f usd t' :
  upsert_snapshot sql_text sql_real (Some t) d card s cn f usd = Ok t' ->
  exists r, row_of sql_text sql_real d card s cn f usd = Ok r /\
            t' = insert_or_replace r t.
Proof.
  unfold upsert_snapshot.
  destruct (row_of sql_text sql_real d card s cn f usd) as [r|e]; simpl;
    [|discriminate].
  intros [= <-]. eauto.
Qed.

(** The parameters of one call of [upsert_snapshot]. *)
Definition upsert_call : Type :=
  (string * dict * string * string * string * option Q)%type.

(** A run of upserts on one connection. *)
Fixpoint upsert_all (t : table) (calls : list upsert_call) : result table :=
  match calls with
  | [] => Ok t
  | (d, card, s, cn, f, usd) :: rest =>
      rbind (upsert_snapshot sql_text sql_real (Some t) d card s cn f usd)
        (fun t' => upsert_all t' rest)
  end.

(** X7. The primary key stays a key. Any run of upserts that returns, made
    on a table in which no two rows share a (date, item id, finish),
    returns such a table; so does every run made on the table that
    [ensure_schema] creates. *)
Theorem upserts_keep_keys_unique calls :
  (forall t t', key_unique t -> upsert_all t calls = Ok t' -> key_unique t') /\
  (forall t0 t', ensure_schema None = Some t0 ->
                 upsert_all t0 calls = Ok t' -> key_unique t').
Proof.
  assert (H : forall t t', key_unique t -> upsert_all t calls = Ok t' ->
                           key_unique t').
  { induction calls as [|[[[[[d card] s] cn] f] usd] rest IH]; intros t t' Hu.
    - intros [= <-]. exact Hu.
    - simpl.
      destruct (upsert_snapshot sql_text sql_real (Some t) d card s cn f usd)
        as [t1|e] eqn:E; simpl; [|discriminate].
      destruct (upsert_inv _ _ _ _ _ _ _ _ E) as (r & _ & ->).
      apply IH. now apply insert_or_replace_unique. }
  split; [exact H|].
  intros t0 t' [= <-]. apply H. intros x [].
Qed.

(** X8. An upsert changes one key only. The rows of every other (date,
    item id, finish) are read as before; the table grows by one row when
    the key was new and keeps its size when the key had one row. *)
Theorem upsert_touches_one_key t d card s cn f usd t' r :
  row_of sql_text sql_real d card s cn f usd = Ok r ->
  upsert_snapshot sql_text sql_real (Some t) d card s cn f usd = Ok t' ->
  (forall d' id' f',
     (d', id', f') <> (d, scryfall_id r, f) ->
     rows_for_key d' id' f' t' = rows_for_key d' id' f' t) /\
  (length t' + length (rows_for_key d (scryfall_id r) f t) = S (length t))%nat.
Proof.
  intros Hr H. destruct (upsert_inv _ _ _ _ _ _ _ _ H) as (r' & Hr' & ->).
  rewrite Hr in Hr'. injection Hr' as <-.
  destruct (row_of_key _ _ _ _ _ _ _ _ _ Hr) as (Hd & Hf & _).
  split.
  - intros d' id' f' Hne.
    pose (probe := {| snapshot_date := d'; scryfall_id := id'; set_code := "";
                      collector_number := ""; finish := f'; name := None;
                      rarity := None; type_line := None; usd := None;
                      fetched_at_epoch := SqlNull |}).
    change (keyed_like probe (insert_or_replace r t) = keyed_like probe t).
    apply keyed_like_insert_other.
    unfold same_key. simpl.
    destruct (String.eqb (snapshot_date r) d') eqn:E1; [|reflexivity].
    destruct (String.eqb (scryfall_id r) id') eqn:E2; [|reflexivity].
    destruct (String.eqb (finish r) f') eqn:E3; [|reflexivity].
    apply String.eqb_eq in E1, E2, E3. congruence.
  - unfold insert_or_replace. rewrite List.length_app. simpl.
    rewrite <- Hd, <- Hf.
    change (rows_for_key (snapshot_date r) (scryfall_id r) (finish r) t)
      with (keyed_like r t).
    rewrite keyed_like_filter.
    pose proof (filter_split_length (fun r' => same_key r' r) t) as Hl.
    replace (List.filter (fun r' => negb (same_key r r')) t)
      with (List.filter (fun x => negb (same_key x r)) t).
    + lia.
    + apply List.filter_ext. intros x. now rewrite same_key_sym.
Qed.

(** X9. An upsert repeated is an upsert. Writing the same parameters again
    returns the table the first write returned. *)
Theorem upsert_again_is_noop t d card s cn f usd t' :
  upsert_snapshot sql_text sql_real (Some t) d card s cn f usd = Ok t' ->
  upsert_snapshot sql_text sql_real (Some t') d card s cn f usd = Ok t'.
Proof.
  intros H. destruct (upsert_inv _ _ _ _ _ _ _ _ H) as (r & Hr & ->).
  unfold upsert_snapshot. rewrite Hr. simpl.
  now rewrite insert_or_replace_twice.
Qed.

End Upsert.

Lemma upserts_keep_keys_unique_witness :
  key_unique [katana_row 3].
Proof.
  apply (proj1 (upserts_keep_keys_unique no_text no_real
                  [("2025-01-08", katana "2.00", "neo", "1", "nonfoil", Some 2%Q);
                   ("2025-01-08", katana "3.00", "neo", "1", "nonfoil", Some 3%Q)])
           [katana_row 1]).
  - intros r [<- | []]. reflexivity.
  - reflexivity.
Defined.

Lemma upsert_touches_one_key_witness :
  (length [katana_row 2] + length (rows_for_key "2025-01-08" "a1" "nonfoil"
                                     [katana_row 1])
   = S (length [katana_row 1]))%nat.
Proof.
  apply (upsert_touches_one_key no_text no_real [katana_row 1]
           "2025-01-08" (katana "2.00") "neo" "1" "nonfoil" (Some 2%Q)
           [katana_row 2] (katana_row 2)); reflexivity.
Defined.

Lemma upsert_again_is_noop_witness :
  upsert_snapshot no_text no_real (Some [katana_row 2]) "2025-01-08"
    (katana "2.00") "neo" "1" "nonfoil" (Some 2%Q) = Ok [katana_row 2].
Proof.
  apply (upsert_again_is_noop no_text no_real [katana_row 1]).
  reflexivity.
Defined.

End StoreFacts.

(** ** The daily snapshot job *)

Module JobFacts.
Import Shared SharedFacts.

Lemma same_row_eq a b : SnapshotJob.same_row a b = true <-> a = b.
Proof.
  destruct a as [[s cn] f], b as [[s' cn'] f']. simpl.
  rewrite !andb_true_iff, !String.eqb_eq.
  split; [intros [[-> ->] ->]; reflexivity | intros [= -> -> ->]; auto].
Qed.

Lemma drop_duplicates_subset seen l x :
  In x (SnapshotJob.drop_duplicates seen l) -> In x l.
Proof.
  revert seen. induction l as [|y l IH]; intros seen H; [destruct H|].
  simpl in H. destruct (existsb (SnapshotJob.same_row y) seen).
  - right. eapply IH; eauto.
  - destruct H as [-> | H]; [now left | right; eapply IH; eauto].
Qed.

(** Rows dated otherwise than [d]. *)
Definition other_dates (d : string) (t : SnapshotPrices.table)
  : SnapshotPrices.table :=
  List.filter (fun r => negb (String.eqb (SnapshotPrices.snapshot_date r) d)) t.

Lemma other_dates_insert d r t :
  SnapshotPrices.snapshot_date r = d ->
  other_dates d (SnapshotPrices.insert_or_replace r t) = other_dates d t.
Proof.
  intros Hd. unfold other_dates, SnapshotPrices.insert_or_replace.
  rewrite List.filter_app. simpl. rewrite Hd, String.eqb_refl. simpl.
  rewrite List.app_nil_r. apply StoreFacts.filter_implied.
  intros x Hx. apply negb_true_iff in Hx. apply negb_true_iff.
  unfold SnapshotPrices.same_key. rewrite Hd.
  rewrite String.eqb_sym, Hx. reflexivity.
Qed.

Section Run.

Variable clock : nat -> Q.
Variable catalog : string -> option dict.
Variable float_of_str : string -> option Q.
Variable sql_text : Q -> string.
Variable sql_real : string -> option Q.
Variable today : string.

Abbreviation snapshot_one :=
  (SnapshotJob.snapshot_one clock catalog float_of_str sql_text sql_real today).
Abbreviation snapshot_rows :=
  (SnapshotJob.snapshot_rows clock catalog float_of_str sql_text sql_real today).
Abbreviation job :=
  (SnapshotJob.main clock catalog float_of_str sql_text sql_real today).

(** One turn of the loop that returns has resolved a card and written its
    row, dated today, for the printing and finish at hand. *)
Lemma snapshot_one_inv t s cn f w t' w' :
  snapshot_one t (s, cn, f) w = (Ok t', w') ->
  exists card note priced r,
    fetch_scryfall_card_cached clock catalog (mkKey s cn) CACHE_TTL_HOURS w
    = (Ok (card, note), w') /\
    choose_unit_price_usd float_of_str card f = Ok priced /\
    SnapshotPrices.row_of sql_text sql_real today card s cn f (fst priced) = Ok r /\
    t' = SnapshotPrices.insert_or_replace r t.
Proof.
  unfold SnapshotJob.snapshot_one, bind, lift.
  destruct (fetch_scryfall_card_cached clock catalog (mkKey s cn)
              CACHE_TTL_HOURS w) as [[[card note]|e] w1]; [|discriminate].
  simpl fst.
  destruct (choose_unit_price_usd float_of_str card f) as [priced|e] eqn:Ec;
    [|discriminate].
  simpl set_code. simpl collector_number.
  destruct (SnapshotPrices.upsert_snapshot _ _ _ _ _ _ _ _ _) as [t1|e] eqn:E;
    [|discriminate].
  intros [= <- <-].
  destruct (StoreFacts.upsert_inv _ _ _ _ _ _ _ _ _ _ E) as (r & Hr & ->).
  exists card, note, priced, r. repeat split; auto.
Qed.

Lemma snapshot_rows_cons t row rest w :
  snapshot_rows t (row :: rest) w
  = match snapshot_one t row w with
    | (Ok t1, w1) => snapshot_rows t1 rest w1
    | (Raise e, w1) => (Raise e, w1)
    end.
Proof. reflexivity. Qed.

Lemma snapshot_rows_inv rows :
  forall t w t' w',
    snapshot_rows t rows w = (Ok t', w') ->
    other_dates today t' = other_dates today t /\
    (forall r, In r t' ->
       In r t \/
       (SnapshotPrices.snapshot_date r = today /\
        In (SnapshotPrices.set_code r, SnapshotPrices.collector_number r,
            SnapshotPrices.finish r) rows)).
Proof.
  induction rows as [|[[s cn] f] rows IH]; intros t w t' w'.
  - simpl. unfold ret. intros [= <- <-]. auto.
  - rewrite snapshot_rows_cons.
    destruct (snapshot_one t (s, cn, f) w) as [[t1|e] w1] eqn:E;
      [|discriminate].
    intros H. destruct (IH _ _ _ _ H) as [Ho Hin].
    destruct (snapshot_one_inv _ _ _ _ _ _ _ E)
      as (card & note & priced & r & _ & _ & Hr & ->).
    destruct (SnapshotFacts.row_of_key _ _ _ _ _ _ _ _ _ Hr)
      as (Hd & Hf & _ & Hs & Hcn & _).
    split.
    + rewrite Ho. now apply other_dates_insert.
    + intros x Hx. destruct (Hin x Hx) as [Hx1 | [Hxd Hxr]].
      * unfold SnapshotPrices.insert_or_replace in Hx1.
        apply List.in_app_iff in Hx1. destruct Hx1 as [Hx1 | [<- | []]].
        -- left. apply List.filter_In in Hx1. tauto.
        -- right. split; [exact Hd|]. left. now rewrite Hs, Hcn, Hf.
      * right. split; [exact Hxd | now right].
Qed.

(** X10. The job writes today's rows of owned printings and nothing else. When
    it returns, every row dated otherwise is where it was, in order, and
    each row that was not there before is dated today and carries the set
    code, collector number and finish of an owned position. When it raises,
    the database holds what it held before (the table at most created):
    the rows written before the exception are not committed. *)
Theorem job_writes_only_today owned_rows db w :
  let t0 := default [] db in
  match job owned_rows db w with
  | ((Ok _, db'), _) =>
      exists t', db' = Some t' /\
        other_dates today t' = other_dates today t0 /\
        (forall r, In r t' ->
           In r t0 \/
           (SnapshotPrices.snapshot_date r = today /\
            exists p, In p owned_rows /\
              SnapshotPrices.set_code r = Frame.set_code p /\
              SnapshotPrices.collector_number r = Frame.collector_number p /\
              SnapshotPrices.finish r = Frame.finish p))
  | ((Raise _, db'), _) => db' = Some t0
  end.
Proof.
  intros t0. unfold SnapshotJob.main.
  assert (Hc : SnapshotPrices.ensure_schema db = Some t0) by now destruct db.
  rewrite Hc.
  destruct (snapshot_rows t0 _ w) as [[t'|e] w'] eqn:E; [|reflexivity].
  destruct (snapshot_rows_inv _ _ _ _ _ E) as [Ho Hin].
  exists t'. split; [reflexivity|]. split; [exact Ho|].
  intros r Hr. destruct (Hin r Hr) as [H | [Hd Hrow]]; [now left|].
  right. split; [exact Hd|].
  apply drop_duplicates_subset, in_map_iff in Hrow.
  destruct Hrow as (p & Hp & Hin'). exists p.
  unfold SnapshotJob.projected in Hp. injection Hp as <- <- <-. auto.
Qed.

(** X11. The fetch time of a snapshot row comes from the cache record only.
    A card that was just fetched carries no [_fetched_at_epoch] (the stamp
    is put on the copy that goes to the cache file), so its row has a NULL
    fetch time; a card answered from the cache has its row stamped with
    the numeric fetch time of the record. *)
Theorem snapshot_row_fetch_time t s cn f w t' w' :
  snapshot_one t (s, cn, f) w = (Ok t', w') ->
  exists r, t' = SnapshotPrices.insert_or_replace r t /\
    (forall card,
       cache_miss clock w (mkKey s cn) CACHE_TTL_HOURS ->
       catalog (url (mkKey s cn)) = Some card ->
       dict_get "_fetched_at_epoch" card = JNull ->
       SnapshotPrices.fetched_at_epoch r = SnapshotPrices.SqlNull) /\
    (forall d q,
       cached_payload w (mkKey s cn) d q ->
       fresh clock w CACHE_TTL_HOURS q ->
       dict_get "_fetched_at_epoch" d = JNum q ->
       SnapshotPrices.fetched_at_epoch r = SnapshotPrices.SqlReal q).
Proof.
  intros H.
  destruct (snapshot_one_inv _ _ _ _ _ _ _ H)
    as (card & note & priced & r & Hres & _ & Hr & ->).
  exists r. split; [reflexivity|].
  assert (Hrow : forall v,
            dict_get "_fetched_at_epoch" card = v ->
            SnapshotPrices.bind_real sql_real v
            = Ok (SnapshotPrices.fetched_at_epoch r)).
  { intros v <-. revert Hr. unfold SnapshotPrices.row_of, rbind.
    destruct (SnapshotPrices.bind_text sql_text (dict_get "id" card)) as [[id|]|];
      try discriminate;
      destruct (SnapshotPrices.bind_text sql_text (dict_get "name" card));
      try discriminate;
      destruct (SnapshotPrices.bind_text sql_text (py_or (dict_get "rarity" card) _));
      try discriminate;
      destruct (SnapshotPrices.bind_text sql_text (py_or (dict_get "type_line" card) _));
      try discriminate;
      destruct (SnapshotPrices.bind_real sql_real _); try discriminate.
    intros [= <-]. reflexivity. }
  split.
  - intros card0 Hm Hc Hts.
    destruct (resolve_miss clock catalog _ _ _ Hm) as (w1 & _ & _ & _ & Hrun).
    rewrite Hc, Hres in Hrun. injection Hrun as <- _ _.
    specialize (Hrow _ Hts). simpl in Hrow. congruence.
  - intros d q Hp Hf Hts.
    rewrite (resolve_hit clock catalog _ _ _ d q Hp Hf) in Hres.
    injection Hres as <- _ _.
    specialize (Hrow _ Hts). simpl in Hrow. congruence.
Qed.

End Run.

Definition sample_one :=
  SnapshotJob.snapshot_one sample_clock sample_catalog decimal
    SnapshotFacts.no_text SnapshotFacts.no_real "2025-01-08".

Lemma snapshot_row_fetch_time_witness :
  exists r,
    fst (sample_one [] ("neo", "1", "nonfoil") empty_world) = Ok [r] /\
    SnapshotPrices.fetched_at_epoch r = SnapshotPrices.SqlNull.
Proof.
  destruct (snapshot_row_fetch_time sample_clock sample_catalog decimal
              SnapshotFacts.no_text SnapshotFacts.no_real "2025-01-08"
              [] "neo" "1" "nonfoil" empty_world
              (match fst (sample_one [] ("neo", "1", "nonfoil") empty_world) with
               | Ok t => t
               | Raise _ => []
               end)
              (snd (sample_one [] ("neo", "1", "nonfoil") empty_world))
              eq_refl) as (r & Ht & Hmiss & _).
  exists r. split.
  - change (fst (sample_one [] ("neo", "1", "nonfoil") empty_world))
      with (@Ok SnapshotPrices.table
              (match fst (sample_one [] ("neo", "1", "nonfoil") empty_world) with
               | Ok t => t
               | Raise _ => []
               end)).
    now rewrite Ht.
  - apply (Hmiss neo1_card); [apply miss_absent|..]; reflexivity.
Defined.

End JobFacts.

(** ** Snapshot dates *)

Module DateFacts.

Lemma compare_not_gt_trans a b c :
  String.compare a b <> Gt -> String.compare b c <> Gt ->
  String.compare a c <> Gt.
Proof.
  revert b c. induction a as [|x a IH]; intros [|y b] [|z c]; simpl;
    try congruence.
  unfold Ascii.compare.
  destruct (N.compare_spec (N_of_ascii x) (N_of_ascii y)) as [Exy|Lxy|Gxy],
           (N.compare_spec (N_of_ascii y) (N_of_ascii z)) as [Eyz|Lyz|Gyz],
           (N.compare_spec (N_of_ascii x) (N_of_ascii z)) as [Exz|Lxz|Gxz];
    try congruence; try lia.
  apply IH.
Qed.

Lemma leb_trans a b c :
  String.leb a b = true -> String.leb b c = true -> String.leb a c = true.
Proof.
  unfold String.leb. intros H1 H2.
  pose proof (compare_not_gt_trans a b c) as H.
  destruct (String.compare a b), (String.compare b c), (String.compare a c);
    try discriminate; try reflexivity; exfalso; apply H; congruence.
Qed.

(** SQL [MAX] over texts returns one of them, and the greatest. *)
Lemma sql_max_greatest l m :
  Frame.sql_max l = Some m ->
  In m l /\ forall x, In x l -> String.leb x m = true.
Proof.
  revert m. induction l as [|s l IH]; intros m; [discriminate|].
  simpl. destruct (Frame.sql_max l) as [m'|] eqn:E.
  - destruct (IH m' eq_refl) as [Hin Hmax].
    destruct (String.leb m' s) eqn:Els; intros [= <-].
    + split; [now left|]. intros x [<- | Hx].
      * destruct (String.leb_total s s); assumption.
      * eapply leb_trans; [apply (Hmax x Hx) | exact Els].
    + split; [now right|]. intros x [<- | Hx]; [|now apply Hmax].
      destruct (String.leb_total s m'); congruence.
  - intros [= <-]. apply FrameFacts.sql_max_none in E. subst l.
    split; [now left|]. intros x [<- | []].
    destruct (String.leb_total s s); assumption.
Qed.

Definition dates (t : SnapshotPrices.table) : list string :=
  List.map SnapshotPrices.snapshot_date t.

(** X12. The latest snapshot date is the greatest stored date. When
    [_latest_snapshot_date] returns, its result is the date of some row,
    is not the empty text, and no row is dated later (as texts); on a table
    without rows it raises "No snapshots found". The function of the same
    name in [movers.py] returns the same. *)
Theorem latest_date_is_greatest (t : SnapshotPrices.table) :
  (forall d, DashboardData._latest_snapshot_date (Some t) = Ok d ->
     In d (dates t) /\ d <> "" /\
     forall r, In r t -> String.leb (SnapshotPrices.snapshot_date r) d = true) /\
  (t = [] ->
   DashboardData._latest_snapshot_date (Some t) = Raise DashboardData.no_snapshots) /\
  Movers.latest_snapshot_date (Some t) = DashboardData._latest_snapshot_date (Some t).
Proof.
  split; [|split; [intros ->; reflexivity | reflexivity]].
  intros d. unfold DashboardData._latest_snapshot_date.
  destruct (Frame.sql_max (List.map SnapshotPrices.snapshot_date t)) as [m|] eqn:E;
    [|discriminate].
  destruct (String.eqb m "") eqn:Em; [discriminate|]. intros [= <-].
  destruct (sql_max_greatest _ _ E) as [Hin Hmax].
  split; [exact Hin|]. split; [now apply String.eqb_neq|].
  intros r Hr. apply Hmax. now apply in_map.
Qed.

(** X13. The baseline date is the nearest one on or before the target. When
    [_snapshot_on_or_before] returns a date, some row has it, it is not
    after the target, and every row dated on or before the target is
    dated on or before it. When it returns [None], no row is dated on or
    before the target, unless by the empty text. Without the table it
    raises. *)
Theorem baseline_is_nearest_on_or_before (t : SnapshotPrices.table)
  (target : string) :
  (forall b, DashboardData._snapshot_on_or_before (Some t) target = Ok (Some b) ->
     In b (dates t) /\ String.leb b target = true /\
     forall r, In r t ->
       String.leb (SnapshotPrices.snapshot_date r) target = true ->
       String.leb (SnapshotPrices.snapshot_date r) b = true) /\
  (DashboardData._snapshot_on_or_before (Some t) target = Ok None ->
   forall r, In r t ->
     String.leb (SnapshotPrices.snapshot_date r) target = true ->
     SnapshotPrices.snapshot_date r = "") /\
  DashboardData._snapshot_on_or_before None target = Raise OperationalError.
Proof.
  unfold DashboardData._snapshot_on_or_before.
  destruct (Frame.sql_max _) as [m|] eqn:E.
  - destruct (sql_max_greatest _ _ E) as [Hin Hmax].
    apply List.filter_In in Hin. destruct Hin as [Hin Hle].
    split; [|split; [|reflexivity]].
    + intros b. destruct (String.eqb m ""); [discriminate|]. intros [= <-].
      split; [exact Hin|]. split; [exact Hle|].
      intros r Hr Hrt. apply Hmax. apply List.filter_In.
      split; [now apply in_map | exact Hrt].
    + destruct (String.eqb m "") eqn:Em; [|discriminate]. intros _ r Hr Hrt.
      apply String.eqb_eq in Em. subst m.
      apply String.leb_antisym;
        [|now destruct (SnapshotPrices.snapshot_date r)].
      apply Hmax. apply List.filter_In. split; [now apply in_map | exact Hrt].
  - apply FrameFacts.sql_max_none in E.
    split; [intros b; discriminate|]. split; [|reflexivity].
    intros _ r Hr Hrt. exfalso.
    assert (Hin : In (SnapshotPrices.snapshot_date r)
                    (List.filter (fun d => String.leb d target)
                       (List.map SnapshotPrices.snapshot_date t))).
    { apply List.filter_In. split; [now apply in_map | exact Hrt]. }
    rewrite E in Hin. destruct Hin.
Qed.

End DateFacts.

(** ** Sums, groups and prefixes *)

Module GroupFacts.
Import Frame.

Lemma sum_Z_perm l l' : Permutation l l' -> sum_Z l = sum_Z l'.
Proof.
  induction 1 as [|x l l' _ IH|x y l|l l' l'' _ IH1 _ IH2]; simpl; lia.
Qed.

(** Unpriced rows add nothing to a total. *)
Lemma sum_dropna rows :
  sum_skipna (List.map position_value_usd (dropna_usd rows))
  = sum_skipna (List.map position_value_usd rows).
Proof.
  induction rows as [|h rows IH]; [reflexivity|].
  unfold dropna_usd in *. simpl. unfold position_value_usd at 2 4.
  destruct (usd h) eqn:E; simpl.
  - unfold position_value_usd at 1. rewrite E. now rewrite IH.
  - exact IH.
Qed.

Lemma group_key_eqb_eq a b : key_eqb a b = true <-> a = b.
Proof.
  destruct a as [x|], b as [y|]; simpl; try (split; congruence).
  rewrite String.eqb_eq. split; congruence.
Qed.

Lemma key_leb_total a b : key_leb a b = true \/ key_leb b a = true.
Proof.
  destruct a as [x|], b as [y|]; simpl; auto. apply String.leb_total.
Qed.

Lemma key_leb_trans a b c :
  key_leb a b = true -> key_leb b c = true -> key_leb a c = true.
Proof.
  destruct a as [x|], b as [y|], c as [z|]; simpl; try congruence.
  apply DateFacts.leb_trans.
Qed.

Lemma key_leb_antisym a b : key_leb a b = true -> key_leb b a = true -> a = b.
Proof.
  destruct a as [x|], b as [y|]; simpl; try congruence.
  intros H1 H2. f_equal. now apply String.leb_antisym.
Qed.

(** Strictly ascending keys. *)
Definition ascending (l : list (option string)) : Prop :=
  StronglySorted (fun a b => key_leb a b = true /\ a <> b) l.

Lemma insert_key_ascending k l : ascending l -> ascending (insert_key k l).
Proof.
  induction 1 as [|y l Hs IH Hall]; simpl.
  - constructor; constructor.
  - destruct (key_eqb k y) eqn:E; [now constructor|].
    assert (Hne : k <> y) by (intros ->; now rewrite (proj2 (group_key_eqb_eq y y)) in E).
    destruct (key_leb k y) eqn:El.
    + constructor; [now constructor|].
      constructor; [split; assumption|].
      eapply Forall_impl; [exact Hall|]. intros z [Hz1 Hz2]. split.
      * eapply key_leb_trans; eauto.
      * intros ->. apply Hne. now apply key_leb_antisym.
    + assert (Hyk : key_leb y k = true)
        by (destruct (key_leb_total k y); congruence).
      constructor; [exact IH|].
      apply Forall_forall. intros z Hz.
      apply list_elem_of_In, FrameFacts.insert_key_in in Hz.
      destruct Hz as [-> | Hz]; [split; congruence|].
      rewrite Forall_forall in Hall. apply Hall. now apply list_elem_of_In.
Qed.

Lemma group_keys_ascending ks : ascending (group_keys ks).
Proof.
  induction ks as [|k ks IH]; simpl; [constructor | now apply insert_key_ascending].
Qed.

Lemma ascending_NoDup l : ascending l -> NoDup l.
Proof.
  induction 1 as [|y l _ IH Hall]; constructor; [|exact IH].
  intros Hin. rewrite Forall_forall in Hall.
  destruct (Hall y Hin) as [_ Hne]. now apply Hne.
Qed.

Lemma insert_key_covers k x l : k = x \/ In k l -> In k (insert_key x l).
Proof.
  induction l as [|y l IH]; simpl.
  - intros [-> | []]. now left.
  - destruct (key_eqb x y) eqn:E.
    + apply group_key_eqb_eq in E. subst y. intros [-> | H]; [now left | exact H].
    + destruct (key_leb x y).
      * intros [-> | H]; [now left | now right].
      * intros [-> | [-> | H]]; [right; apply IH; now left | now left |].
        right. apply IH. now right.
Qed.

Lemma group_keys_covers k ks : In k ks -> In k (group_keys ks).
Proof.
  induction ks as [|x ks IH]; simpl; [auto|].
  intros [-> | H]; apply insert_key_covers; [now left | right; now apply IH].
Qed.

Section Partition.

Context {A : Type}.
Variable key : A -> option string.

Definition members (rows : list A) (k : option string) : list A :=
  List.filter (fun r => key_eqb (key r) k) rows.

(** Over distinct keys that cover the rows, the group sums add up to the
    sum over all rows. *)
Lemma partition_sum_Z (q : A -> Z) ks rows :
  NoDup ks -> (forall r, In r rows -> In (key r) ks) ->
  sum_Z (List.map (fun k => sum_Z (List.map q (members rows k))) ks)
  = sum_Z (List.map q rows).
Proof.
  intros Hnd. revert rows. induction ks as [|k ks IH]; intros rows Hcov.
  - destruct rows as [|r rows]; [reflexivity|].
    destruct (Hcov r (or_introl eq_refl)).
  - inversion Hnd as [|? ? Hk Hnd']; subst. clear Hnd. rename Hnd' into Hnd.
    simpl.
    assert (Hrest : sum_Z (List.map (fun k0 => sum_Z (List.map q (members rows k0))) ks)
                    = sum_Z (List.map q
                               (List.filter (fun r => negb (key_eqb (key r) k)) rows))).
    { rewrite <- (IH Hnd
                    (List.filter (fun r => negb (key_eqb (key r) k)) rows)).
      - f_equal. apply List.map_ext_in. intros k0 Hk0. f_equal. f_equal.
        unfold members. clear -Hk Hk0.
        induction rows as [|r rows IHr]; [reflexivity|]. simpl.
        destruct (key_eqb (key r) k) eqn:E; simpl.
        + destruct (key_eqb (key r) k0) eqn:E0; [|exact IHr].
          apply group_key_eqb_eq in E, E0. subst. exfalso. apply Hk.
          now apply list_elem_of_In.
        + destruct (key_eqb (key r) k0); [f_equal|]; exact IHr.
      - intros r Hr. apply List.filter_In in Hr. destruct Hr as [Hr Hne].
        destruct (Hcov r Hr) as [E | H]; [|exact H]. cbv beta in Hne.
        rewrite (proj2 (group_key_eqb_eq _ _) (eq_sym E)) in Hne. discriminate. }
    rewrite Hrest. unfold members. clear.
    induction rows as [|r rows IHr]; [reflexivity|]. simpl.
    destruct (key_eqb (key r) k); simpl; lia.
Qed.

End Partition.

Lemma firstn_In {A} (x : A) n l : In x (firstn n l) -> In x l.
Proof.
  revert n. induction l as [|y l IH]; intros [|n]; simpl; try tauto.
  intros [-> | H]; [now left | right; eauto].
Qed.

Lemma firstn_sorted {A} (R : A -> A -> Prop) n l :
  StronglySorted R l -> StronglySorted R (firstn n l).
Proof.
  intros H. revert n. induction H as [|x l _ IH Hall]; intros [|n]; simpl;
    try constructor.
  - apply IH.
  - rewrite Forall_forall in *. intros y Hy. apply Hall.
    apply list_elem_of_In in Hy. apply list_elem_of_In.
    exact (firstn_In _ _ _ Hy).
Qed.

End GroupFacts.

(** ** The dashboard bundle, field by field *)

Module BundleFacts.
Import Shared.

Lemma mapR_keeps {A B} (f : A -> result B) (g : B -> A) l bs :
  (forall a b, f a = Ok b -> g b = a) ->
  DashboardData.mapR f l = Ok bs -> List.map g bs = l.
Proof.
  intros Hg. revert bs. induction l as [|a l IH]; intros bs; simpl.
  - now intros [= <-].
  - destruct (f a) as [b|e] eqn:Ea; simpl; [|discriminate].
    destruct (DashboardData.mapR f l) as [bs'|e]; simpl; [|discriminate].
    intros [= <-]. simpl. now rewrite (Hg a b Ea), (IH bs' eq_refl).
Qed.

(** The join condition of the snapshot queries. *)
Definition priced_as (p : Frame.position) (r : SnapshotPrices.snapshot_row)
  : Prop :=
  Frame.set_code p = SnapshotPrices.set_code r /\
  Frame.collector_number p = SnapshotPrices.collector_number r /\
  Frame.finish p = SnapshotPrices.finish r.

Lemma merge_latest_rows owned_rows t d p :
  In p (List.map Frame.owned (DashboardData.merge_latest owned_rows t d)) <->
  In p owned_rows /\
  exists r, In r t /\ SnapshotPrices.snapshot_date r = d /\ priced_as p r.
Proof.
  unfold DashboardData.merge_latest, Frame.merge_inner, priced_as.
  rewrite in_map_iff. split.
  - intros (h & <- & Hin). apply in_flat_map in Hin.
    destruct Hin as (p & Hp & Hin). apply in_map_iff in Hin.
    destruct Hin as (r & <- & Hr). apply List.filter_In in Hr.
    destruct Hr as [Hr Hm]. apply List.filter_In in Hr. destruct Hr as [Hr Hd].
    simpl. split; [exact Hp|]. exists r.
    rewrite !andb_true_iff, !String.eqb_eq in Hm.
    apply String.eqb_eq in Hd. tauto.
  - intros (Hp & r & Hr & Hd & Hs & Hc & Hf).
    eexists. split; [|apply in_flat_map; exists p; split; [exact Hp|];
                      apply in_map; apply List.filter_In; split;
                      [apply List.filter_In; split; [exact Hr|] |]].
    + reflexivity.
    + now apply String.eqb_eq.
    + rewrite !andb_true_iff, !String.eqb_eq. auto.
Qed.

Section Run.

Variable clock : nat -> Q.
Variable catalog : string -> option dict.
Variable float_of_str : string -> option Q.
Variable py_repr : json -> string.
Variable date_minus_days : string -> Z -> option string.
Variable today : string.
Variable sort_by : forall A : Type, (A -> A -> bool) -> list A -> list A.
Variable owned_rows : list Frame.position.
Variable db : option SnapshotPrices.table.

Hypothesis sort_ok : Frame.sorts sort_by.

Abbreviation dashboard_run :=
  (DashboardData.get_dashboard_data clock catalog float_of_str py_repr
     date_minus_days today sort_by owned_rows db).

Abbreviation live_owned :=
  (DashboardData._compute_live_owned clock catalog float_of_str py_repr
     owned_rows CACHE_TTL_HOURS).

Abbreviation timeseries :=
  (DashboardData.get_portfolio_timeseries sort_by owned_rows db).

(** Where the rows of a returned bundle come from. *)
Definition rows_source (live : bool) (w w' : world)
  (d : DashboardData.dashboard) : Prop :=
  if live then live_owned w = (Ok (DashboardData.latest_owned d), w')
  else
    w' = w /\
    exists latest t,
      db = Some t /\
      DashboardData._latest_snapshot_date db = Ok latest /\
      DashboardData.latest_snapshot d = latest /\
      DashboardData.latest_owned d
      = DashboardData.merge_latest owned_rows t latest.

(** A returned bundle, read back field by field. *)
Lemma bundle_fields days top_n live w d w' :
  dashboard_run days top_n live w = (Ok d, w') ->
  rows_source live w w' d /\
  DashboardData.total_value_usd d
  = Frame.sum_skipna
      (List.map Frame.position_value_usd (DashboardData.latest_owned d)) /\
  DashboardData.num_positions d = length (DashboardData.latest_owned d) /\
  DashboardData.top_holdings d
  = DashboardData.top_view sort_by top_n (DashboardData.latest_owned d) /\
  DashboardData.rarity_breakdown d
  = sort_by _ (Frame.desc Frame.value_usd)
      (DashboardData.rarity_groups (DashboardData.latest_owned d)) /\
  timeseries = Ok (DashboardData.portfolio_ts d) /\
  ((DashboardData.gainers d = [] /\ DashboardData.losers d = []) \/
   exists brows,
     (DashboardData.gainers d, DashboardData.losers d)
     = DashboardData.mover_views sort_by top_n (DashboardData.latest_owned d)
         brows).
Proof.
  unfold DashboardData.get_dashboard_data.
  destruct (try_except (DashboardData.history date_minus_days db days) _)
    as [[latest baseline] brows] eqn:Eh.
  destruct live.
  - unfold bind at 1.
    destruct (live_owned w) as [[rows|e] w1] eqn:El; [|discriminate].
    destruct (match baseline with Some _ => _ | None => _ end) as [up down] eqn:Em.
    unfold bind, lift, ret.
    destruct timeseries as [ts|e] eqn:Et; [|discriminate].
    intros [= <- <-]. simpl.
    split; [exact El|]. repeat (split; [reflexivity|]).
    destruct baseline as [b|]; [destruct brows as [|r brows]|];
      try (injection Em as <- <-; now left).
    right. exists (r :: brows). now rewrite Em.
  - assert (Hl : forall l, latest = Some l ->
                   DashboardData._latest_snapshot_date db = Ok l).
    { intros l ->. unfold try_except, DashboardData.history in Eh.
      destruct (DashboardData._latest_snapshot_date db) as [l'|e];
        simpl in Eh; [|discriminate].
      destruct (date_minus_days l' days); [|discriminate].
      destruct (DashboardData._snapshot_on_or_before db s) as [[b|]|e];
        simpl in Eh; try discriminate.
      - destruct db; [|discriminate]. now injection Eh as <- _ _.
      - now injection Eh as <- _ _. }
    destruct latest as [l|]; [|discriminate].
    destruct db as [t|] eqn:Edb; [|discriminate].
    unfold bind at 1. unfold ret at 1.
    destruct (match baseline with Some _ => _ | None => _ end) as [up down] eqn:Em.
    unfold bind, lift, ret.
    destruct (DashboardData.get_portfolio_timeseries sort_by owned_rows (Some t))
      as [ts|e] eqn:Et; [|discriminate].
    intros [= <- <-]. simpl.
    split; [split; [reflexivity|]; exists l, t; repeat split; auto|].
    2: repeat (split; [reflexivity|]).
    1: rewrite Edb; now apply Hl.
    destruct baseline as [b|]; [destruct brows as [|r brows]|];
      try (injection Em as <- <-; now left).
    right. exists (r :: brows). now rewrite Em.
Qed.

Lemma rarity_groups_partition rows :
  NoDup (List.map Frame.bucket (DashboardData.rarity_groups rows)) /\
  (forall h, In h rows ->
     In (Frame.rarity h)
        (List.map Frame.bucket (DashboardData.rarity_groups rows))) /\
  (forall g, In g (DashboardData.rarity_groups rows) ->
     (exists h, In h rows /\ Frame.rarity h = Frame.bucket g) /\
     Frame.count g
     = Frame.sum_Z
         (List.map (fun h => Frame.qty (Frame.owned h))
            (GroupFacts.members Frame.rarity rows (Frame.bucket g))) /\
     Frame.value_usd g
     = Frame.sum_skipna
         (List.map Frame.position_value_usd
            (GroupFacts.members Frame.rarity rows (Frame.bucket g)))) /\
  Frame.sum_Z (List.map Frame.count (DashboardData.rarity_groups rows))
  = Frame.sum_Z (List.map (fun h => Frame.qty (Frame.owned h)) rows).
Proof.
  unfold DashboardData.rarity_groups, Frame.groupby_sum.
  rewrite !List.map_map. simpl.
  pose proof (GroupFacts.ascending_NoDup _
                (GroupFacts.group_keys_ascending (List.map Frame.rarity rows)))
    as Hnd.
  assert (Hcov : forall r, In r rows ->
                   In (Frame.rarity r)
                      (Frame.group_keys (List.map Frame.rarity rows))).
  { intros r Hr. apply GroupFacts.group_keys_covers. now apply in_map. }
  split; [now rewrite List.map_id|]. split; [|split].
  - intros h Hh. rewrite List.map_id. now apply Hcov.
  - intros g Hg. apply in_map_iff in Hg. destruct Hg as (k & <- & Hk).
    simpl. split; [|split; reflexivity].
    apply FrameFacts.group_keys_in, in_map_iff in Hk.
    destruct Hk as (h & Hh & Hin). exists h. auto.
  - exact (GroupFacts.partition_sum_Z Frame.rarity
             (fun h => Frame.qty (Frame.owned h)) _ rows Hnd Hcov).
Qed.

(** X14. The rarity breakdown is a partition of the holdings. In every
    returned bundle, live or snapshot, no rarity is listed twice, the
    rarity of every holding is listed and every listed rarity is that of
    some holding; the count and the value of a row are the sums of quantity
    and of position value over the holdings of that rarity, taken in the
    holdings' order; and the counts add up to the total quantity. *)
Theorem rarity_breakdown_partitions days top_n live w d w' :
  dashboard_run days top_n live w = (Ok d, w') ->
  NoDup (List.map Frame.bucket (DashboardData.rarity_breakdown d)) /\
  (forall h, In h (DashboardData.latest_owned d) ->
     In (Frame.rarity h)
        (List.map Frame.bucket (DashboardData.rarity_breakdown d))) /\
  (forall g, In g (DashboardData.rarity_breakdown d) ->
     (exists h, In h (DashboardData.latest_owned d) /\
                Frame.rarity h = Frame.bucket g) /\
     Frame.count g
     = Frame.sum_Z
         (List.map (fun h => Frame.qty (Frame.owned h))
            (GroupFacts.members Frame.rarity (DashboardData.latest_owned d)
               (Frame.bucket g))) /\
     Frame.value_usd g
     = Frame.sum_skipna
         (List.map Frame.position_value_usd
            (GroupFacts.members Frame.rarity (DashboardData.latest_owned d)
               (Frame.bucket g)))) /\
  Frame.sum_Z (List.map Frame.count (DashboardData.rarity_breakdown d))
  = Frame.sum_Z
      (List.map (fun h => Frame.qty (Frame.owned h))
         (DashboardData.latest_owned d)).
Proof using sort_ok.
  intros Hrun.
  destruct (bundle_fields _ _ _ _ _ _ Hrun) as (_ & _ & _ & _ & Hr & _).
  destruct (rarity_groups_partition (DashboardData.latest_owned d))
    as (Hnd & Hcov & Hrow & Hc).
  destruct (sort_ok _ (Frame.desc Frame.value_usd)
              (DashboardData.rarity_groups (DashboardData.latest_owned d)))
    as [Hp _].
  rewrite Hr. split; [|split; [|split]].
  - rewrite (Permutation_map Frame.bucket Hp). exact Hnd.
  - intros h Hh.
    apply (Permutation_in _ (Permutation_sym (Permutation_map Frame.bucket Hp))).
    now apply Hcov.
  - intros g Hg. apply Hrow. eapply Permutation_in; eauto.
  - rewrite <- Hc. apply GroupFacts.sum_Z_perm. now apply Permutation_map.
Qed.

(** X15. The top-holdings view of a returned bundle lists priced holdings
    of the bundle only, never an unpriced one; it has [top_n] rows, or as
    many as there are priced holdings when these are fewer; and when
    [top_n] is at least the number of priced holdings it lists each of them
    exactly once. *)
Theorem top_view_lists_priced_holdings days top_n live w d w' :
  dashboard_run days top_n live w = (Ok d, w') ->
  (forall h, In h (DashboardData.top_holdings d) ->
     In h (DashboardData.latest_owned d) /\ Frame.usd h <> None) /\
  length (DashboardData.top_holdings d)
  = Nat.min top_n (length (Frame.dropna_usd (DashboardData.latest_owned d))) /\
  ((length (Frame.dropna_usd (DashboardData.latest_owned d)) <= top_n)%nat ->
   Permutation (DashboardData.top_holdings d)
     (Frame.dropna_usd (DashboardData.latest_owned d))).
Proof using sort_ok.
  intros Hrun.
  destruct (bundle_fields _ _ _ _ _ _ Hrun) as (_ & _ & _ & Htop & _).
  destruct (sort_ok _ (Frame.desc Frame.value_key)
              (Frame.dropna_usd (DashboardData.latest_owned d))) as [Hp _].
  rewrite Htop. unfold DashboardData.top_view. split; [|split].
  - intros h Hh. apply GroupFacts.firstn_In in Hh.
    apply (Permutation_in _ Hp) in Hh. unfold Frame.dropna_usd in Hh.
    apply List.filter_In in Hh. destruct Hh as [Hin Hu].
    split; [exact Hin|]. intros E. rewrite E in Hu. discriminate.
  - now rewrite List.length_firstn, (Permutation_length Hp).
  - intros Hn. rewrite firstn_all2; [exact Hp|].
    now rewrite (Permutation_length Hp).
Qed.

Lemma mover_views_spec top_n rows brows up down :
  DashboardData.mover_views sort_by top_n rows brows = (up, down) ->
  (forall m, In m up ->
     (0 < Frame.delta_usd m)%Q /\ In m (DashboardData.movers_frame rows brows)) /\
  (forall m, In m down ->
     (Frame.delta_usd m < 0)%Q /\ In m (DashboardData.movers_frame rows brows)) /\
  (length up <= top_n)%nat /\ (length down <= top_n)%nat /\
  StronglySorted (fun a b => (Frame.delta_usd b <= Frame.delta_usd a)%Q) up /\
  StronglySorted (fun a b => (Frame.delta_usd a <= Frame.delta_usd b)%Q) down.
Proof using sort_ok.
  unfold DashboardData.mover_views. intros [= <- <-].
  set (moved := List.filter _ (DashboardData.movers_frame rows brows)).
  destruct (sort_ok _ (Frame.desc Frame.delta_usd)
              (List.filter (fun m => negb (Qle_bool (Frame.delta_usd m) 0)) moved))
    as [Hpu Hsu].
  destruct (sort_ok _ (Frame.asc Frame.delta_usd)
              (List.filter (fun m => negb (Qle_bool 0 (Frame.delta_usd m))) moved))
    as [Hpd Hsd].
  split; [|split; [|split; [|split; [|split]]]].
  - intros m Hm. apply GroupFacts.firstn_In in Hm.
    apply (Permutation_in _ Hpu) in Hm. apply List.filter_In in Hm.
    destruct Hm as [Hm Hpos]. apply List.filter_In in Hm. destruct Hm as [Hm _].
    split; [|exact Hm]. apply Qnot_le_lt. intros Hle.
    apply Qle_bool_iff in Hle. rewrite Hle in Hpos. discriminate.
  - intros m Hm. apply GroupFacts.firstn_In in Hm.
    apply (Permutation_in _ Hpd) in Hm. apply List.filter_In in Hm.
    destruct Hm as [Hm Hneg]. apply List.filter_In in Hm. destruct Hm as [Hm _].
    split; [|exact Hm]. apply Qnot_le_lt. intros Hle.
    apply Qle_bool_iff in Hle. rewrite Hle in Hneg. discriminate.
  - apply firstn_le_length.
  - apply firstn_le_length.
  - apply GroupFacts.firstn_sorted.
    eapply ViewFacts.StronglySorted_weaken; [|apply Hsu].
    + intros a b Hab. now apply Qle_bool_iff.
    + apply FrameFacts.desc_total.
    + apply FrameFacts.desc_trans.
  - apply GroupFacts.firstn_sorted.
    eapply ViewFacts.StronglySorted_weaken; [|apply Hsd].
    + intros a b Hab. now apply Qle_bool_iff.
    + apply FrameFacts.asc_total.
    + apply FrameFacts.asc_trans.
Qed.

(** X16. The movers of a returned bundle. Every gainer has a positive price
    change and every loser a negative one, so a holding whose price did
    not change is in neither view; each view has at most [top_n] rows,
    gainers by falling and losers by rising change; and every row is a
    priced holding of the bundle with delta = current - baseline. *)
Theorem movers_are_signed_and_ranked days top_n live w d w' :
  dashboard_run days top_n live w = (Ok d, w') ->
  (forall m, In m (DashboardData.gainers d) -> (0 < Frame.delta_usd m)%Q) /\
  (forall m, In m (DashboardData.losers d) -> (Frame.delta_usd m < 0)%Q) /\
  (length (DashboardData.gainers d) <= top_n)%nat /\
  (length (DashboardData.losers d) <= top_n)%nat /\
  StronglySorted (fun a b => (Frame.delta_usd b <= Frame.delta_usd a)%Q)
    (DashboardData.gainers d) /\
  StronglySorted (fun a b => (Frame.delta_usd a <= Frame.delta_usd b)%Q)
    (DashboardData.losers d) /\
  (forall m, In m (DashboardData.gainers d ++ DashboardData.losers d)%list ->
     In (Frame.held m) (DashboardData.latest_owned d) /\
     Frame.usd (Frame.held m) = Some (Frame.current m) /\
     Frame.delta_usd m = (Frame.current m - Frame.baseline m)%Q).
Proof using sort_ok.
  intros Hrun.
  destruct (bundle_fields _ _ _ _ _ _ Hrun)
    as (_ & _ & _ & _ & _ & _ & [[-> ->] | [brows Hm]]).
  - split; [intros m []|]. split; [intros m []|].
    split; [simpl; lia|]. split; [simpl; lia|].
    split; [apply SSorted_nil|]. split; [apply SSorted_nil|]. intros m [].
  - destruct (mover_views_spec _ _ _ _ _ (eq_sym Hm))
      as (Hu & Hd & Hlu & Hld & Hsu & Hsd).
    repeat split; try assumption.
    + intros m Hin. now apply Hu.
    + intros m Hin. now apply Hd.
    + apply in_app_or in H. destruct H as [H | H];
        [apply Hu in H | apply Hd in H]; destruct H as [_ H];
        apply ViewFacts.dashboard_mover_row in H; destruct H as (H & _);
        apply ViewFacts.joined_prices_spec in H; tauto.
    + apply in_app_or in H. destruct H as [H | H];
        [apply Hu in H | apply Hd in H]; destruct H as [_ H];
        apply ViewFacts.dashboard_mover_row in H; destruct H as (H & _);
        apply ViewFacts.joined_prices_spec in H; tauto.
    + apply in_app_or in H. destruct H as [H | H];
        [apply Hu in H | apply Hd in H]; destruct H as [_ H];
        apply ViewFacts.dashboard_mover_row in H; tauto.
Qed.

Lemma live_row_owned cache p h :
  DashboardData.live_row float_of_str py_repr cache p = Ok h ->
  Frame.owned h = p.
Proof.
  unfold DashboardData.live_row.
  destruct (DashboardData.card_of_key cache _) as [card|e]; [|discriminate].
  simpl. destruct (choose_unit_price_usd _ _ _) as [u|e]; [|discriminate].
  simpl. now intros [= <-].
Qed.

(** X17. Which positions a bundle values. In live mode the holdings are the
    owned positions, one row each and in the same order, priced or not. In
    snapshot mode a position is among the holdings exactly when the latest
    snapshot date has a row of its set, collector number and finish: the
    others are dropped. *)
Theorem holdings_by_mode days top_n w d w' :
  (dashboard_run days top_n true w = (Ok d, w') ->
   List.map Frame.owned (DashboardData.latest_owned d) = owned_rows /\
   DashboardData.num_positions d = length owned_rows) /\
  (dashboard_run days top_n false w = (Ok d, w') ->
   exists t,
     db = Some t /\
     forall p,
       In p (List.map Frame.owned (DashboardData.latest_owned d)) <->
       In p owned_rows /\
       exists r, In r t /\
                 SnapshotPrices.snapshot_date r = DashboardData.latest_snapshot d /\
                 priced_as p r).
Proof.
  split; intros Hrun;
    destruct (bundle_fields _ _ _ _ _ _ Hrun) as (Hsrc & _ & Hn & _).
  - simpl in Hsrc. unfold DashboardData._compute_live_owned in Hsrc.
    cbv zeta in Hsrc. unfold bind at 1 in Hsrc.
    destruct (mapM _ _ w) as [[cache|e] w1]; [|discriminate].
    unfold lift in Hsrc.
    destruct (DashboardData.mapR _ owned_rows) as [rows|e] eqn:Er;
      [|discriminate].
    injection Hsrc as Hrows _.
    assert (Hmap : List.map Frame.owned rows = owned_rows).
    { eapply mapR_keeps; [|exact Er]. intros a b. apply live_row_owned. }
    rewrite Hn, <- Hrows. split; [exact Hmap|].
    now rewrite <- Hmap, List.length_map.
  - destruct Hsrc as (_ & latest & t & Hdb & _ & Hl & Hrows).
    exists t. split; [exact Hdb|]. intros p. rewrite Hrows, Hl.
    apply merge_latest_rows.
Qed.

(** X18. Snapshot mode is offline. Whatever the store holds and whether the
    bundle is returned or an error raised, a snapshot-mode run writes no
    cache file, sends no request and does not read the clock. *)
Theorem snapshot_mode_is_offline days top_n w :
  snd (DashboardData.get_dashboard_data clock catalog float_of_str py_repr
         date_minus_days today sort_by owned_rows db days top_n false w)
  = w.
Proof.
  unfold DashboardData.get_dashboard_data.
  destruct (try_except _ _) as [[latest baseline] brows].
  destruct latest as [l|]; [|reflexivity].
  destruct db as [t|]; [|reflexivity].
  unfold bind at 1. unfold ret at 1.
  destruct (match baseline with Some _ => _ | None => _ end) as [up down].
  unfold bind, lift, ret.
  now destruct (DashboardData.get_portfolio_timeseries _ _ _).
Qed.







Lemma cli_rows_values t d :
  List.map Frame.position_value_usd (Movers.latest_owned owned_rows t d)
  = List.map Frame.position_value_usd
      (DashboardData.merge_latest owned_rows t d).
Proof.
  unfold Movers.latest_owned, DashboardData.merge_latest, Frame.merge_inner.
  induction owned_rows as [|p rows IH]; [reflexivity|].
  simpl. rewrite !List.map_app, IH. f_equal.
  rewrite !List.map_map. reflexivity.
Qed.

(** X20. The command-line report and the snapshot-mode dashboard agree.
    Whenever the report is produced, a snapshot-mode run on the same store
    and collection, with the same window, returns a bundle with the same
    latest date, the same baseline date and the same total value, and as
    many positions as the report's joined rows. *)
Theorem cli_report_matches_snapshot_bundle days top_n sort_mode rep w :
  Movers.main date_minus_days sort_by owned_rows db days top_n sort_mode
  = Ok rep ->
  exists d t,
    db = Some t /\
    dashboard_run days top_n false w = (Ok d, w) /\
    DashboardData.latest_snapshot d = Movers.latest rep /\
    DashboardData.baseline_snapshot d = Some (Movers.baseline_date rep) /\
    DashboardData.total_value_usd d = Movers.total_value rep /\
    DashboardData.num_positions d
    = length (Movers.latest_owned owned_rows t (Movers.latest rep)).
Proof.
  unfold Movers.main, DashboardData.get_dashboard_data,
    DashboardData.history.
  change (Movers.latest_snapshot_date db)
    with (DashboardData._latest_snapshot_date db).
  destruct (DashboardData._latest_snapshot_date db) as [latest|e] eqn:El;
    [|discriminate].
  unfold rbind at 1 3.
  destruct (date_minus_days latest days) as [target|]; [|discriminate].
  change (Movers.snapshot_on_or_before db target)
    with (DashboardData._snapshot_on_or_before db target).
  destruct (DashboardData._snapshot_on_or_before db target) as [[b|]|e];
    try discriminate.
  unfold rbind. destruct db as [t|]; [|discriminate].
  intros [= <-]. unfold try_except, bind, ret, lift.
  destruct (DashboardData.get_portfolio_timeseries sort_by owned_rows (Some t))
    as [ts|e] eqn:Et; [|discriminate].
  destruct (match DashboardData.baseline_rows_on t b with
            | [] => _ | _ :: _ => _ end) as [up down].
  eexists. exists t. split; [reflexivity|]. split; [reflexivity|]. simpl.
  split; [reflexivity|]. split; [reflexivity|]. split.
  - rewrite GroupFacts.sum_dropna. now rewrite cli_rows_values.
  - rewrite <- (List.length_map Frame.position_value_usd
                  (Movers.latest_owned owned_rows t latest)).
    rewrite cli_rows_values. now rewrite List.length_map.
Qed.

Lemma type_labels buckets rows g :
  (forall s, Forall (fun t => t <> EmptyString /\ Text.strip t = t) (buckets s)) ->
  In g (DashboardData.type_breakdown_groups buckets rows) ->
  exists k h,
    Frame.bucket g = Some k /\ k <> EmptyString /\ Text.strip k = k /\
    In h rows /\ In k (buckets (default "" (Frame.type_line h))).
Proof.
  intros Hb Hg. unfold DashboardData.type_breakdown_groups, Frame.groupby_sum in Hg.
  apply in_map_iff in Hg. destruct Hg as (k & <- & Hk).
  apply FrameFacts.group_keys_in, in_map_iff in Hk.
  destruct Hk as ([b h] & <- & Hbh). unfold DashboardData.explode in Hbh.
  apply in_flat_map in Hbh. destruct Hbh as (h' & Hh' & Hin).
  apply in_map_iff in Hin. destruct Hin as (b' & [= <- <-] & Hb').
  pose proof (Hb (default "" (Frame.type_line h'))) as Hall.
  rewrite Forall_forall in Hall.
  destruct (Hall b' (proj2 (list_elem_of_In _ _) Hb')) as [Hne Hs].
  exists b', h'. simpl. auto.
Qed.

Lemma dashboard_buckets_are_tokens s :
  DashboardData.type_buckets s <> [] /\
  Forall (fun t => t <> EmptyString /\ Text.strip t = t)
    (DashboardData.type_buckets s).
Proof.
  rewrite BucketFacts.dashboard_type_buckets_tokens.
  pose proof (TextFacts.split_ws_tokens
                (Text.before_first DashboardData.separator s)) as H.
  destruct (Text.split_ws _) as [|t ts].
  - split; [discriminate|]. constructor; [|constructor].
    split; [discriminate | reflexivity].
  - split; [discriminate | exact H].
Qed.

(** X21. The type breakdown has no blank label. In every returned bundle
    each row of the type breakdown is labelled with a non-empty word
    without surrounding whitespace, which is one of the buckets of some
    holding's type line; there is no row for a missing label. *)
Theorem type_breakdown_labels days top_n live w d w' :
  dashboard_run days top_n live w = (Ok d, w') ->
  forall g, In g (DashboardData.type_breakdown d) ->
    exists k h,
      Frame.bucket g = Some k /\ k <> EmptyString /\ Text.strip k = k /\
      In h (DashboardData.latest_owned d) /\
      In k (DashboardData.type_buckets (default "" (Frame.type_line h))).
Proof using sort_ok.
  intros Hrun g Hg.
  assert (Ht : DashboardData.type_breakdown d
               = sort_by _ (Frame.desc Frame.value_usd)
                   (DashboardData.type_breakdown_groups
                      DashboardData.type_buckets
                      (DashboardData.latest_owned d))).
  { revert Hrun. unfold DashboardData.get_dashboard_data.
    destruct (try_except _ _) as [[latest baseline] brows].
    destruct live.
    - unfold bind at 1.
      destruct (live_owned w) as [[rows|e] w1]; [|discriminate].
      destruct (match baseline with Some _ => _ | None => _ end) as [up down].
      unfold bind, lift, ret.
      destruct timeseries as [ts|e]; [|discriminate].
      now intros [= <- _].
    - destruct latest as [l|]; [|discriminate].
      destruct db as [t|]; [|discriminate].
      unfold bind at 1. unfold ret at 1.
      destruct (match baseline with Some _ => _ | None => _ end) as [up down].
      unfold bind, lift, ret.
      destruct (DashboardData.get_portfolio_timeseries _ _ _) as [ts|e];
        [|discriminate].
      now intros [= <- _]. }
  rewrite Ht in Hg.
  destruct (sort_ok _ (Frame.desc Frame.value_usd)
              (DashboardData.type_breakdown_groups DashboardData.type_buckets
                 (DashboardData.latest_owned d))) as [Hp _].
  apply (Permutation_in _ Hp) in Hg.
  apply (type_labels DashboardData.type_buckets); [|exact Hg].
  intros s. apply dashboard_buckets_are_tokens.
Qed.

End Run.

(** *** The sample run of two snapshot dates *)

Abbreviation sample_bundle :=
  (DashboardFacts.sample_dashboard (Some DashboardFacts.two_days) 7 5%nat false
     SharedFacts.empty_world).

Lemma rarity_breakdown_partitions_witness :
  exists d,
    fst sample_bundle = Ok d /\
    NoDup (List.map Frame.bucket (DashboardData.rarity_breakdown d)) /\
    Frame.sum_Z (List.map Frame.count (DashboardData.rarity_breakdown d))
    = Frame.sum_Z
        (List.map (fun h => Frame.qty (Frame.owned h))
           (DashboardData.latest_owned d)).
Proof.
  destruct sample_bundle as [[d|e] w'] eqn:E; [|vm_compute in E; discriminate].
  exists d. split; [reflexivity|].
  destruct (rarity_breakdown_partitions
              SharedFacts.sample_clock SharedFacts.sample_catalog
              SharedFacts.decimal DashboardFacts.no_repr
              IsoDate.minus_days "2025-01-09" (@Frame.stable_sort)
              [DashboardFacts.katana_position]
              (Some DashboardFacts.two_days) FrameFacts.stable_sort_sorts
              7 5%nat false SharedFacts.empty_world d w' E)
    as (Hnd & _ & _ & Hc).
  split; assumption.
Defined.

Lemma top_view_lists_priced_holdings_witness :
  exists d,
    fst sample_bundle = Ok d /\
    length (DashboardData.top_holdings d)
    = Nat.min 5 (length (Frame.dropna_usd (DashboardData.latest_owned d))).
Proof.
  destruct sample_bundle as [[d|e] w'] eqn:E; [|vm_compute in E; discriminate].
  exists d. split; [reflexivity|].
  destruct (top_view_lists_priced_holdings
              SharedFacts.sample_clock SharedFacts.sample_catalog
              SharedFacts.decimal DashboardFacts.no_repr
              IsoDate.minus_days "2025-01-09" (@Frame.stable_sort)
              [DashboardFacts.katana_position]
              (Some DashboardFacts.two_days) FrameFacts.stable_sort_sorts
              7 5%nat false SharedFacts.empty_world d w' E)
    as (_ & Hlen & _).
  exact Hlen.
Defined.

Lemma movers_are_signed_and_ranked_witness :
  exists d,
    fst sample_bundle = Ok d /\
    length (DashboardData.gainers d) = 1%nat /\
    (forall m, In m (DashboardData.gainers d) -> (0 < Frame.delta_usd m)%Q).
Proof.
  destruct sample_bundle as [[d|e] w'] eqn:E; [|vm_compute in E; discriminate].
  exists d. split; [reflexivity|]. split.
  - vm_compute in E. now injection E as <- _.
  - exact (proj1 (movers_are_signed_and_ranked
                    SharedFacts.sample_clock SharedFacts.sample_catalog
                    SharedFacts.decimal DashboardFacts.no_repr
                    IsoDate.minus_days "2025-01-09" (@Frame.stable_sort)
                    [DashboardFacts.katana_position]
                    (Some DashboardFacts.two_days) FrameFacts.stable_sort_sorts
                    7 5%nat false SharedFacts.empty_world d w' E)).
Defined.

Lemma cli_report_matches_snapshot_bundle_witness :
  exists rep d,
    DashboardFacts.sample_cli (Some DashboardFacts.two_days) 7 5%nat "abs"
    = Ok rep /\
    sample_bundle = (Ok d, SharedFacts.empty_world) /\
    DashboardData.total_value_usd d = Movers.total_value rep.
Proof.
  destruct (DashboardFacts.sample_cli (Some DashboardFacts.two_days) 7 5%nat
              "abs") as [rep|e] eqn:E; [|vm_compute in E; discriminate].
  destruct (cli_report_matches_snapshot_bundle
              SharedFacts.sample_clock SharedFacts.sample_catalog
              SharedFacts.decimal DashboardFacts.no_repr
              IsoDate.minus_days "2025-01-09" (@Frame.stable_sort)
              [DashboardFacts.katana_position]
              (Some DashboardFacts.two_days)
              7 5%nat "abs" rep SharedFacts.empty_world E)
    as (d & t & _ & Hrun & _ & _ & Ht & _).
  exists rep, d. split; [reflexivity|]. split; [exact Hrun | exact Ht].
Defined.

Lemma type_breakdown_labels_witness :
  exists d,
    fst sample_bundle = Ok d /\
    forall g, In g (DashboardData.type_breakdown d) ->
      exists k, Frame.bucket g = Some k /\ k <> EmptyString.
Proof.
  destruct sample_bundle as [[d|e] w'] eqn:E; [|vm_compute in E; discriminate].
  exists d. split; [reflexivity|]. intros g Hg.
  destruct (type_breakdown_labels
              SharedFacts.sample_clock SharedFacts.sample_catalog
              SharedFacts.decimal DashboardFacts.no_repr
              IsoDate.minus_days "2025-01-09" (@Frame.stable_sort)
              [DashboardFacts.katana_position]
              (Some DashboardFacts.two_days) FrameFacts.stable_sort_sorts
              7 5%nat false SharedFacts.empty_world d w' E g Hg)
    as (k & h & Hk & Hne & _).
  exists k. split; assumption.
Defined.

End BundleFacts.

(** ** The portfolio time series *)

Module SeriesFacts.
Import Shared.

(** Dates strictly ascending, as text. *)
Definition date_before (a b : string * Q) : Prop :=
  String.leb (fst a) (fst b) = true /\ fst a <> fst b.

Lemma sorted_distinct_strict (l : list (string * Q)) :
  StronglySorted (fun a b => String.leb (fst a) (fst b) = true) l ->
  List.NoDup (List.map fst l) ->
  StronglySorted date_before l.
Proof.
  induction 1 as [|x l _ IH Hall]; intros Hnd; [constructor|].
  inversion Hnd as [|? ? Hx Hnd']; subst.
  constructor; [now apply IH|].
  rewrite Forall_forall in *. intros y Hy. split; [now apply Hall|].
  intros E. apply Hx. rewrite E. apply in_map. now apply list_elem_of_In.
Qed.

Lemma ascending_some_distinct (ks : list (option string)) :
  GroupFacts.ascending ks ->
  (forall k, In k ks -> exists d, k = Some d) ->
  List.NoDup (List.map (default "") ks).
Proof.
  induction 1 as [|k ks _ IH Hall]; intros Hsome; [constructor|].
  simpl. constructor.
  - intros Hin. apply in_map_iff in Hin. destruct Hin as (k' & E & Hk').
    rewrite Forall_forall in Hall.
    destruct (Hall k' (proj2 (list_elem_of_In _ _) Hk')) as [_ Hne].
    destruct (Hsome k (or_introl eq_refl)) as [d ->].
    destruct (Hsome k' (or_intror Hk')) as [d' ->].
    simpl in E. congruence.
  - apply IH. intros k' Hk'. apply Hsome. now right.
Qed.

Section Series.

Variable sort_by : forall A : Type, (A -> A -> bool) -> list A -> list A.
Variable owned_rows : list Frame.position.

Hypothesis sort_ok : Frame.sorts sort_by.

(** The value of the owned positions on one stored date, as snapshot mode
    computes it. *)
Definition value_on (t : SnapshotPrices.table) (d : string) : Q :=
  Frame.sum_skipna
    (List.map Frame.position_value_usd
       (DashboardData.merge_latest owned_rows t d)).

(** The merged frame of the time series query. *)
Definition priced_points (t : SnapshotPrices.table) (owned : list Frame.position)
  : list (string * option Q) :=
  Frame.merge_inner
    (fun p r =>
       String.eqb (Frame.set_code p) (SnapshotPrices.set_code r)
       && String.eqb (Frame.collector_number p)
            (SnapshotPrices.collector_number r)
       && String.eqb (Frame.finish p) (SnapshotPrices.finish r))
    (fun p r =>
       (SnapshotPrices.snapshot_date r,
        match SnapshotPrices.usd r with
        | Some u => Some (u * inject_Z (Frame.qty p))%Q
        | None => None
        end))
    owned
    (List.filter
       (fun r => match SnapshotPrices.usd r with Some _ => true | None => false end)
       t).

Lemma priced_points_in t owned d :
  In d (List.map fst (priced_points t owned)) <->
  exists p r, In p owned /\ In r t /\ SnapshotPrices.snapshot_date r = d /\
              SnapshotPrices.usd r <> None /\ BundleFacts.priced_as p r.
Proof.
  unfold priced_points, Frame.merge_inner, BundleFacts.priced_as.
  rewrite in_map_iff. split.
  - intros (dv & <- & Hin). apply in_flat_map in Hin.
    destruct Hin as (p & Hp & Hin). apply in_map_iff in Hin.
    destruct Hin as (r & <- & Hr). apply List.filter_In in Hr.
    destruct Hr as [Hr Hm]. apply List.filter_In in Hr. destruct Hr as [Hr Hu].
    exists p, r. simpl.
    rewrite !andb_true_iff, !String.eqb_eq in Hm.
    repeat split; try tauto. intros E. rewrite E in Hu. discriminate.
  - intros (p & r & Hp & Hr & Hd & Hu & Hs & Hc & Hf).
    eexists. split; [|apply in_flat_map; exists p; split; [exact Hp|];
                      apply in_map; apply List.filter_In; split;
                      [apply List.filter_In; split; [exact Hr|] |]].
    + exact Hd.
    + now destruct (SnapshotPrices.usd r).
    + rewrite !andb_true_iff, !String.eqb_eq. auto.
Qed.

Lemma day_value_one t d p :
  Frame.sum_skipna
    (List.map snd
       (List.filter (fun dv : string * option Q =>
                       Frame.key_eqb (Some (fst dv)) (Some d))
          (priced_points t [p])))
  = Frame.sum_skipna
      (List.map Frame.position_value_usd
         (DashboardData.merge_latest [p] t d)).
Proof.
  unfold priced_points, DashboardData.merge_latest, Frame.merge_inner.
  simpl. rewrite !List.app_nil_r.
  induction t as [|r t IH]; [reflexivity|]. simpl.
  destruct (SnapshotPrices.usd r) as [u|] eqn:Eu;
    destruct (String.eqb (SnapshotPrices.snapshot_date r) d) eqn:Ed; simpl;
    destruct (String.eqb (Frame.set_code p) (SnapshotPrices.set_code r)
              && String.eqb (Frame.collector_number p)
                   (SnapshotPrices.collector_number r)
              && String.eqb (Frame.finish p) (SnapshotPrices.finish r)) eqn:Em;
    simpl; rewrite ?Ed, ?Eu; simpl;
    unfold Frame.position_value_usd at 1; simpl; rewrite ?Eu;
    try (rewrite IH; reflexivity); try exact IH.
Qed.

Lemma day_value t d owned :
  (Frame.sum_skipna
     (List.map snd
        (List.filter (fun dv : string * option Q =>
                        Frame.key_eqb (Some (fst dv)) (Some d))
           (priced_points t owned)))
   == Frame.sum_skipna
        (List.map Frame.position_value_usd
           (DashboardData.merge_latest owned t d)))%Q.
Proof.
  induction owned as [|p owned IH]; [reflexivity|].
  replace (priced_points t (p :: owned))
    with (priced_points t [p] ++ priced_points t owned)%list
    by (unfold priced_points, Frame.merge_inner; simpl;
        now rewrite List.app_nil_r).
  replace (DashboardData.merge_latest (p :: owned) t d)
    with (DashboardData.merge_latest [p] t d
          ++ DashboardData.merge_latest owned t d)%list
    by (unfold DashboardData.merge_latest, Frame.merge_inner; simpl;
        now rewrite List.app_nil_r).
  rewrite List.filter_app, !List.map_app, !BucketFacts.sum_skipna_app.
  now rewrite IH, day_value_one.
Qed.

(** X22. The time series has one point per stored date on which some owned
    position has a priced row, dates strictly ascending; and the value of a
    point is the snapshot-mode total of that date: the sum of usd * qty
    over the owned positions' rows of the date, null prices left out. *)
Theorem time_series_points (t : SnapshotPrices.table) (ts : list (string * Q)) :
  DashboardData.get_portfolio_timeseries sort_by owned_rows (Some t) = Ok ts ->
  StronglySorted date_before ts /\
  (forall d,
     In d (List.map fst ts) <->
     exists p r, In p owned_rows /\ In r t /\
                 SnapshotPrices.snapshot_date r = d /\
                 SnapshotPrices.usd r <> None /\ BundleFacts.priced_as p r) /\
  (forall d v, In (d, v) ts -> (v == value_on t d)%Q).
Proof using sort_ok.
  unfold DashboardData.get_portfolio_timeseries. cbv zeta.
  fold (priced_points t owned_rows). intros [= <-].
  set (points := priced_points t owned_rows).
  set (keys := Frame.group_keys (List.map (fun dv => Some (fst dv)) points)).
  set (grouped := List.map _ (Frame.groupby_sum _ _ _ points)).
  assert (Hkeys : forall k, In k keys <-> exists d, k = Some d /\
                                                    In d (List.map fst points)).
  { intros k. split.
    - intros Hk. apply FrameFacts.group_keys_in, in_map_iff in Hk.
      destruct Hk as (dv & <- & Hdv). exists (fst dv). split; [reflexivity|].
      now apply in_map.
    - intros (d & -> & Hd). apply GroupFacts.group_keys_covers.
      apply in_map_iff in Hd. destruct Hd as (dv & <- & Hdv).
      apply in_map_iff. exists dv. auto. }
  assert (Hg : grouped
               = List.map
                   (fun k =>
                      (default "" k,
                       Frame.sum_skipna
                         (List.map snd
                            (List.filter
                               (fun dv : string * option Q =>
                                  Frame.key_eqb (Some (fst dv)) k) points))))
                   keys).
  { subst grouped. unfold Frame.groupby_sum. now rewrite List.map_map. }
  assert (Hfst : List.map fst grouped = List.map (default "") keys).
  { rewrite Hg, List.map_map. reflexivity. }
  destruct (sort_ok _ (fun a b : string * Q => String.leb (fst a) (fst b))
              grouped) as [Hp Hs].
  split; [|split].
  - apply sorted_distinct_strict.
    + apply Hs.
      * intros a b. apply String.leb_total.
      * intros a b c. apply DateFacts.leb_trans.
    + eapply Permutation_NoDup;
        [apply Permutation_sym, Permutation_map; exact Hp|].
      rewrite Hfst. apply ascending_some_distinct.
      * apply GroupFacts.group_keys_ascending.
      * intros k Hk. apply Hkeys in Hk. destruct Hk as (d & -> & _). eauto.
  - intros d. rewrite <- priced_points_in. fold points.
    split.
    + intros Hd. apply (Permutation_in _ (Permutation_map fst Hp)) in Hd.
      rewrite Hfst in Hd. apply in_map_iff in Hd.
      destruct Hd as (k & <- & Hk). apply Hkeys in Hk.
      now destruct Hk as (d' & -> & Hd').
    + intros Hd.
      apply (Permutation_in _ (Permutation_sym (Permutation_map fst Hp))).
      rewrite Hfst. apply in_map_iff. exists (Some d). split; [reflexivity|].
      apply Hkeys. eauto.
  - intros d v Hin. apply (Permutation_in _ Hp) in Hin.
    rewrite Hg in Hin. apply in_map_iff in Hin.
    destruct Hin as (k & E & Hk). apply Hkeys in Hk.
    destruct Hk as (d' & -> & _). simpl in E. injection E as <- <-.
    apply day_value.
Qed.

End Series.

Lemma time_series_points_witness :
  exists ts,
    DashboardData.get_portfolio_timeseries (@Frame.stable_sort)
      [DashboardFacts.katana_position] (Some DashboardFacts.two_days) = Ok ts /\
    List.map fst ts = ["2025-01-01"; "2025-01-08"] /\
    StronglySorted date_before ts.
Proof.
  destruct (DashboardData.get_portfolio_timeseries (@Frame.stable_sort)
              [DashboardFacts.katana_position] (Some DashboardFacts.two_days))
    as [ts|e] eqn:E; [|discriminate].
  exists ts. split; [reflexivity|]. split.
  - vm_compute in E. now injection E as <-.
  - exact (proj1 (time_series_points (@Frame.stable_sort)
                    [DashboardFacts.katana_position]
                    FrameFacts.stable_sort_sorts DashboardFacts.two_days ts E)).
Defined.

End SeriesFacts.

(** ** Cloning and editing a snapshot *)

Module CloneFacts.
Import SnapshotPrices SnapshotFacts.

(** No row of [sel] shares its key with a later one. *)
Fixpoint distinct_keys (sel : list snapshot_row) : Prop :=
  match sel with
  | [] => True
  | s :: rest =>
      (forall y, In y rest -> same_key y s = false) /\ distinct_keys rest
  end.

(** The rows of [t] that no row of [sel] replaces. *)
Definition untouched (sel : list snapshot_row) (t : table) : table :=
  List.filter (fun x => negb (existsb (fun s => same_key s x) sel)) t.

Definition insert_all (sel : list snapshot_row) (t : table) : table :=
  fold_left (fun acc r => insert_or_replace r acc) sel t.

Lemma filter_all {A} (f : A -> bool) l :
  (forall x, In x l -> f x = true) -> List.filter f l = l.
Proof.
  induction l as [|x l IH]; intros H; [reflexivity|]. simpl.
  rewrite (H x (or_introl eq_refl)). f_equal. apply IH.
  intros y Hy. apply H. now right.
Qed.

Lemma insert_all_closed_form sel t :
  distinct_keys sel -> insert_all sel t = (untouched sel t ++ sel)%list.
Proof.
  revert t. induction sel as [|s sel IH]; intros t Hd.
  - unfold untouched. simpl. rewrite List.app_nil_r. symmetry.
    now apply filter_all.
  - destruct Hd as [Hs Hd]. unfold insert_all in *. simpl.
    rewrite (IH _ Hd). unfold insert_or_replace, untouched.
    rewrite List.filter_app. simpl.
    assert (Hkeep : existsb (fun s0 => same_key s0 s) sel = false).
    { destruct (existsb _ sel) eqn:E; [|reflexivity].
      apply existsb_exists in E. destruct E as (y & Hy & E).
      rewrite (Hs y Hy) in E. discriminate. }
    rewrite Hkeep. simpl. rewrite <- List.app_assoc. simpl. f_equal.
    clear. induction t as [|x t IHt]; [reflexivity|]. simpl.
    destruct (same_key s x); simpl; [exact IHt|].
    destruct (existsb _ sel); simpl; [|f_equal]; exact IHt.
Qed.

Lemma insert_all_unique sel t : key_unique t -> key_unique (insert_all sel t).
Proof.
  revert t. induction sel as [|s sel IH]; intros t Hu; [exact Hu|].
  apply IH. now apply insert_or_replace_unique.
Qed.

Lemma insert_all_other_dates d sel t :
  (forall s, In s sel -> snapshot_date s = d) ->
  JobFacts.other_dates d (insert_all sel t) = JobFacts.other_dates d t.
Proof.
  revert t. induction sel as [|s sel IH]; intros t Hd; [reflexivity|].
  unfold insert_all in *. simpl. rewrite IH.
  - apply JobFacts.other_dates_insert. apply Hd. now left.
  - intros y Hy. apply Hd. now right.
Qed.

Lemma key_unique_tail x t :
  key_unique (x :: t) ->
  key_unique t /\ forall y, In y t -> same_key y x = false.
Proof.
  intros Hu.
  assert (Hx : forall y, In y t -> same_key y x = false).
  { pose proof (Hu x (or_introl eq_refl)) as H.
    rewrite keyed_like_filter in H. simpl in H.
    rewrite same_key_refl in H. injection H as H.
    intros y Hy. destruct (same_key y x) eqn:E; [|reflexivity].
    assert (Hin : In y (List.filter (fun r' => same_key r' x) t))
      by (apply List.filter_In; auto).
    rewrite H in Hin. destruct Hin. }
  split; [|exact Hx].
  intros r Hr. pose proof (Hu r (or_intror Hr)) as H.
  rewrite keyed_like_filter in *. simpl in H.
  rewrite same_key_sym, (Hx r Hr) in H. exact H.
Qed.

(** The rows the clone selects, under their new date. *)
Definition selected (t : table) (src_date dst_date : string)
  : list snapshot_row :=
  List.map (DevClone.with_date dst_date)
    (List.filter (fun r => String.eqb (snapshot_date r) src_date) t).

Lemma same_key_redated d a b :
  snapshot_date a = snapshot_date b ->
  same_key (DevClone.with_date d a) (DevClone.with_date d b) = same_key a b.
Proof.
  intros E. unfold same_key. simpl. rewrite E, !String.eqb_refl. reflexivity.
Qed.

Lemma selected_distinct t src dst :
  key_unique t -> distinct_keys (selected t src dst).
Proof.
  unfold selected. induction t as [|x t IH]; intros Hu; [exact I|].
  destruct (key_unique_tail x t Hu) as [Hu' Hx]. simpl.
  destruct (String.eqb (snapshot_date x) src) eqn:E; [|now apply IH].
  simpl. split; [|now apply IH].
  intros y Hy. apply in_map_iff in Hy. destruct Hy as (y0 & <- & Hy0).
  apply List.filter_In in Hy0. destruct Hy0 as [Hy0 Ey].
  apply String.eqb_eq in E, Ey.
  rewrite same_key_redated by congruence. now apply Hx.
Qed.

Lemma clone_closed_form t src dst t' n :
  key_unique t ->
  DevClone.clone_snapshot (Some t) src dst = Ok (t', n) ->
  t' = (untouched (selected t src dst) t ++ selected t src dst)%list /\
  n = length (List.filter (fun r => String.eqb (snapshot_date r) src) t).
Proof.
  intros Hu. unfold DevClone.clone_snapshot. intros [= <- <-].
  fold (selected t src dst). fold (insert_all (selected t src dst) t).
  split.
  - apply insert_all_closed_form. now apply selected_distinct.
  - unfold selected. now rewrite List.length_map.
Qed.

(** X23. What a clone does to the table. With the primary key unique, the
    clone returns the number of rows of the source date; every row of the
    source date has its copy under the target date, and that copy is then
    the only row of its (date, item id, finish): an older target-date row
    of the same card is overwritten. Every other target-date row stays,
    and the rows of all other dates are as before, in their order. *)
Theorem clone_snapshot_copies t src dst t' n :
  key_unique t ->
  DevClone.clone_snapshot (Some t) src dst = Ok (t', n) ->
  n = length (List.filter (fun r => String.eqb (snapshot_date r) src) t) /\
  key_unique t' /\
  (forall r, In r t -> snapshot_date r = src ->
     rows_for_key dst (scryfall_id r) (finish r) t'
     = [DevClone.with_date dst r]) /\
  (forall r', In r' t' -> snapshot_date r' = dst ->
     In r' t \/
     exists r, In r t /\ snapshot_date r = src /\ r' = DevClone.with_date dst r) /\
  JobFacts.other_dates dst t' = JobFacts.other_dates dst t.
Proof.
  intros Hu Hc.
  destruct (clone_closed_form t src dst t' n Hu Hc) as [Ht Hn].
  assert (Hu' : key_unique t').
  { unfold DevClone.clone_snapshot in Hc. injection Hc as <- _.
    now apply (insert_all_unique _ t). }
  split; [exact Hn|]. split; [exact Hu'|]. split; [|split].
  - intros r Hr Hd.
    assert (Hin : In (DevClone.with_date dst r) t').
    { rewrite Ht. apply List.in_app_iff. right. unfold selected.
      apply in_map. apply List.filter_In. split; [exact Hr|].
      now apply String.eqb_eq. }
    exact (Hu' _ Hin).
  - intros r' Hr' Hd. rewrite Ht in Hr'. apply List.in_app_iff in Hr'.
    destruct Hr' as [Hr' | Hr'].
    + left. unfold untouched in Hr'. apply List.filter_In in Hr'. tauto.
    + right. unfold selected in Hr'. apply in_map_iff in Hr'.
      destruct Hr' as (r & <- & Hr). apply List.filter_In in Hr.
      destruct Hr as [Hr E]. apply String.eqb_eq in E. eauto.
  - unfold DevClone.clone_snapshot in Hc. injection Hc as <- _.
    apply (insert_all_other_dates dst _ t).
    intros s Hs. apply in_map_iff in Hs. now destruct Hs as (r & <- & _).
Qed.

Lemma untouched_twice sel t :
  (untouched sel (untouched sel t ++ sel) = untouched sel t)%list.
Proof.
  unfold untouched. rewrite List.filter_app, StoreFacts.filter_twice.
  replace (List.filter _ sel) with (@nil snapshot_row);
    [now rewrite List.app_nil_r|].
  symmetry.
  assert (H : forall l, (forall x, In x l -> In x sel) ->
                List.filter
                  (fun x => negb (existsb (fun s => same_key s x) sel)) l = []).
  { induction l as [|x l IH]; intros Hl; [reflexivity|]. simpl.
    assert (E : existsb (fun s => same_key s x) sel = true).
    { apply existsb_exists. exists x. split; [apply Hl; now left|].
      apply same_key_refl. }
    rewrite E. simpl. apply IH. intros y Hy. apply Hl. now right. }
  apply H. auto.
Qed.

(** X24. Cloning again changes nothing. With the primary key unique and a
    target date other than the source date, a second clone of the same
    source onto the same target returns the same count and leaves the table
    exactly as the first clone left it. *)
Theorem clone_snapshot_again t src dst t' n :
  key_unique t -> src <> dst ->
  DevClone.clone_snapshot (Some t) src dst = Ok (t', n) ->
  DevClone.clone_snapshot (Some t') src dst = Ok (t', n).
Proof.
  intros Hu Hne Hc.
  destruct (clone_closed_form t src dst t' n Hu Hc) as [Ht Hn].
  assert (Hu' : key_unique t').
  { unfold DevClone.clone_snapshot in Hc. injection Hc as <- _.
    now apply (insert_all_unique _ t). }
  assert (Hsrc : List.filter (fun r => String.eqb (snapshot_date r) src) t'
                 = List.filter (fun r => String.eqb (snapshot_date r) src) t).
  { rewrite Ht, List.filter_app. unfold untouched.
    rewrite StoreFacts.filter_implied.
    - replace (List.filter _ (selected t src dst)) with (@nil snapshot_row);
        [now rewrite List.app_nil_r|].
      symmetry. unfold selected.
      assert (Hnil : forall l,
                List.filter (fun r => String.eqb (snapshot_date r) src)
                  (List.map (DevClone.with_date dst) l) = []).
      { induction l as [|x l IH]; [reflexivity|]. simpl.
        destruct (String.eqb dst src) eqn:E; [|exact IH].
        apply String.eqb_eq in E. congruence. }
      apply Hnil.
    - intros x Hx. apply String.eqb_eq in Hx. apply negb_true_iff.
      destruct (existsb _ _) eqn:E; [|reflexivity].
      apply existsb_exists in E. destruct E as (s & Hs & E).
      unfold selected in Hs. apply in_map_iff in Hs.
      destruct Hs as (r & <- & _). unfold same_key in E. simpl in E.
      rewrite !andb_true_iff, !String.eqb_eq in E. destruct E as [[E _] _].
      congruence. }
  assert (Hsel : selected t' src dst = selected t src dst).
  { unfold selected. now rewrite Hsrc. }
  destruct (DevClone.clone_snapshot (Some t') src dst) as [[t'' n']|e] eqn:E2;
    [|discriminate].
  destruct (clone_closed_form t' src dst t'' n' Hu' E2) as [Ht'' Hn'].
  rewrite Hsel in Ht''. rewrite Hsrc in Hn'.
  rewrite Ht'', Hn', Hn. f_equal. f_equal.
  rewrite Ht at 1. rewrite untouched_twice. now rewrite Ht.
Qed.

(** X25. An override edits one price and nothing else. The rows of the given
    (date, item id, finish) get the new price, every other column and every
    other row stays, in place; and when no row has that key the table is
    left exactly as it was, without an error. *)
Theorem override_edits_one_price t d id f new_usd t' :
  DevClone.apply_override (Some t) d id f new_usd = Ok t' ->
  rows_for_key d id f t'
  = List.map (DevClone.with_usd (Some new_usd)) (rows_for_key d id f t) /\
  (forall d' id' f',
     (d', id', f') <> (d, id, f) ->
     rows_for_key d' id' f' t' = rows_for_key d' id' f' t) /\
  List.map (fun r => (snapshot_date r, scryfall_id r, finish r)) t'
  = List.map (fun r => (snapshot_date r, scryfall_id r, finish r)) t /\
  (rows_for_key d id f t = [] -> t' = t).
Proof.
  unfold DevClone.apply_override. intros [= <-].
  split; [|split; [|split]].
  - unfold rows_for_key. induction t as [|x t IH]; [reflexivity|]. simpl.
    destruct (String.eqb (snapshot_date x) d && String.eqb (scryfall_id x) id
              && String.eqb (finish x) f) eqn:E; simpl; rewrite E; simpl;
      [f_equal|]; exact IH.
  - intros d' id' f' Hne. unfold rows_for_key.
    induction t as [|x t IH]; [reflexivity|]. simpl.
    destruct (String.eqb (snapshot_date x) d && String.eqb (scryfall_id x) id
              && String.eqb (finish x) f) eqn:E; simpl.
    + rewrite !andb_true_iff, !String.eqb_eq in E.
      destruct E as [[E1 E2] E3].
      destruct (String.eqb (snapshot_date x) d'
                && String.eqb (scryfall_id x) id'
                && String.eqb (finish x) f') eqn:E'; [|exact IH].
      rewrite !andb_true_iff, !String.eqb_eq in E'.
      destruct E' as [[E1' E2'] E3']. exfalso. apply Hne. congruence.
    + destruct (String.eqb (snapshot_date x) d'
                && String.eqb (scryfall_id x) id'
                && String.eqb (finish x) f'); [f_equal|]; exact IH.
  - rewrite List.map_map. apply List.map_ext. intros x.
    now destruct (String.eqb (snapshot_date x) d && String.eqb (scryfall_id x) id
                  && String.eqb (finish x) f).
  - unfold rows_for_key. intros Hnone.
    induction t as [|x t IH]; [reflexivity|]. simpl in *.
    destruct (String.eqb (snapshot_date x) d && String.eqb (scryfall_id x) id
              && String.eqb (finish x) f); [discriminate|].
    f_equal. now apply IH.
Qed.

(** *** A table of one snapshot date, cloned one day back *)

Lemma one_day_unique : key_unique DashboardFacts.one_day.
Proof. intros r [<- | []]. reflexivity. Qed.

Definition one_day_cloned : table :=
  (DashboardFacts.one_day
   ++ [DevClone.with_date "2025-01-07" (katana_row (1 # 4))])%list.

Lemma clone_snapshot_copies_witness :
  1%nat = length (List.filter
                    (fun r => String.eqb (snapshot_date r) "2025-01-08")
                    DashboardFacts.one_day) /\
  key_unique one_day_cloned.
Proof.
  destruct (clone_snapshot_copies DashboardFacts.one_day "2025-01-08"
              "2025-01-07" one_day_cloned 1%nat one_day_unique eq_refl)
    as (Hn & Hu & _).
  split; assumption.
Defined.

Lemma clone_snapshot_again_witness :
  DevClone.clone_snapshot (Some one_day_cloned) "2025-01-08" "2025-01-07"
  = Ok (one_day_cloned, 1%nat).
Proof.
  apply (clone_snapshot_again DashboardFacts.one_day "2025-01-08" "2025-01-07"
           one_day_cloned 1%nat one_day_unique).
  - discriminate.
  - reflexivity.
Defined.

Lemma override_edits_one_price_witness :
  rows_for_key "2025-01-08" "a1" "nonfoil" [katana_row 5]
  = List.map (DevClone.with_usd (Some 5%Q))
      (rows_for_key "2025-01-08" "a1" "nonfoil" DashboardFacts.one_day).
Proof.
  exact (proj1 (override_edits_one_price DashboardFacts.one_day "2025-01-08"
                  "a1" "nonfoil" 5%Q [katana_row 5] eq_refl)).
Defined.

End CloneFacts.

(** ** The command-line movers report *)

Module CliFacts.
Import Frame.

Lemma x_leb_total x y : x_leb x y = true \/ x_leb y x = true.
Proof.
  destruct x as [a| | |], y as [b| | |]; simpl; auto.
  destruct (Qle_bool a b) eqn:E; [now left|right].
  apply Qle_bool_iff. apply Qlt_le_weak, Qnot_le_lt. intros H.
  apply Qle_bool_iff in H. congruence.
Qed.

Lemma x_leb_trans x y z :
  x_leb x y = true -> x_leb y z = true -> x_leb x z = true.
Proof.
  destruct x as [a| | |], y as [b| | |], z as [c| | |]; simpl;
    try congruence.
  rewrite !Qle_bool_iff. apply Qle_trans.
Qed.

(** The sign of the percent column, for a baseline that is not negative. *)
Lemma percent_positive d b :
  (0 <= b)%Q -> x_positive (xscale (xdiv d b) 100) = true -> (0 < d)%Q.
Proof.
  intros Hb. unfold xdiv.
  destruct (Qeq_bool b 0) eqn:Eb.
  - destruct (Qeq_bool d 0) eqn:Ed; [discriminate|].
    destruct (Qle_bool 0 d) eqn:El; [|discriminate]. intros _.
    apply Qle_bool_iff in El. apply Qle_lteq in El.
    destruct El as [El | El]; [exact El|].
    symmetry in El. apply Qeq_bool_iff in El. congruence.
  - simpl. intros H. apply negb_true_iff in H.
    apply Qnot_le_lt. intros Hd.
    assert (Hle : Qle_bool (d / b * 100) 0 = true); [|congruence].
    apply Qle_bool_iff.
    assert (Hpos : (0 < b)%Q).
    { apply Qle_lteq in Hb. destruct Hb as [Hb | Hb]; [exact Hb|].
      symmetry in Hb. apply Qeq_bool_iff in Hb. congruence. }
    assert (Hq : (d / b <= 0)%Q).
    { unfold Qdiv. rewrite <- (Qmult_0_l (/ b)).
      apply Qmult_le_compat_r; [exact Hd|].
      apply Qlt_le_weak. now apply Qinv_lt_0_compat. }
    rewrite <- (Qmult_0_l 100). apply Qmult_le_compat_r; [exact Hq|].
    discriminate.
Qed.

Lemma percent_negative d b :
  (0 <= b)%Q -> x_negative (xscale (xdiv d b) 100) = true -> (d < 0)%Q.
Proof.
  intros Hb. unfold xdiv.
  destruct (Qeq_bool b 0) eqn:Eb.
  - destruct (Qeq_bool d 0) eqn:Ed; [discriminate|].
    destruct (Qle_bool 0 d) eqn:El; [discriminate|]. intros _.
    apply Qnot_le_lt. intros H. apply Qle_bool_iff in H. congruence.
  - simpl. intros H. apply negb_true_iff in H.
    apply Qnot_le_lt. intros Hd.
    assert (Hle : Qle_bool 0 (d / b * 100) = true); [|congruence].
    apply Qle_bool_iff.
    assert (Hpos : (0 < b)%Q).
    { apply Qle_lteq in Hb. destruct Hb as [Hb | Hb]; [exact Hb|].
      symmetry in Hb. apply Qeq_bool_iff in Hb. congruence. }
    assert (Hq : (0 <= d / b)%Q).
    { unfold Qdiv. rewrite <- (Qmult_0_l (/ b)).
      apply Qmult_le_compat_r; [exact Hd|].
      apply Qlt_le_weak. now apply Qinv_lt_0_compat. }
    rewrite <- (Qmult_0_l 100). apply Qmult_le_compat_r; [exact Hq|].
    discriminate.
Qed.

Section Run.

Variable date_minus_days : string -> Z -> option string.
Variable sort_by : forall A : Type, (A -> A -> bool) -> list A -> list A.
Variable owned_rows : list position.
Variable db : option SnapshotPrices.table.

Hypothesis sort_ok : sorts sort_by.

(** The column the report ranks by. *)
Definition ranked_by (sort_mode : string) : mover xfloat -> xfloat :=
  if String.eqb sort_mode "abs" then (fun m => Fin (delta_usd m))
  else pct_change.

(** X26. The movers of the command-line report, in either sort mode. Each
    view has at most [top_n] rows, gainers by falling and losers by rising
    value of the ranking column; every row has delta = current - baseline;
    and a gainer whose baseline price is not negative has a positive price
    change, a loser a negative one, whether ranked by amount or by
    percent. *)
Theorem cli_movers_signed_and_ranked days top_n sort_mode rep :
  Movers.main date_minus_days sort_by owned_rows db days top_n sort_mode
  = Ok rep ->
  (length (Movers.gainers rep) <= top_n)%nat /\
  (length (Movers.losers rep) <= top_n)%nat /\
  StronglySorted
    (fun a b => x_leb (ranked_by sort_mode b) (ranked_by sort_mode a) = true)
    (Movers.gainers rep) /\
  StronglySorted
    (fun a b => x_leb (ranked_by sort_mode a) (ranked_by sort_mode b) = true)
    (Movers.losers rep) /\
  (forall m, In m (Movers.gainers rep ++ Movers.losers rep)%list ->
     delta_usd m = (current m - baseline m)%Q) /\
  (forall m, In m (Movers.gainers rep) -> (0 <= baseline m)%Q ->
     (0 < delta_usd m)%Q) /\
  (forall m, In m (Movers.losers rep) -> (0 <= baseline m)%Q ->
     (delta_usd m < 0)%Q).
Proof using sort_ok.
  unfold Movers.main.
  destruct (Movers.latest_snapshot_date db) as [latest|e]; [|discriminate].
  unfold rbind at 1.
  destruct (date_minus_days latest days) as [target|]; [|discriminate].
  destruct (Movers.snapshot_on_or_before db target) as [[b|]|e];
    try discriminate.
  unfold rbind. destruct db as [t|]; [|discriminate].
  cbv zeta. intros [= <-]. simpl.
  fold (ranked_by sort_mode).
  set (frame := Movers.movers_frame _ _).
  set (moved := List.filter (fun m => x_nonzero (ranked_by sort_mode m)) frame).
  set (up := List.filter (fun m => x_positive (ranked_by sort_mode m)) moved).
  set (down := List.filter (fun m => x_negative (ranked_by sort_mode m)) moved).
  destruct (sort_ok _ (fun x y => x_leb (ranked_by sort_mode y)
                                    (ranked_by sort_mode x)) up) as [Hpu Hsu].
  destruct (sort_ok _ (fun x y => x_leb (ranked_by sort_mode x)
                                    (ranked_by sort_mode y)) down) as [Hpd Hsd].
  assert (Hup : forall m,
                  In m (firstn top_n
                          (sort_by _ (fun x y => x_leb (ranked_by sort_mode y)
                                                   (ranked_by sort_mode x)) up)) ->
                  In m frame /\ x_positive (ranked_by sort_mode m) = true).
  { intros m Hm. apply GroupFacts.firstn_In in Hm.
    apply (Permutation_in _ Hpu) in Hm. apply List.filter_In in Hm.
    destruct Hm as [Hm Hpos]. apply List.filter_In in Hm. tauto. }
  assert (Hdown : forall m,
                    In m (firstn top_n
                            (sort_by _ (fun x y => x_leb (ranked_by sort_mode x)
                                                     (ranked_by sort_mode y))
                               down)) ->
                    In m frame /\ x_negative (ranked_by sort_mode m) = true).
  { intros m Hm. apply GroupFacts.firstn_In in Hm.
    apply (Permutation_in _ Hpd) in Hm. apply List.filter_In in Hm.
    destruct Hm as [Hm Hneg]. apply List.filter_In in Hm. tauto. }
  split; [apply firstn_le_length|]. split; [apply firstn_le_length|].
  split; [|split; [|split; [|split]]].
  - apply GroupFacts.firstn_sorted. apply Hsu.
    + intros x y. apply x_leb_total.
    + intros x y z H1 H2. eapply x_leb_trans; eauto.
  - apply GroupFacts.firstn_sorted. apply Hsd.
    + intros x y. apply x_leb_total.
    + intros x y z. apply x_leb_trans.
  - intros m Hm. apply in_app_or in Hm.
    destruct Hm as [Hm | Hm]; [apply Hup in Hm | apply Hdown in Hm];
      destruct Hm as [Hm _]; now apply ViewFacts.cli_mover_row in Hm.
  - intros m Hm Hb. apply Hup in Hm. destruct Hm as [Hm Hpos].
    apply ViewFacts.cli_mover_row in Hm. destruct Hm as [_ Hpct].
    unfold ranked_by in Hpos. destruct (String.eqb sort_mode "abs").
    + simpl in Hpos. apply negb_true_iff in Hpos.
      apply Qnot_le_lt. intros H. apply Qle_bool_iff in H. congruence.
    + rewrite Hpct in Hpos. now apply (percent_positive _ (baseline m)).
  - intros m Hm Hb. apply Hdown in Hm. destruct Hm as [Hm Hneg].
    apply ViewFacts.cli_mover_row in Hm. destruct Hm as [_ Hpct].
    unfold ranked_by in Hneg. destruct (String.eqb sort_mode "abs").
    + simpl in Hneg. apply negb_true_iff in Hneg.
      apply Qnot_le_lt. intros H. apply Qle_bool_iff in H. congruence.
    + rewrite Hpct in Hneg. now apply (percent_negative _ (baseline m)).
Qed.

End Run.

Lemma cli_movers_signed_and_ranked_witness :
  exists rep,
    DashboardFacts.sample_cli (Some DashboardFacts.two_days) 7 5%nat "pct"
    = Ok rep /\
    (length (Movers.gainers rep) <= 5)%nat /\
    (forall m, In m (Movers.gainers rep) -> (0 <= baseline m)%Q ->
       (0 < delta_usd m)%Q).
Proof.
  destruct (DashboardFacts.sample_cli (Some DashboardFacts.two_days) 7 5%nat
              "pct") as [rep|e] eqn:E; [|vm_compute in E; discriminate].
  exists rep. split; [reflexivity|].
  destruct (cli_movers_signed_and_ranked IsoDate.minus_days
              (@stable_sort) [DashboardFacts.katana_position]
              (Some DashboardFacts.two_days) FrameFacts.stable_sort_sorts
              7 5%nat "pct" rep E) as (Hl & _ & _ & _ & _ & Hg & _).
  split; assumption.
Defined.

End CliFacts.

(** ** More on type buckets *)

Module BucketMore.

(** [sep in s] *)
Fixpoint occurs (sep s : string) : bool :=
  match s with
  | EmptyString => false
  | String _ rest => String.prefix sep s || occurs sep rest
  end.

Lemma before_first_absent sep s :
  occurs sep s = false -> Text.before_first sep s = s.
Proof.
  induction s as [|c rest IH]; [reflexivity|].
  cbn [occurs Text.before_first]. intros H.
  apply orb_false_iff in H. destruct H as [-> H]. now rewrite IH.
Qed.

(** X27. The buckets are never blank. For every type line, in the validation
    script and in the dashboard alike, [type_buckets] returns at least one
    bucket, and every bucket is a non-empty word without surrounding
    whitespace ("Unknown" when the part before the separator has no word). *)
Theorem type_buckets_never_blank s :
  (ValidateCsv.type_buckets s <> [] /\
   Forall (fun t => t <> EmptyString /\ Text.strip t = t)
     (ValidateCsv.type_buckets s)) /\
  (DashboardData.type_buckets s <> [] /\
   Forall (fun t => t <> EmptyString /\ Text.strip t = t)
     (DashboardData.type_buckets s)).
Proof.
  split.
  - rewrite BucketFacts.validate_type_buckets_tokens.
    pose proof (TextFacts.split_ws_tokens
                  (Text.before_first ValidateCsv.em_dash s)) as H.
    destruct (Text.split_ws _) as [|t ts].
    + split; [discriminate|]. constructor; [|constructor].
      split; [discriminate | reflexivity].
    + split; [discriminate | exact H].
  - rewrite BucketFacts.dashboard_type_buckets_tokens.
    pose proof (TextFacts.split_ws_tokens
                  (Text.before_first DashboardData.separator s)) as H.
    destruct (Text.split_ws _) as [|t ts].
    + split; [discriminate|]. constructor; [|constructor].
      split; [discriminate | reflexivity].
    + split; [discriminate | exact H].
Qed.

(** X28. The two scripts agree away from the separators. On a type line
    that contains neither the em dash nor the dashboard's own separator
    literal, the validation script and the dashboard derive the same
    buckets: the words of the line, or "Unknown" when it has none. *)
Theorem buckets_agree_without_separator s :
  occurs ValidateCsv.em_dash s = false ->
  occurs DashboardData.separator s = false ->
  DashboardData.type_buckets s = ValidateCsv.type_buckets s /\
  ValidateCsv.type_buckets s
  = match Text.split_ws s with
    | [] => ["Unknown"]
    | words => words
    end.
Proof.
  intros Hd Hs.
  rewrite BucketFacts.validate_type_buckets_tokens,
    BucketFacts.dashboard_type_buckets_tokens.
  rewrite (before_first_absent _ _ Hd), (before_first_absent _ _ Hs).
  split; reflexivity.
Qed.

Lemma buckets_agree_without_separator_witness :
  DashboardData.type_buckets "Legendary  Enchantment"
  = ValidateCsv.type_buckets "Legendary  Enchantment" /\
  ValidateCsv.type_buckets "Legendary  Enchantment"
  = ["Legendary"; "Enchantment"].
Proof.
  apply (buckets_agree_without_separator "Legendary  Enchantment");
    reflexivity.
Defined.

End BucketMore.
